(** * push_back: the notification dispatch pipeline

    A shallow embedding of the [notifications] Django application
    (models.py, firebase_service.py, signals.py, admin.py, views.py) and
    the properties of its dispatch pipeline, device registry and
    notification life cycle.

    The process state, the database and the outside world (credential
    file, Firebase Admin SDK, clock) are threaded explicitly through a
    small state-and-exception monad. *)

From stdpp Require Import base option list gmap strings pretty.

Set Warnings "-clear-no-such-hyp".

Open Scope Z_scope.

(** ** Python values used by the code *)

(** The exception classes the code distinguishes.  All of them derive from
    [Exception], so a bare [except Exception] catches every one. *)
Inductive Exn :=
| Exception (msg : string)
| DoesNotExist (msg : string)
| Http404 (msg : string).

(** [str(e)] *)
Definition str (e : Exn) : string :=
  match e with
  | Exception m => m
  | DoesNotExist m => m
  | Http404 m => m
  end.

Inductive Result (A : Type) :=
| Return (a : A)
| Raise (e : Exn).
Arguments Return {A} a.
Arguments Raise {A} e.

(** Truthiness of an optional string ([if token], [path and ...]). *)
Definition truthy_str (o : option string) : bool :=
  match o with
  | Some s => negb (String.eqb s "")
  | None => false
  end.

(** Truthiness of an optional integer ([if user_id]). *)
Definition truthy_int (o : option Z) : bool :=
  match o with
  | Some z => negb (z =? 0)
  | None => false
  end.

(** A JSON object with string keys, as stored in [PushNotification.data]. *)
Definition Dict := list (string * string).

(** [data or {}] *)
Definition or_empty (data : option Dict) : Dict :=
  match data with
  | Some (kv :: d) => kv :: d
  | _ => []
  end.

(** ** models.py *)

Module DeviceToken.
Record t := Build {
  id : Z;
  user : option Z;
  token : string;
  device_type : string;
  is_active : bool
}.
End DeviceToken.

Inductive Status := draft | sending | sent | failed.

Global Instance Status_eq_dec : EqDecision Status.
Proof. solve_decision. Defined.

Module PushNotification.
Record t := Build {
  id : Z;
  title : string;
  body : string;
  data : Dict;
  image_url : option string;
  auto_send : bool;
  send_to_all : bool;
  target_users : list Z;
  target_device_types : string;
  status : Status;
  total_recipients : Z;
  successful_sends : Z;
  failed_sends : Z;
  sent_at : option Z
}.

Definition set_status (v : Status) (n : t) : t :=
  Build (id n) (title n) (body n) (data n) (image_url n) (auto_send n)
    (send_to_all n) (target_users n) (target_device_types n) v
    (total_recipients n) (successful_sends n) (failed_sends n) (sent_at n).

Definition set_total_recipients (v : Z) (n : t) : t :=
  Build (id n) (title n) (body n) (data n) (image_url n) (auto_send n)
    (send_to_all n) (target_users n) (target_device_types n) (status n)
    v (successful_sends n) (failed_sends n) (sent_at n).

Definition set_successful_sends (v : Z) (n : t) : t :=
  Build (id n) (title n) (body n) (data n) (image_url n) (auto_send n)
    (send_to_all n) (target_users n) (target_device_types n) (status n)
    (total_recipients n) v (failed_sends n) (sent_at n).

Definition set_failed_sends (v : Z) (n : t) : t :=
  Build (id n) (title n) (body n) (data n) (image_url n) (auto_send n)
    (send_to_all n) (target_users n) (target_device_types n) (status n)
    (total_recipients n) (successful_sends n) v (sent_at n).

Definition set_sent_at (v : option Z) (n : t) : t :=
  Build (id n) (title n) (body n) (data n) (image_url n) (auto_send n)
    (send_to_all n) (target_users n) (target_device_types n) (status n)
    (total_recipients n) (successful_sends n) (failed_sends n) v.
End PushNotification.

Inductive LogStatus := success | log_failed.

Global Instance LogStatus_eq_dec : EqDecision LogStatus.
Proof. solve_decision. Defined.

Module NotificationLog.
Record t := Build {
  notification : Z;
  device_token : Z;
  status : LogStatus;
  error_message : option string
}.
End NotificationLog.

(** The database: the three tables of models.py, the [auth.User] rows the
    foreign keys point to, and the sequence that numbers new
    [DeviceToken] rows.  [journal] is a history variable: it lists,
    oldest first, the status carried by every [PushNotification] row
    version written; a rollback takes its entries back together with the
    rows, and no code reads it. *)
Record Db := {
  users : list Z;
  device_tokens : list DeviceToken.t;
  device_token_seq : Z;
  notifications : gmap Z PushNotification.t;
  notification_logs : list NotificationLog.t;
  journal : list (Z * Status)
}.

(** ** models.py and admin.py: how a row is displayed *)

(** [s[:n]], for a string whose characters take one byte each (ASCII),
    as device tokens are: the first [n] characters. *)
Definition str_prefix (n : nat) (s : string) : string := String.substring 0 n s.

(** [DeviceToken.__str__] *)
Definition DeviceToken_str (self : DeviceToken.t) : string :=
  DeviceToken.device_type self +:+ " - "
  +:+ str_prefix 20 (DeviceToken.token self) +:+ "...".

(** [DeviceTokenAdmin.token_preview] *)
Definition token_preview (obj : DeviceToken.t) : string :=
  if negb (String.eqb (DeviceToken.token obj) "")
  then str_prefix 20 (DeviceToken.token obj) +:+ "..."
  else "".

(** ** The world outside the process *)

(** What firebase_service.py, signals.py and admin.py consume without
    implementing: the Django setting, the file system, the Firebase Admin
    SDK and the clock. *)
Record Env := {
  World : Type;
  App : Type;
  Cred : Type;
  Notification : Type;
  FIREBASE_SERVICE_ACCOUNT_KEY : option string;
  os_path_exists : string -> World -> bool;
  credentials_Certificate : string -> World -> Result Cred;
  firebase_admin_initialize_app : Cred -> World -> Result App * World;
  messaging_Notification : string -> string -> option string -> Result Notification;
  messaging_send : Notification -> Dict -> string -> World -> Result string * World;
  timezone_now : World -> Z
}.

Existing Class Env.

Inductive Level := ERROR | INFO | SUCCESS.

Global Instance Level_eq_dec : EqDecision Level.
Proof. solve_decision. Defined.

(** ** firebase_service.py: result dictionaries *)

(** What [send_notification_to_token] returns. *)
Module SendResult.
Record t := Build {
  success : bool;
  message_id : option string;
  error : option string
}.
End SendResult.

(** One entry of the bulk form's ['responses']. *)
Module TokenResponse.
Record t := Build {
  token : string;
  success : bool;
  message_id : option string;
  error : option string
}.
End TokenResponse.

(** What [send_notification_to_multiple_tokens] returns. *)
Module BulkResult.
Record t := Build {
  success_count : Z;
  failure_count : Z;
  responses : list TokenResponse.t
}.
End BulkResult.

(** ** views.py: requests and responses *)

Inductive Json :=
| JString (v : string)
| JBool (v : bool)
| JInt (v : Z).

(** [request.data] of the registration and unregistration endpoints; a
    key that is absent is [None]. *)
Module Request.
Record t := Build {
  token : option string;
  device_type : option string;
  user_id : option Z
}.
End Request.

Module Response.
Record t := Build {
  data : list (string * Json);
  status : Z
}.
End Response.

Definition HTTP_200_OK : Z := 200.
Definition HTTP_201_CREATED : Z := 201.
Definition HTTP_400_BAD_REQUEST : Z := 400.
Definition HTTP_404_NOT_FOUND : Z := 404.
Definition HTTP_500_INTERNAL_SERVER_ERROR : Z := 500.
Definition HTTP_503_SERVICE_UNAVAILABLE : Z := 503.

(** [request.data] of the test endpoint; a key that is absent is [None]. *)
Module TestRequest.
Record t := Build {
  token : option string;
  title : option string;
  body : option string;
  data : option Dict;
  image_url : option string
}.
End TestRequest.

(** The answers of the test endpoint: every value is a string, or [None]
    where the code passes on an optional one. *)
Module TestResponse.
Record t := Build {
  data : list (string * option string);
  status : Z
}.
End TestResponse.

Section Program.

Context {env : Env}.

(** Class attributes of [FirebaseService]. *)
Record FirebaseService := {
  _app : option (App env);
  _initialized : bool
}.

(** Everything a request handler or a dispatcher can touch.  [logger] is
    what the module loggers have written, [messages] the operator's
    message queue of the admin request.  [bulk_calls] is a history
    variable: the token list of every call of the bulk delivery form so
    far, oldest first; no code reads it. *)
Record State := {
  service : FirebaseService;
  world : World env;
  db : Db;
  logger : list (Level * string);
  messages : list (Level * string);
  bulk_calls : list (list string)
}.

Definition set_service (v : FirebaseService) (s : State) : State :=
  {| service := v; world := world s; db := db s;
     logger := logger s; messages := messages s;
     bulk_calls := bulk_calls s |}.

Definition set_world (v : World env) (s : State) : State :=
  {| service := service s; world := v; db := db s;
     logger := logger s; messages := messages s;
     bulk_calls := bulk_calls s |}.

Definition set_db (v : Db) (s : State) : State :=
  {| service := service s; world := world s; db := v;
     logger := logger s; messages := messages s;
     bulk_calls := bulk_calls s |}.

(** ** The monad: state and exceptions *)

Definition M (A : Type) : Type := State -> Result A * State.

Definition ret {A} (a : A) : M A := fun s => (Return a, s).

Definition raise {A} (e : Exn) : M A := fun s => (Raise e, s).

Definition bind {A B} (m : M A) (k : A -> M B) : M B :=
  fun s =>
    match m s with
    | (Return a, s') => k a s'
    | (Raise e, s') => (Raise e, s')
    end.

(** [try: body except Exception as e: handler] *)
Definition try_except {A} (body : M A) (handler : Exn -> M A) : M A :=
  fun s =>
    match body s with
    | (Return a, s') => (Return a, s')
    | (Raise e, s') => handler e s'
    end.

(** [with transaction.atomic(): body]: an exception leaving the block
    rolls the database back to what it was on entry and goes on
    propagating; everything outside the database keeps its effects. *)
Definition atomic {A} (body : M A) : M A :=
  fun s =>
    match body s with
    | (Return a, s') => (Return a, s')
    | (Raise e, s') => (Raise e, set_db (db s) s')
    end.

Definition get_state : M State := fun s => (Return s, s).

Definition modify (f : State -> State) : M unit := fun s => (Return tt, f s).

Notation "'let!' x ':=' m 'in' k" := (bind m (fun x => k))
  (at level 10, x name, m at level 100, k at level 200).
Notation "m ;; k" := (bind m (fun _ => k))
  (at level 100, k at level 200, right associativity).

(** A call that only reads the world. *)
Definition ask {A} (f : World env -> A) : M A :=
  fun s => (Return (f (world s)), s).

(** A call that may change the world and may raise. *)
Definition call {A} (f : World env -> Result A * World env) : M A :=
  fun s => let (r, w) := f (world s) in (r, set_world w s).

(** A call that reads the world and may raise. *)
Definition read {A} (f : World env -> Result A) : M A :=
  fun s => (f (world s), s).

(** A call that may raise and touches nothing. *)
Definition pure_call {A} (r : Result A) : M A := fun s => (r, s).

Definition log (lvl : Level) (msg : string) : M unit :=
  modify (fun s =>
    {| service := service s; world := world s; db := db s;
       logger := logger s ++ [(lvl, msg)]; messages := messages s;
       bulk_calls := bulk_calls s |}).

Definition messages_add (lvl : Level) (msg : string) : M unit :=
  modify (fun s =>
    {| service := service s; world := world s; db := db s;
       logger := logger s; messages := messages s ++ [(lvl, msg)];
       bulk_calls := bulk_calls s |}).

(** Records one call of the bulk delivery form in the history. *)
Definition record_bulk_call (tokens : list string) : M unit :=
  modify (fun s =>
    {| service := service s; world := world s; db := db s;
       logger := logger s; messages := messages s;
       bulk_calls := bulk_calls s ++ [tokens] |}).

(** How an f-string prints an optional string. *)
Definition fmt_opt (o : option string) : string :=
  match o with
  | Some s => s
  | None => "None"
  end.

(** ** firebase_service.py *)

Definition set_app (a : option (App env)) : M unit :=
  modify (fun s =>
    set_service {| _app := a; _initialized := _initialized (service s) |} s).

Definition set_initialized (b : bool) : M unit :=
  modify (fun s =>
    set_service {| _app := _app (service s); _initialized := b |} s).

Definition is_none {A} (o : option A) : bool :=
  match o with
  | None => true
  | Some _ => false
  end.

Definition initialize_firebase : M unit :=
  let! s := get_state in
  if is_none (_app (service s)) && negb (_initialized (service s)) then
    try_except
      (let service_account_path := FIREBASE_SERVICE_ACCOUNT_KEY env in
       let! found := ask (fun w =>
                  truthy_str service_account_path
                  && os_path_exists env (default "" service_account_path) w) in
       if found then
         let! cred := read (credentials_Certificate env (default "" service_account_path)) in
         let! app := call (firebase_admin_initialize_app env cred) in
         set_app (Some app) ;;
         set_initialized true ;;
         log INFO "Firebase initialized successfully with service account key"
       else
         log ERROR ("Firebase service account key not found at: "
                    +:+ fmt_opt service_account_path) ;;
         log ERROR "Firebase features will be disabled" ;;
         set_initialized true)
      (fun e =>
         log ERROR ("Failed to initialize Firebase: " +:+ str e) ;;
         set_initialized true ;;
         raise e)
  else ret tt.

Definition is_firebase_available : M bool :=
  initialize_firebase ;;
  let! s := get_state in
  ret (negb (is_none (_app (service s)))).

Definition not_configured : string :=
  "Firebase is not properly configured. Please check your service account key.".

(** [messaging.Message(notification=..., data=..., token=...)] only stores
    its arguments; it is folded into [messaging_send], which receives
    them. *)
Definition send_notification_to_token
    (token title body : string) (data : option Dict)
    (image_url : option string) : M SendResult.t :=
  let! available := is_firebase_available in
  if negb available then
    log ERROR "Firebase is not available. Cannot send notification." ;;
    ret (SendResult.Build false None (Some not_configured))
  else
    try_except
      (let! notification := pure_call (messaging_Notification env title body image_url) in
       let! response := call (messaging_send env notification (or_empty data) token) in
       log INFO ("Successfully sent message: " +:+ response) ;;
       ret (SendResult.Build true (Some response) None))
      (fun e =>
         log ERROR ("Failed to send notification to token " +:+ token
                    +:+ ": " +:+ str e) ;;
         ret (SendResult.Build false None (Some (str e)))).

(** The [for token in tokens] loop of the bulk form, with its three
    accumulators. *)
Fixpoint send_each (notification : Notification env) (data : option Dict)
    (tokens : list string)
    (responses : list TokenResponse.t) (success_count failure_count : Z)
    : M (list TokenResponse.t * Z * Z) :=
  match tokens with
  | [] => ret (responses, success_count, failure_count)
  | token :: rest =>
      let! step := try_except
        (let! message_id := call (messaging_send env notification (or_empty data) token) in
         ret (responses ++ [TokenResponse.Build token true (Some message_id) None],
              success_count + 1, failure_count))
        (fun e =>
           ret (responses ++ [TokenResponse.Build token false None (Some (str e))],
                success_count, failure_count + 1)) in
      let '(responses, success_count, failure_count) := step in
      send_each notification data rest responses success_count failure_count
  end.

Definition send_notification_to_multiple_tokens
    (tokens : list string) (title body : string) (data : option Dict)
    (image_url : option string) : M BulkResult.t :=
  record_bulk_call tokens ;;
  initialize_firebase ;;
  match tokens with
  | [] => ret (BulkResult.Build 0 0 [])
  | _ =>
    try_except
      (let! notification := pure_call (messaging_Notification env title body image_url) in
       let! sent := send_each notification data tokens [] 0 0 in
       let '(responses, success_count, failure_count) := sent in
       log INFO ("Successfully sent " +:+ pretty success_count +:+ " messages") ;;
       log INFO ("Failed to send " +:+ pretty failure_count +:+ " messages") ;;
       ret (BulkResult.Build success_count failure_count responses))
      (fun e =>
         log ERROR ("Failed to send multicast notification: " +:+ str e) ;;
         ret (BulkResult.Build 0 (Z.of_nat (length tokens))
                (map (fun token =>
                        TokenResponse.Build token false None (Some (str e)))
                     tokens)))
  end.

(** [messaging.send] of a message addressed to a topic; the [Env] above
    has the token-addressed one. *)
Variable messaging_send_topic :
  Notification env -> Dict -> string -> World env -> Result string * World env.

Definition send_notification_to_topic
    (topic title body : string) (data : option Dict)
    (image_url : option string) : M SendResult.t :=
  initialize_firebase ;;
  try_except
    (let! notification := pure_call (messaging_Notification env title body image_url) in
     let! response := call (messaging_send_topic notification (or_empty data) topic) in
     log INFO ("Successfully sent message to topic " +:+ topic
               +:+ ": " +:+ response) ;;
     ret (SendResult.Build true (Some response) None))
    (fun e =>
       log ERROR ("Failed to send notification to topic " +:+ topic
                  +:+ ": " +:+ str e) ;;
       ret (SendResult.Build false None (Some (str e)))).

(** ** The ORM calls the code makes *)

(** [PushNotification.objects.get(id=notification_id)] *)
Definition PushNotification_objects_get (notification_id : Z)
    : M PushNotification.t :=
  let! s := get_state in
  match notifications (db s) !! notification_id with
  | Some notification => ret notification
  | None => raise (DoesNotExist "PushNotification matching query does not exist.")
  end.

(** [notification.save()]: the row with this primary key is written (the
    code only ever saves rows it has just read, so the [post_save] signal
    fires with [created=False], for which [auto_send_notification] below
    does nothing). *)
Definition save (notification : PushNotification.t) : M unit :=
  modify (fun s =>
    set_db {| users := users (db s);
              device_tokens := device_tokens (db s);
              device_token_seq := device_token_seq (db s);
              notifications :=
                <[PushNotification.id notification := notification]>
                  (notifications (db s));
              notification_logs := notification_logs (db s);
              journal := journal (db s)
                         ++ [(PushNotification.id notification,
                              PushNotification.status notification)] |} s).

(** [NotificationLog.objects.create(...)] *)
Definition NotificationLog_objects_create (row : NotificationLog.t) : M unit :=
  modify (fun s =>
    set_db {| users := users (db s);
              device_tokens := device_tokens (db s);
              device_token_seq := device_token_seq (db s);
              notifications := notifications (db s);
              notification_logs := notification_logs (db s) ++ [row];
              journal := journal (db s) |} s).

(** [l[idx]] *)
Definition index {A} (l : list A) (idx : nat) : M A :=
  match l !! idx with
  | Some x => ret x
  | None => raise (Exception "list index out of range")
  end.

(** [range(start, stop, step)] for a positive step: [start], [start + step],
    ... while below [stop]. *)
Fixpoint range_from (fuel start stop step : nat) : list nat :=
  match fuel with
  | O => []
  | S fuel' =>
      if (start <? stop)%nat
      then start :: range_from fuel' (start + step)%nat stop step
      else []
  end.

Definition range (start stop step : nat) : list nat :=
  range_from stop start stop step.

(** [l[i:j]] *)
Definition slice {A} (l : list A) (i j : nat) : list A :=
  take (j - i) (drop i l).

(** ** signals.py: audience resolution *)

(** [queryset.filter(user__in=target_users)]: a row without owner never
    matches. *)
Definition user__in (target_users : list Z) (t : DeviceToken.t) : Prop :=
  match DeviceToken.user t with
  | Some u => u ∈ target_users
  | None => False
  end.

Global Instance user__in_dec target_users t : Decision (user__in target_users t).
Proof. unfold user__in. destruct (DeviceToken.user t); apply _. Defined.

(** [target_users.exists()] *)
Definition exists_ {A} (l : list A) : bool :=
  match l with
  | [] => false
  | _ => true
  end.

Definition target_queryset (d : Db) (notification : PushNotification.t)
    : list DeviceToken.t :=
  let queryset :=
    filter (fun t => DeviceToken.is_active t = true) (device_tokens d) in
  let queryset :=
    if bool_decide (PushNotification.target_device_types notification <> "all")
    then filter (fun t => DeviceToken.device_type t
                          = PushNotification.target_device_types notification)
                queryset
    else queryset in
  let queryset :=
    if negb (PushNotification.send_to_all notification)
       && exists_ (PushNotification.target_users notification)
    then filter (user__in (PushNotification.target_users notification)) queryset
    else queryset in
  queryset.

Definition get_target_tokens (notification : PushNotification.t)
    : M (list DeviceToken.t) :=
  let! s := get_state in
  ret (target_queryset (db s) notification).

(** ** signals.py and admin.py: the batch loop

    Lines 50-80 of signals.py and 115-145 of admin.py are the same text;
    both dispatchers below run this one loop. *)

Definition batch_size : nat := 500.

(** [for idx, resp in enumerate(response['responses'])] *)
Fixpoint log_responses (notification : PushNotification.t)
    (batch_tokens : list DeviceToken.t) (idx : nat)
    (responses : list TokenResponse.t) (success_count failure_count : Z)
    : M (Z * Z) :=
  match responses with
  | [] => ret (success_count, failure_count)
  | resp :: rest =>
      let! token := index batch_tokens idx in
      NotificationLog_objects_create
        (NotificationLog.Build
           (PushNotification.id notification)
           (DeviceToken.id token)
           (if TokenResponse.success resp then success else log_failed)
           (if negb (TokenResponse.success resp)
            then TokenResponse.error resp else None)) ;;
      if TokenResponse.success resp
      then log_responses notification batch_tokens (S idx) rest
             (success_count + 1) failure_count
      else log_responses notification batch_tokens (S idx) rest
             success_count (failure_count + 1)
  end.

(** [for i in range(0, len(target_tokens), batch_size)] *)
Fixpoint send_batches (notification : PushNotification.t) (data : Dict)
    (target_tokens : list DeviceToken.t) (starts : list nat)
    (success_count failure_count : Z) : M (Z * Z) :=
  match starts with
  | [] => ret (success_count, failure_count)
  | i :: later =>
      let batch_tokens := slice target_tokens i (i + batch_size) in
      let! response :=
        send_notification_to_multiple_tokens
          (map DeviceToken.token batch_tokens)
          (PushNotification.title notification)
          (PushNotification.body notification)
          (Some data)
          (PushNotification.image_url notification) in
      let! counts :=
        log_responses notification batch_tokens 0
          (BulkResult.responses response) success_count failure_count in
      send_batches notification data target_tokens later (fst counts) (snd counts)
  end.

Definition send_in_batches (notification : PushNotification.t) (data : Dict)
    (target_tokens : list DeviceToken.t) : M (Z * Z) :=
  send_batches notification data target_tokens
    (range 0 (length target_tokens) batch_size) 0 0.

(** [notification.data if notification.data else {}] *)
Definition data_or_empty (data : Dict) : Dict :=
  match data with
  | [] => []
  | _ => data
  end.

(** Lines 82-92 of signals.py, 147-157 of admin.py. *)
Definition finalize (notification : PushNotification.t)
    (success_count failure_count : Z) : M PushNotification.t :=
  let notification := PushNotification.set_successful_sends success_count notification in
  let notification := PushNotification.set_failed_sends failure_count notification in
  let! now := ask (timezone_now env) in
  let notification := PushNotification.set_sent_at (Some now) notification in
  let notification :=
    if bool_decide (success_count > 0)
    then PushNotification.set_status sent notification
    else PushNotification.set_status failed notification in
  save notification ;;
  ret notification.

(** ** signals.py: the automatic dispatcher *)

Definition send_notification_async (notification_id : Z) : M unit :=
  try_except
    (let! notification := PushNotification_objects_get notification_id in
     let notification := PushNotification.set_status sending notification in
     save notification ;;
     let! target_tokens := get_target_tokens notification in
     match target_tokens with
     | [] =>
         let notification := PushNotification.set_status failed notification in
         save notification ;;
         log ERROR ("No valid device tokens found for notification "
                    +:+ pretty (PushNotification.id notification))
     | _ =>
         let notification :=
           PushNotification.set_total_recipients
             (Z.of_nat (length target_tokens)) notification in
         save notification ;;
         let data := data_or_empty (PushNotification.data notification) in
         let! counts := send_in_batches notification data target_tokens in
         let! notification := finalize notification (fst counts) (snd counts) in
         log INFO ("Notification '" +:+ PushNotification.title notification
                   +:+ "' sent automatically! Success: " +:+ pretty (fst counts)
                   +:+ ", Failed: " +:+ pretty (snd counts))
     end)
    (fun e =>
       log ERROR ("Failed to send notification " +:+ pretty notification_id
                  +:+ ": " +:+ str e) ;;
       try_except
         (let! notification := PushNotification_objects_get notification_id in
          let notification := PushNotification.set_status failed notification in
          save notification)
         (fun _ => ret tt)).

(** [transaction.on_commit(callback)]: the callback runs once the
    enclosing transaction has committed; in this sequential model that is
    where the call stands. *)
Definition on_commit (callback : M unit) : M unit := callback.

Definition auto_send_notification (instance : PushNotification.t)
    (created : bool) : M unit :=
  if created
     && bool_decide (PushNotification.status instance = draft)
     && PushNotification.auto_send instance
  then on_commit (send_notification_async (PushNotification.id instance))
  else ret tt.

(** ** admin.py: the manual dispatcher *)

Definition _get_target_tokens (notification : PushNotification.t)
    : M (list DeviceToken.t) :=
  let! s := get_state in
  ret (target_queryset (db s) notification).

Definition _send_single_notification (notification : PushNotification.t)
    : M unit :=
  let notification := PushNotification.set_status sending notification in
  save notification ;;
  let! target_tokens := _get_target_tokens notification in
  match target_tokens with
  | [] =>
      let notification := PushNotification.set_status failed notification in
      save notification ;;
      raise (Exception "No valid device tokens found for targeting criteria")
  | _ =>
      let notification :=
        PushNotification.set_total_recipients
          (Z.of_nat (length target_tokens)) notification in
      save notification ;;
      let data := data_or_empty (PushNotification.data notification) in
      let! counts := send_in_batches notification data target_tokens in
      let! notification := finalize notification (fst counts) (snd counts) in
      messages_add SUCCESS
        ("Notification '" +:+ PushNotification.title notification
         +:+ "' sent successfully! Success: " +:+ pretty (fst counts)
         +:+ ", Failed: " +:+ pretty (snd counts))
  end.

(** [for notification in queryset.filter(status='draft')] *)
Fixpoint send_each_draft (drafts : list PushNotification.t)
    (sent_count error_count : Z) : M (Z * Z) :=
  match drafts with
  | [] => ret (sent_count, error_count)
  | notification :: rest =>
      let! counts :=
        try_except
          (atomic
             (_send_single_notification notification ;;
              ret (sent_count + 1, error_count)))
          (fun e =>
             messages_add ERROR
               ("Failed to send notification '"
                +:+ PushNotification.title notification +:+ "': " +:+ str e) ;;
             ret (sent_count, error_count + 1)) in
      send_each_draft rest (fst counts) (snd counts)
  end.

(** The operator's selection is a list of primary keys;
    [queryset.filter(status='draft')] is evaluated once, when the loop
    starts. *)
Definition filter_draft (d : Db) (queryset : list Z) : list PushNotification.t :=
  filter (fun n => PushNotification.status n = draft)
         (omap (fun i => notifications d !! i) queryset).

Definition send_notifications (queryset : list Z) : M unit :=
  let! s := get_state in
  let! counts := send_each_draft (filter_draft (db s) queryset) 0 0 in
  (if bool_decide (fst counts > 0)
   then messages_add SUCCESS
          ("Successfully sent " +:+ pretty (fst counts) +:+ " notification(s)")
   else ret tt) ;;
  (if bool_decide (snd counts > 0)
   then messages_add ERROR
          ("Failed to send " +:+ pretty (snd counts) +:+ " notification(s)")
   else ret tt).

(** ** views.py: the device registry *)

Definition set_device_tokens (rows : list DeviceToken.t) (seq : Z) : M unit :=
  modify (fun s =>
    set_db {| users := users (db s);
              device_tokens := rows;
              device_token_seq := seq;
              notifications := notifications (db s);
              notification_logs := notification_logs (db s);
              journal := journal (db s) |} s).

(** [User.objects.get(id=user_id)] *)
Definition User_objects_get (user_id : Z) : M Z :=
  let! s := get_state in
  if bool_decide (user_id ∈ users (db s))
  then ret user_id
  else raise (DoesNotExist "User matching query does not exist.").

(** [device_token.save()]: UPDATE of the row with this primary key. *)
Definition DeviceToken_save (row : DeviceToken.t) : M unit :=
  let! s := get_state in
  set_device_tokens
    (map (fun r => if bool_decide (DeviceToken.id r = DeviceToken.id row)
                   then row else r)
         (device_tokens (db s)))
    (device_token_seq (db s)).

(** [DeviceToken.objects.update_or_create(token=token, defaults={...})] *)
Definition DeviceToken_objects_update_or_create
    (token : string) (user : option Z) (device_type : string)
    (is_active : bool) : M (DeviceToken.t * bool) :=
  let! s := get_state in
  match filter (fun r => DeviceToken.token r = token) (device_tokens (db s)) with
  | [] =>
      let row :=
        DeviceToken.Build (device_token_seq (db s) + 1) user token
          device_type is_active in
      set_device_tokens (device_tokens (db s) ++ [row])
        (device_token_seq (db s) + 1) ;;
      ret (row, true)
  | [found] =>
      let row :=
        DeviceToken.Build (DeviceToken.id found) user (DeviceToken.token found)
          device_type is_active in
      DeviceToken_save row ;;
      ret (row, false)
  | _ =>
      raise (Exception "get() returned more than one DeviceToken")
  end.

(** [get_object_or_404(DeviceToken, token=token)] *)
Definition get_object_or_404 (token : string) : M DeviceToken.t :=
  let! s := get_state in
  match filter (fun r => DeviceToken.token r = token) (device_tokens (db s)) with
  | [] => raise (Http404 "No DeviceToken matches the given query.")
  | [found] => ret found
  | _ => raise (Exception "get() returned more than one DeviceToken")
  end.

(** [try: body except User.DoesNotExist: handler] *)
Definition try_except_DoesNotExist {A} (body : M A) (handler : M A) : M A :=
  fun s =>
    match body s with
    | (Raise (DoesNotExist _), s') => handler s'
    | r => r
    end.

Definition register_device_token (request : Request.t) : M Response.t :=
  try_except
    (let token := Request.token request in
     let device_type := default "android" (Request.device_type request) in
     let user_id := Request.user_id request in
     if negb (truthy_str token) then
       ret (Response.Build [("error", JString "Token is required")]
              HTTP_400_BAD_REQUEST)
     else
       let! looked_up :=
         if truthy_int user_id then
           try_except_DoesNotExist
             (let! user := User_objects_get (default 0 user_id) in
              ret (inl (Some user)))
             (ret (inr (Response.Build [("error", JString "User not found")]
                          HTTP_404_NOT_FOUND)))
         else ret (inl None) in
       match looked_up with
       | inr response => ret response
       | inl user =>
           let! upserted :=
             DeviceToken_objects_update_or_create
               (default "" token) user device_type true in
           let '(device_token, created) := upserted in
           ret (Response.Build
                  [("message", JString "Device token registered successfully");
                   ("created", JBool created);
                   ("device_token_id", JInt (DeviceToken.id device_token))]
                  (if created then HTTP_201_CREATED else HTTP_200_OK))
       end)
    (fun e =>
       log ERROR ("Error registering device token: " +:+ str e) ;;
       ret (Response.Build [("error", JString "Internal server error")]
              HTTP_500_INTERNAL_SERVER_ERROR)).

Definition unregister_device_token (request : Request.t) : M Response.t :=
  try_except
    (let token := Request.token request in
     if negb (truthy_str token) then
       ret (Response.Build [("error", JString "Token is required")]
              HTTP_400_BAD_REQUEST)
     else
       let! device_token := get_object_or_404 (default "" token) in
       let device_token :=
         DeviceToken.Build (DeviceToken.id device_token)
           (DeviceToken.user device_token) (DeviceToken.token device_token)
           (DeviceToken.device_type device_token) false in
       DeviceToken_save device_token ;;
       ret (Response.Build
              [("message", JString "Device token unregistered successfully")]
              HTTP_200_OK))
    (fun e =>
       log ERROR ("Error unregistering device token: " +:+ str e) ;;
       ret (Response.Build [("error", JString "Internal server error")]
              HTTP_500_INTERNAL_SERVER_ERROR)).

(** ** views.py: the test endpoint *)

Definition send_test_notification (request : TestRequest.t) : M TestResponse.t :=
  try_except
    (let token := TestRequest.token request in
     let title := default "Test Notification" (TestRequest.title request) in
     let body := default "This is a test notification" (TestRequest.body request) in
     let data := default [] (TestRequest.data request) in
     let image_url := TestRequest.image_url request in
     log INFO "Test notification request received:" ;;
     log INFO ("Token: "
               +:+ (if truthy_str token then str_prefix 20 (default "" token)
                    else "None")
               +:+ "...") ;;
     log INFO ("Title: " +:+ title) ;;
     log INFO ("Body: " +:+ body) ;;
     if negb (truthy_str token) then
       ret (TestResponse.Build [("error", Some "Token is required")]
              HTTP_400_BAD_REQUEST)
     else
       let! available := is_firebase_available in
       if negb available then
         ret (TestResponse.Build
                [("error",
                  Some "Firebase is not configured. Please set up firebase-service-account-key.json");
                 ("details",
                  Some "Download the service account key from Firebase Console and place it in the project root")]
                HTTP_503_SERVICE_UNAVAILABLE)
       else
         let! response :=
           send_notification_to_token (default "" token) title body
             (Some data) image_url in
         if SendResult.success response then
           log INFO ("Test notification sent successfully: "
                     +:+ fmt_opt (SendResult.message_id response)) ;;
           ret (TestResponse.Build
                  [("message", Some "Test notification sent successfully");
                   ("message_id", SendResult.message_id response)]
                  HTTP_200_OK)
         else
           log ERROR ("Failed to send test notification: "
                      +:+ fmt_opt (SendResult.error response)) ;;
           ret (TestResponse.Build
                  [("error", Some ("Failed to send notification: "
                                   +:+ fmt_opt (SendResult.error response)))]
                  HTTP_500_INTERNAL_SERVER_ERROR))
    (fun e =>
       log ERROR ("Error sending test notification: " +:+ str e) ;;
       ret (TestResponse.Build
              [("error", Some "Internal server error");
               ("details", Some (str e))]
              HTTP_500_INTERNAL_SERVER_ERROR)).

End Program.

(** ** A concrete world

    A test double of the environment: the credential file is absent,
    present but unusable (as the file written by the
    [create_demo_firebase] command) or valid; the SDK refuses to send
    without a default app, rejects the tokens listed in [rejected], and
    otherwise answers with a message id derived from the token. *)
Module Demo.

Inductive KeyFile := Absent | Unusable | Valid.

Record outside := {
  key_file : KeyFile;
  default_app : bool;
  rejected : list string;
  outbox : list string
}.

Definition env : Env := {|
  World := outside;
  App := unit;
  Cred := unit;
  Notification := string * string * option string;
  FIREBASE_SERVICE_ACCOUNT_KEY := Some "firebase-service-account-key.json";
  os_path_exists := fun _ w =>
    match key_file w with Absent => false | _ => true end;
  credentials_Certificate := fun _ w =>
    match key_file w with
    | Valid => Return tt
    | _ => Raise (Exception "Failed to initialize a certificate credential.")
    end;
  firebase_admin_initialize_app := fun _ w =>
    (Return tt,
     {| key_file := key_file w; default_app := true;
        rejected := rejected w; outbox := outbox w |});
  messaging_Notification := fun title body image => Return (title, body, image);
  messaging_send := fun _ _ token w =>
    if negb (default_app w) then
      (Raise (Exception "The default Firebase app does not exist."), w)
    else if bool_decide (token ∈ rejected w) then
      (Raise (Exception "invalid token"), w)
    else
      (Return ("projects/demo/messages/" +:+ token),
       {| key_file := key_file w; default_app := default_app w;
          rejected := rejected w; outbox := outbox w ++ [token] |});
  timezone_now := fun _ => 1700000000
|}.

Definition fresh_world (k : KeyFile) (bad : list string) : outside :=
  {| key_file := k; default_app := false; rejected := bad; outbox := [] |}.

Definition empty_db : Db :=
  {| users := []; device_tokens := []; device_token_seq := 0;
     notifications := ∅; notification_logs := []; journal := [] |}.

(** A process that has not touched Firebase yet. *)
Definition boot (k : KeyFile) (bad : list string) (d : Db) : State (env:=env) :=
  @Build_State env (@Build_FirebaseService env None false)
    (fresh_world k bad) d [] [] [].

Definition notification (i : Z) (st : Status) : PushNotification.t :=
  PushNotification.Build i "Hello" "World" [] None true true [] "all" st 0 0 0 None.

Definition endpoint (i : Z) (tok : string) : DeviceToken.t :=
  DeviceToken.Build i None tok "android" true.

Definition db_with (rows : list DeviceToken.t) (ns : list PushNotification.t) : Db :=
  {| users := [1; 2]; device_tokens := rows;
     device_token_seq := Z.of_nat (length rows);
     notifications := list_to_map (map (fun n => (PushNotification.id n, n)) ns);
     notification_logs := []; journal := [] |}.

(** Three active endpoints, the second of which the gateway rejects, and
    one draft request addressed to all of them. *)
Definition three_endpoints : State (env:=env) :=
  boot Valid ["b"]
    (db_with [endpoint 1 "a"; endpoint 2 "b"; endpoint 3 "c"]
             [notification 1 draft]).

(** One registered endpoint, owned by user 1 and unregistered since. *)
Definition one_inactive : State (env:=env) :=
  boot Valid []
    (db_with [DeviceToken.Build 1 (Some 1) "a" "ios" false] []).

(** Three endpoints, a draft request and a request already sent. *)
Definition two_requests : State (env:=env) :=
  boot Valid ["b"]
    (db_with [endpoint 1 "a"; endpoint 2 "b"; endpoint 3 "c"]
             [notification 1 draft; notification 2 sent]).

(** A draft request and no endpoint at all. *)
Definition no_endpoints : State (env:=env) :=
  boot Valid [] (db_with [] [notification 1 draft]).

End Demo.

(** * Vocabulary of the properties *)

Section Vocabulary.

Context {env : Env}.

Implicit Types (s : State (env:=env)) (n : PushNotification.t).

(** Initialisation has been attempted, or a client exists: later calls of
    [initialize_firebase] do nothing. *)
Definition settled s : Prop :=
  _app (service s) <> None \/ _initialized (service s) = true.

(** The next [initialize_firebase] does not re-raise a credential or SDK
    error. *)
Definition init_quiet s : Prop :=
  fst (initialize_firebase s) = Return tt.

(** How many entries of a bulk response report success, how many failure. *)
Definition successes (rs : list TokenResponse.t) : Z :=
  Z.of_nat (length (filter (fun r => TokenResponse.success r = true) rs)).

Definition failures (rs : list TokenResponse.t) : Z :=
  Z.of_nat (length (filter (fun r => TokenResponse.success r = false) rs)).

(** The outcome row the batch loop writes for one endpoint and its
    response. *)
Definition outcome_row n (t : DeviceToken.t) (resp : TokenResponse.t)
    : NotificationLog.t :=
  NotificationLog.Build (PushNotification.id n) (DeviceToken.id t)
    (if TokenResponse.success resp then success else log_failed)
    (if negb (TokenResponse.success resp) then TokenResponse.error resp else None).

(** A database with more outcome rows and nothing else changed. *)
Definition db_add_logs (rows : list NotificationLog.t) (d : Db) : Db :=
  {| users := users d; device_tokens := device_tokens d;
     device_token_seq := device_token_seq d;
     notifications := notifications d;
     notification_logs := notification_logs d ++ rows;
     journal := journal d |}.

Definition row_successes (rows : list NotificationLog.t) : Z :=
  Z.of_nat (length (filter (fun r => NotificationLog.status r = success) rows)).

Definition row_failures (rows : list NotificationLog.t) : Z :=
  Z.of_nat (length (filter (fun r => NotificationLog.status r = log_failed) rows)).

(** The batches the loop of the dispatchers walks through. *)
Definition batches {A} (target_tokens : list A) : list (list A) :=
  map (fun i => slice target_tokens i (i + batch_size))
      (range 0 (length target_tokens) batch_size).

(** The row a completed dispatch pass leaves behind: the request as
    passed in, with the counters, the timestamp and the final status. *)
Definition dispatched n (total sc fc now : Z) : PushNotification.t :=
  PushNotification.set_status (if bool_decide (sc > 0) then sent else failed)
    (PushNotification.set_sent_at (Some now)
       (PushNotification.set_failed_sends fc
          (PushNotification.set_successful_sends sc
             (PushNotification.set_total_recipients total
                (PushNotification.set_status sending n))))).

(** What a completed dispatch pass of [n] over a non-empty audience does
    to the state [s]: one bulk call per batch, one outcome row per
    endpoint in resolved order, three row versions of the request. *)
Definition dispatch_effect s n s' : Prop :=
  let audience := target_queryset (db s) n in
  exists rows,
    map NotificationLog.device_token rows = map DeviceToken.id audience
    /\ Forall (fun r => NotificationLog.notification r = PushNotification.id n) rows
    /\ db s'
       = (let final :=
            dispatched n (Z.of_nat (length audience))
              (row_successes rows) (row_failures rows)
              (timezone_now env (world s')) in
          {| users := users (db s);
             device_tokens := device_tokens (db s);
             device_token_seq := device_token_seq (db s);
             notifications :=
               <[PushNotification.id n := final]> (notifications (db s));
             notification_logs := notification_logs (db s) ++ rows;
             journal := journal (db s)
                        ++ [(PushNotification.id n, sending);
                            (PushNotification.id n, sending);
                            (PushNotification.id n, PushNotification.status final)] |})
    /\ bulk_calls s'
       = bulk_calls s ++ map (map DeviceToken.token) (batches audience)
    /\ init_quiet s'.

(** The text the two dispatchers share, from the first [save] on; they
    differ in what they do for an empty audience and in how they report
    the counts at the end. *)
Definition dispatch_skeleton
    (on_empty : PushNotification.t -> M unit)
    (report : PushNotification.t -> Z * Z -> M unit)
    n : M unit :=
  let notification := PushNotification.set_status sending n in
  bind (save notification) (fun _ =>
  bind (get_target_tokens notification) (fun target_tokens =>
  match target_tokens with
  | [] => on_empty notification
  | _ =>
    let notification :=
      PushNotification.set_total_recipients
        (Z.of_nat (length target_tokens)) notification in
    bind (save notification) (fun _ =>
    let data := data_or_empty (PushNotification.data notification) in
    bind (send_in_batches notification data target_tokens) (fun counts =>
    bind (finalize notification (fst counts) (snd counts)) (fun notification =>
    report notification counts)))
  end)).

(** What either dispatcher leaves in the database when the audience is
    empty: the request goes through [sending] to [failed]; no other
    column and no other table is written. *)
Definition db_no_recipients n (d : Db) : Db :=
  {| users := users d;
     device_tokens := device_tokens d;
     device_token_seq := device_token_seq d;
     notifications :=
       <[PushNotification.id n := PushNotification.set_status failed n]>
         (notifications d);
     notification_logs := notification_logs d;
     journal := journal d
                ++ [(PushNotification.id n, sending);
                    (PushNotification.id n, failed)] |}.

(** The two dispatchers, as a caller names them: the automatic one takes
    the primary key, the manual one the row. *)
Inductive Dispatcher := Automatic | Manual.

Definition run_dispatcher (via : Dispatcher) n : M unit :=
  match via with
  | Automatic => send_notification_async (PushNotification.id n)
  | Manual => _send_single_notification n
  end.

(** An endpoint the request addresses, in the words of the
    specification: active; of the request's platform unless the filter is
    "all"; owned by one of the explicit users when the request is not a
    broadcast and names at least one user. *)
Definition eligible n (t : DeviceToken.t) : Prop :=
  DeviceToken.is_active t = true
  /\ (PushNotification.target_device_types n <> "all" ->
      DeviceToken.device_type t = PushNotification.target_device_types n)
  /\ (PushNotification.send_to_all n = false ->
      PushNotification.target_users n <> [] ->
      exists u, DeviceToken.user t = Some u
                /\ u ∈ PushNotification.target_users n).

Global Instance eligible_dec n t : Decision (eligible n t).
Proof.
  unfold eligible.
  apply and_dec; [apply _ |].
  apply and_dec; [apply _ |].
  destruct (decide (PushNotification.send_to_all n = false)) as [Ha | Ha];
    [| left; done].
  destruct (decide (PushNotification.target_users n = [])) as [Hu | Hu];
    [left; done |].
  destruct (DeviceToken.user t) as [u |] eqn:Hown.
  - destruct (decide (u ∈ PushNotification.target_users n)) as [Hin | Hin].
    + left. intros _ _. by exists u.
    + right. intros H. destruct (H Ha Hu) as (u' & [= <-] & ?). done.
  - right. intros H. destruct (H Ha Hu) as (u' & Hsome & _). discriminate Hsome.
Defined.

(** The stored endpoints that carry a given token. *)
Definition rows_with (tok : string) (d : Db) : list DeviceToken.t :=
  filter (fun r => DeviceToken.token r = tok) (device_tokens d).

(** What the database guarantees for the [DeviceToken] table: primary
    keys and tokens ([unique=True]) are unique, and the sequence is ahead
    of every key handed out. *)
Definition registry_ok (d : Db) : Prop :=
  NoDup (map DeviceToken.id (device_tokens d))
  /\ NoDup (map DeviceToken.token (device_tokens d))
  /\ Forall (fun r => DeviceToken.id r <= device_token_seq d) (device_tokens d).

(** A database whose [DeviceToken] table and sequence are replaced. *)
Definition db_set_registry (rows : list DeviceToken.t) (seq : Z) (d : Db) : Db :=
  {| users := users d; device_tokens := rows; device_token_seq := seq;
     notifications := notifications d;
     notification_logs := notification_logs d;
     journal := journal d |}.

(** The owner a registration call names: [user_id] when it is given (and
    not zero), no owner otherwise. *)
Definition owner_given (request : Request.t) : option Z :=
  if truthy_int (Request.user_id request) then Request.user_id request else None.

(** A registration call the endpoint does not turn down: it carries a
    token, and the user it names, if any, exists. *)
Definition accepted (d : Db) (request : Request.t) : Prop :=
  truthy_str (Request.token request) = true
  /\ (truthy_int (Request.user_id request) = true ->
      default 0 (Request.user_id request) ∈ users d).

(** The stored row carries the metadata of a registration call. *)
Definition reflects (request : Request.t) (row : DeviceToken.t) : Prop :=
  DeviceToken.device_type row = default "android" (Request.device_type request)
  /\ DeviceToken.user row = owner_given request
  /\ DeviceToken.is_active row = true.

(** The body of the answer to an accepted registration. *)
Definition registered (created : bool) (row_id : Z) : Response.t :=
  Response.Build
    [("message", JString "Device token registered successfully");
     ("created", JBool created);
     ("device_token_id", JInt row_id)]
    (if created then HTTP_201_CREATED else HTTP_200_OK).

(** Registration calls made one after the other. *)
Fixpoint register_all (requests : list Request.t) : M (list Response.t) :=
  match requests with
  | [] => ret []
  | request :: rest =>
      bind (register_device_token request) (fun response =>
      bind (register_all rest) (fun responses =>
      ret (response :: responses)))
  end.

(** The two shapes of a single-recipient result. *)
Definition delivered (message_id : string) : SendResult.t :=
  SendResult.Build true (Some message_id) None.

Definition not_delivered (error : string) : SendResult.t :=
  SendResult.Build false None (Some error).

(** The bulk delivery form as the specification words it: a loop over the
    single-recipient form, collecting its results in order. *)
Fixpoint send_one_by_one (tokens : list string) (title body : string)
    (data : option Dict) (image_url : option string) : M (list SendResult.t) :=
  match tokens with
  | [] => ret []
  | token :: rest =>
      bind (send_notification_to_token token title body data image_url) (fun result =>
      bind (send_one_by_one rest title body data image_url) (fun results =>
      ret (result :: results)))
  end.

(** A bulk response entry without its token: what the single-recipient
    form would have returned. *)
Definition strip (r : TokenResponse.t) : SendResult.t :=
  SendResult.Build (TokenResponse.success r) (TokenResponse.message_id r)
    (TokenResponse.error r).

Definition count_delivered (results : list SendResult.t) : Z :=
  Z.of_nat (length (filter (fun r => SendResult.success r = true) results)).

Definition count_not_delivered (results : list SendResult.t) : Z :=
  Z.of_nat (length (filter (fun r => SendResult.success r = false) results)).

(** A usable gateway client exists. *)
Definition ready s : Prop := _app (service s) <> None.

(** The life cycle of a request: draft, then sending, then sent or
    failed. *)
Inductive lifecycle_step : Status -> Status -> Prop :=
| start_sending : lifecycle_step draft sending
| finish_sent : lifecycle_step sending sent
| finish_failed : lifecycle_step sending failed.

(** A series of statuses written to one row, starting from the status
    the row had: every write either keeps the status or takes one step of
    the life cycle. *)
Fixpoint follows (from : Status) (written : list Status) : Prop :=
  match written with
  | [] => True
  | st :: rest => (st = from \/ lifecycle_step from st) /\ follows st rest
  end.

(** The statuses a stretch of the journal records for one request. *)
Definition written_for (i : Z) (entries : list (Z * Status)) : list Status :=
  map snd (filter (fun e => fst e = i) entries).

(** The two things that can start a dispatch: the [post_save] signal of
    a request, and the admin action on a selection of requests. *)
Inductive Trigger :=
| PostSave (instance : PushNotification.t) (created : bool)
| AdminAction (queryset : list Z).

Definition fire (trigger : Trigger) : M unit :=
  match trigger with
  | PostSave instance created => auto_send_notification instance created
  | AdminAction queryset => send_notifications queryset
  end.

(** Requests are stored under their primary key. *)
Definition db_keyed (d : Db) : Prop :=
  forall i n, notifications d !! i = Some n -> PushNotification.id n = i.

(** What Django guarantees when a trigger fires: [post_save] passes the
    row that has just been written; a queryset holds each row once. *)
Definition trigger_ok s (trigger : Trigger) : Prop :=
  match trigger with
  | PostSave instance _ =>
      notifications (db s) !! PushNotification.id instance = Some instance
  | AdminAction queryset => NoDup queryset /\ db_keyed (db s)
  end.

(** The stored row of request [i] after the writes [entries]: as before
    when nothing was written for it, otherwise carrying the status
    written last. *)
Definition moved (d d' : Db) (entries : list (Z * Status)) (i : Z) : Prop :=
  match last (written_for i entries) with
  | None => notifications d' !! i = notifications d !! i
  | Some st =>
      exists n', notifications d' !! i = Some n' /\ PushNotification.status n' = st
  end.

(** One dispatch attempt on request [i]: it writes the statuses [written]
    to that row, in that order, and leaves every other request alone. *)
Definition touches_only (i : Z) (d d' : Db) (written : list Status) : Prop :=
  journal d' = journal d ++ map (fun st => (i, st)) written
  /\ (forall j, j <> i -> notifications d' !! j = notifications d !! j)
  /\ match last written with
     | None => notifications d' !! i = notifications d !! i
     | Some st =>
         exists n', notifications d' !! i = Some n'
                    /\ PushNotification.status n' = st
                    /\ PushNotification.id n' = i
     end.

(** The database after the two writes that precede the batch loop. *)
Definition db_sending n (total : Z) (d : Db) : Db :=
  {| users := users d;
     device_tokens := device_tokens d;
     device_token_seq := device_token_seq d;
     notifications :=
       <[PushNotification.id n :=
           PushNotification.set_total_recipients total
             (PushNotification.set_status sending n)]> (notifications d);
     notification_logs := notification_logs d;
     journal := journal d
                ++ [(PushNotification.id n, sending);
                    (PushNotification.id n, sending)] |}.

(** The status series a dispatch attempt can write: none at all (the
    manual attempt was rolled back), the two of an attempt without
    recipients, or the three of an attempt that reached the batch loop. *)
Definition attempt_writes (written : list Status) : Prop :=
  written = []
  \/ written = [sending; failed]
  \/ exists final, (final = sent \/ final = failed)
                   /\ written = [sending; sending; final].

(** A final step that only writes to the logger or to the message queue. *)
Definition only_reports (report : PushNotification.t -> Z * Z -> M unit) : Prop :=
  forall n' c s0, exists s1,
    report n' c s0 = (Return tt, s1)
    /\ db s1 = db s0 /\ bulk_calls s1 = bulk_calls s0
    /\ service s1 = service s0 /\ world s1 = world s0.

(** ** Vocabulary of the further properties *)

(** A computation whose every run, returning or raising, takes a state to
    one related to it by [R]. *)
Definition stable {A} (R : relation (State (env:=env))) (m : M A) : Prop :=
  forall s, R s (snd (m s)).

(** A bulk response entry is either a success with its message id or a
    failure with its error text. *)
Definition response_ok (r : TokenResponse.t) : Prop :=
  if TokenResponse.success r
  then is_Some (TokenResponse.message_id r) /\ TokenResponse.error r = None
  else TokenResponse.message_id r = None /\ is_Some (TokenResponse.error r).

(** An outcome row records a success without error text, or a failure
    with the error text of its response. *)
Definition row_ok (r : NotificationLog.t) : Prop :=
  match NotificationLog.status r with
  | success => NotificationLog.error_message r = None
  | log_failed => is_Some (NotificationLog.error_message r)
  end.

(** What a dispatch may do to the database, seen from the registry and
    the outcome log: users and endpoints stay as they are, and the log
    only grows, by well-formed rows. *)
Definition dispatch_keeps s s' : Prop :=
  users (db s') = users (db s)
  /\ device_tokens (db s') = device_tokens (db s)
  /\ device_token_seq (db s') = device_token_seq (db s)
  /\ exists rows,
       notification_logs (db s') = notification_logs (db s) ++ rows
       /\ Forall row_ok rows.

(** How many lines of a log or of the operator's message queue have a
    given level. *)
Definition count_level (lvl : Level) (lines : list (Level * string)) : Z :=
  Z.of_nat (length (filter (fun line => fst line = lvl) lines)).

(** The row [device_token.is_active = False; device_token.save()] writes
    back. *)
Definition deactivated (row : DeviceToken.t) : DeviceToken.t :=
  DeviceToken.Build (DeviceToken.id row) (DeviceToken.user row)
    (DeviceToken.token row) (DeviceToken.device_type row) false.

(** What a call of the device registry may do: everything but the
    [DeviceToken] table, its sequence and the logger stays as it is. *)
Definition registry_only s s' : Prop :=
  service s' = service s /\ world s' = world s
  /\ messages s' = messages s /\ bulk_calls s' = bulk_calls s
  /\ users (db s') = users (db s)
  /\ notifications (db s') = notifications (db s)
  /\ notification_logs (db s') = notification_logs (db s)
  /\ journal (db s') = journal (db s).

(** The answers of the test endpoint. *)
Definition test_token_required : TestResponse.t :=
  TestResponse.Build [("error", Some "Token is required")] HTTP_400_BAD_REQUEST.

Definition test_unavailable : TestResponse.t :=
  TestResponse.Build
    [("error",
      Some "Firebase is not configured. Please set up firebase-service-account-key.json");
     ("details",
      Some "Download the service account key from Firebase Console and place it in the project root")]
    HTTP_503_SERVICE_UNAVAILABLE.

Definition test_sent (message_id : option string) : TestResponse.t :=
  TestResponse.Build
    [("message", Some "Test notification sent successfully");
     ("message_id", message_id)]
    HTTP_200_OK.

Definition test_failed (error : option string) : TestResponse.t :=
  TestResponse.Build
    [("error", Some ("Failed to send notification: " +:+ fmt_opt error))]
    HTTP_500_INTERNAL_SERVER_ERROR.

Definition test_internal_error (details : string) : TestResponse.t :=
  TestResponse.Build
    [("error", Some "Internal server error"); ("details", Some details)]
    HTTP_500_INTERNAL_SERVER_ERROR.

(** The state once the test endpoint has logged the request it
    received. *)
Definition test_request_logged (request : TestRequest.t) s : State :=
  {| service := service s; world := world s; db := db s;
     logger :=
       logger s
       ++ [(INFO, "Test notification request received:");
           (INFO, "Token: "
                  +:+ (if truthy_str (TestRequest.token request)
                       then str_prefix 20 (default "" (TestRequest.token request))
                       else "None")
                  +:+ "...");
           (INFO, "Title: "
                  +:+ default "Test Notification" (TestRequest.title request));
           (INFO, "Body: "
                  +:+ default "This is a test notification"
                        (TestRequest.body request))];
     messages := messages s; bulk_calls := bulk_calls s |}.

(** What the gateway answers when the tokens are attempted one after the
    other, each send starting from the world the previous one left: one
    response per token, and the world at the end. *)
Fixpoint attempt_all (nt : Notification env) (data : Dict)
    (tokens : list string) (w : World env)
    : list TokenResponse.t * World env :=
  match tokens with
  | [] => ([], w)
  | token :: rest =>
      match messaging_send env nt data token w with
      | (Return message_id, w1) =>
          let (rs, w2) := attempt_all nt data rest w1 in
          (TokenResponse.Build token true (Some message_id) None :: rs, w2)
      | (Raise e, w1) =>
          let (rs, w2) := attempt_all nt data rest w1 in
          (TokenResponse.Build token false None (Some (str e)) :: rs, w2)
      end
  end.

(** The same for a message given by its parts: when the notification
    cannot be built, every token fails with that error and nothing is
    sent. *)
Definition gateway_answers (title body : string) (image_url : option string)
    (data : Dict) (tokens : list string) (w : World env)
    : list TokenResponse.t * World env :=
  match messaging_Notification env title body image_url with
  | Return nt => attempt_all nt data tokens w
  | Raise e =>
      (map (fun token => TokenResponse.Build token false None (Some (str e)))
           tokens, w)
  end.

(** A string of ASCII characters, of one byte each: its length in bytes
    is its length in characters. *)
Fixpoint ascii_only (text : string) : Prop :=
  match text with
  | EmptyString => True
  | String c rest => (Ascii.N_of_ascii c < 128)%N /\ ascii_only rest
  end.

End Vocabulary.

(** * Properties *)

Section Properties.

Context {env : Env}.

Implicit Types (s : State (env:=env)) (n : PushNotification.t).

(** ** The monad *)

Lemma bind_Return {A B} (m : M A) (k : A -> M B) s a s' :
  m s = (Return a, s') -> bind m k s = k a s'.
Proof. intros H. unfold bind. by rewrite H. Qed.

Lemma bind_Raise {A B} (m : M A) (k : A -> M B) s e s' :
  m s = (Raise e, s') -> bind m k s = (Raise e, s').
Proof. intros H. unfold bind. by rewrite H. Qed.

(** ** Gateway initialisation *)

Lemma initialize_firebase_settled s :
  settled s -> initialize_firebase s = (Return tt, s).
Proof.
  intros [H | H]; unfold initialize_firebase, bind, get_state; simpl.
  - destruct (_app (service s)); [done | congruence].
  - rewrite H. by rewrite andb_false_r.
Qed.

Lemma settled_init_quiet s : settled s -> init_quiet s.
Proof. intros H. unfold init_quiet. by rewrite initialize_firebase_settled. Qed.

(** What [initialize_firebase] leaves alone, and what it establishes. *)
Lemma initialize_firebase_frame s :
  let s' := snd (initialize_firebase s) in
  db s' = db s /\ messages s' = messages s /\ bulk_calls s' = bulk_calls s
  /\ settled s'.
Proof.
  destruct s as [[[app |] [|]] w d lg ms bc];
    try (rewrite initialize_firebase_settled; [| unfold settled; simpl; auto];
         simpl; unfold settled; simpl; auto; fail).
  unfold initialize_firebase, bind, get_state, try_except, ask, read, call,
    set_app, set_initialized, log, modify, raise, ret, settled; simpl.
  destruct (truthy_str _ && os_path_exists _ _ _); simpl.
  - destruct (credentials_Certificate _ _ _); simpl.
    + destruct (firebase_admin_initialize_app _ _ _) as [[app | e] w']; simpl;
        repeat split; by right.
    + repeat split; by right.
  - repeat split; by right.
Qed.

(** The outcome of initialisation depends on the class attributes and on
    the world only. *)
Lemma initialize_firebase_local s1 s2 :
  service s1 = service s2 -> world s1 = world s2 ->
  fst (initialize_firebase s1) = fst (initialize_firebase s2)
  /\ service (snd (initialize_firebase s1)) = service (snd (initialize_firebase s2))
  /\ world (snd (initialize_firebase s1)) = world (snd (initialize_firebase s2)).
Proof.
  destruct s1 as [svc1 w1 d1 lg1 ms1 bc1], s2 as [svc2 w2 d2 lg2 ms2 bc2].
  simpl. intros -> ->. destruct svc2 as [[app |] [|]];
    try (rewrite !initialize_firebase_settled; unfold settled; simpl; auto; fail).
  unfold initialize_firebase, bind, get_state, try_except, ask, read, call,
    set_app, set_initialized, log, modify, raise, ret; simpl.
  destruct (truthy_str _ && os_path_exists _ _ _); simpl; [| done].
  destruct (credentials_Certificate _ _ _); simpl; [| done].
  by destruct (firebase_admin_initialize_app _ _ _) as [[app | e] w']; simpl.
Qed.

Lemma init_quiet_local s1 s2 :
  service s1 = service s2 -> world s1 = world s2 ->
  init_quiet s1 -> init_quiet s2.
Proof.
  intros Hsvc Hw H. unfold init_quiet in *.
  by destruct (initialize_firebase_local s1 s2 Hsvc Hw) as (<- & _).
Qed.

Lemma init_quiet_dec s : init_quiet s \/ exists e, fst (initialize_firebase s) = Raise e.
Proof.
  unfold init_quiet. destruct (initialize_firebase s) as [[[] | e] s']; simpl; eauto.
Qed.

(** ** The bulk delivery form *)

Lemma successes_failures rs :
  successes rs + failures rs = Z.of_nat (length rs).
Proof.
  unfold successes, failures. induction rs as [| r rs IH]; [done |].
  rewrite !filter_cons. destruct (TokenResponse.success r); simpl; lia.
Qed.

Lemma successes_app rs1 rs2 : successes (rs1 ++ rs2) = successes rs1 + successes rs2.
Proof. unfold successes. rewrite filter_app, length_app. lia. Qed.

Lemma failures_app rs1 rs2 : failures (rs1 ++ rs2) = failures rs1 + failures rs2.
Proof. unfold failures. rewrite filter_app, length_app. lia. Qed.

Lemma successes_cons r rs :
  successes (r :: rs) = (if TokenResponse.success r then 1 else 0) + successes rs.
Proof.
  unfold successes. rewrite filter_cons.
  destruct (TokenResponse.success r); simpl; lia.
Qed.

Lemma failures_cons r rs :
  failures (r :: rs) = (if TokenResponse.success r then 0 else 1) + failures rs.
Proof.
  unfold failures. rewrite filter_cons.
  destruct (TokenResponse.success r); simpl; lia.
Qed.

(** The inner loop answers once per token, in order, and touches only the
    world. *)
Lemma send_each_spec (nt : Notification env) data tokens :
  forall acc sc fc s,
  exists rs w',
    send_each nt data tokens acc sc fc s
    = (Return (acc ++ rs, sc + successes rs, fc + failures rs), set_world w' s)
    /\ map TokenResponse.token rs = tokens.
Proof.
  induction tokens as [| token rest IH]; intros acc sc fc s.
  - exists [], (world s). destruct s. simpl. unfold ret, set_world. simpl.
    rewrite app_nil_r. change (successes []) with 0. change (failures []) with 0.
    by rewrite !Z.add_0_r.
  - simpl. unfold bind at 1. unfold try_except, call, bind, ret.
    destruct (messaging_send env nt (or_empty data) token (world s)) as [[mid | e] w1].
    + destruct (IH (acc ++ [TokenResponse.Build token true (Some mid) None])
                  (sc + 1) fc (set_world w1 s)) as (rs & w' & Heq & Htok).
      exists (TokenResponse.Build token true (Some mid) None :: rs), w'.
      rewrite Heq. split; [| by rewrite <- Htok].
      rewrite <- app_assoc, successes_cons, failures_cons. simpl.
      by rewrite ?Z.add_0_l, ?Z.add_assoc.
    + destruct (IH (acc ++ [TokenResponse.Build token false None (Some (str e))])
                  sc (fc + 1) (set_world w1 s)) as (rs & w' & Heq & Htok).
      exists (TokenResponse.Build token false None (Some (str e)) :: rs), w'.
      rewrite Heq. split; [| by rewrite <- Htok].
      rewrite <- app_assoc, successes_cons, failures_cons. simpl.
      by rewrite ?Z.add_0_l, ?Z.add_assoc.
Qed.

Lemma all_failed_spec (tokens : list string) (msg : string) :
  let rs := map (fun token => TokenResponse.Build token false None (Some msg)) tokens in
  map TokenResponse.token rs = tokens
  /\ successes rs = 0
  /\ failures rs = Z.of_nat (length tokens).
Proof.
  induction tokens as [| t ts (IH1 & IH2 & IH3)]; [done |].
  simpl in *. rewrite successes_cons, failures_cons. simpl.
  rewrite IH1, IH2, IH3. repeat split. lia.
Qed.

(** The bulk form: it records its call, leaves the database alone, and
    answers once per token in input order unless initialisation raises. *)
Lemma bulk_spec tokens title body data image s :
  exists res s',
    send_notification_to_multiple_tokens tokens title body data image s = (res, s')
    /\ db s' = db s /\ messages s' = messages s
    /\ bulk_calls s' = bulk_calls s ++ [tokens]
    /\ settled s'
    /\ (init_quiet s ->
        exists r, res = Return r
          /\ map TokenResponse.token (BulkResult.responses r) = tokens
          /\ BulkResult.success_count r = successes (BulkResult.responses r)
          /\ BulkResult.failure_count r = failures (BulkResult.responses r))
    /\ (~ init_quiet s -> exists e, res = Raise e).
Proof.
  unfold send_notification_to_multiple_tokens.
  unfold bind at 1. unfold record_bulk_call, modify.
  set (s0 := {| service := service s; world := world s; db := db s;
                logger := logger s; messages := messages s;
                bulk_calls := bulk_calls s ++ [tokens] |}).
  assert (Hq : init_quiet s <-> init_quiet s0)
    by (split; apply init_quiet_local; done).
  pose proof (initialize_firebase_frame s0) as (Hdb & Hms & Hbc & Hset).
  unfold init_quiet in Hq. unfold bind at 1.
  destruct (initialize_firebase s0) as [[[] | e] s1]; simpl in *.
  2: { exists (Raise e), s1. split_and!; try done.
       - intros H. apply Hq in H. done.
       - eauto. }
  assert (Hnq : ~ init_quiet s -> False) by (intros H; apply H, Hq; done).
  destruct tokens as [| t ts].
  { exists (Return (BulkResult.Build 0 0 [])), s1. unfold ret.
    split_and!; try done. intros _. eexists. split_and!; done. }
  unfold try_except, bind, pure_call.
  destruct (messaging_Notification env title body image) as [nt | e].
  - destruct (send_each_spec nt data (t :: ts) [] 0 0 s1) as (rs & w' & -> & Htok).
    unfold log, modify, ret. simpl.
    eexists _, _. split; [reflexivity |]. simpl.
    split_and!; try done.
    intros _. eexists. split; [reflexivity |]. simpl. split_and!; try done; lia.
  - unfold log, modify, ret, bind. simpl.
    eexists _, _. split; [reflexivity |]. simpl.
    split_and!; try done.
    intros _. eexists. split; [reflexivity |].
    destruct (all_failed_spec (t :: ts) (str e)) as (H1 & H2 & H3).
    simpl in *. split_and!; done.
Qed.

(** ** The batch loop *)

Lemma db_add_logs_nil d : db_add_logs [] d = d.
Proof. destruct d. unfold db_add_logs. simpl. by rewrite app_nil_r. Qed.

Lemma db_add_logs_app rows1 rows2 d :
  db_add_logs rows2 (db_add_logs rows1 d) = db_add_logs (rows1 ++ rows2) d.
Proof. unfold db_add_logs. simpl. by rewrite app_assoc. Qed.

Lemma row_successes_app r1 r2 : row_successes (r1 ++ r2) = row_successes r1 + row_successes r2.
Proof. unfold row_successes. rewrite filter_app, length_app. lia. Qed.

Lemma row_failures_app r1 r2 : row_failures (r1 ++ r2) = row_failures r1 + row_failures r2.
Proof. unfold row_failures. rewrite filter_app, length_app. lia. Qed.

Lemma row_counts_length rows :
  row_successes rows + row_failures rows = Z.of_nat (length rows).
Proof.
  unfold row_successes, row_failures. induction rows as [| r rows IH]; [done |].
  rewrite !filter_cons. destruct (NotificationLog.status r); simpl; lia.
Qed.

Lemma outcome_rows_counts n (ts : list DeviceToken.t) :
  forall rs, length rs = length ts ->
    row_successes (zip_with (outcome_row n) ts rs) = successes rs
    /\ row_failures (zip_with (outcome_row n) ts rs) = failures rs
    /\ map NotificationLog.device_token (zip_with (outcome_row n) ts rs)
       = map DeviceToken.id ts
    /\ Forall (fun r => NotificationLog.notification r = PushNotification.id n)
         (zip_with (outcome_row n) ts rs).
Proof.
  induction ts as [| t ts IH]; intros [| r rs] Hlen; simpl in *; try done.
  destruct (IH rs) as (H1 & H2 & H3 & H4); [lia |].
  rewrite successes_cons, failures_cons.
  change (outcome_row n t r :: zip_with (outcome_row n) ts rs)
    with ([outcome_row n t r] ++ zip_with (outcome_row n) ts rs).
  rewrite row_successes_app, row_failures_app, H1, H2. simpl. rewrite H3.
  split_and!; try done.
  - f_equal. unfold row_successes, outcome_row.
    by destruct (TokenResponse.success r).
  - f_equal. unfold row_failures, outcome_row.
    by destruct (TokenResponse.success r).
  - by constructor.
Qed.

(** Logging a batch response: one row per response, paired by position
    with the endpoints of the batch. *)
Lemma log_responses_spec n (batch_tokens : list DeviceToken.t) :
  forall responses idx sc fc s,
    (idx + length responses <= length batch_tokens)%nat ->
    log_responses n batch_tokens idx responses sc fc s
    = (Return (sc + successes responses, fc + failures responses),
       set_db (db_add_logs
                 (zip_with (outcome_row n) (drop idx batch_tokens) responses)
                 (db s)) s).
Proof.
  induction responses as [| resp rest IH]; intros idx sc fc s Hlen.
  - simpl. unfold ret. rewrite zip_with_nil_r, db_add_logs_nil.
    change (successes []) with 0. change (failures []) with 0.
    rewrite !Z.add_0_r. by destruct s.
  - simpl in Hlen. simpl log_responses. unfold bind at 1. unfold index.
    destruct (lookup_lt_is_Some_2 batch_tokens idx) as [t Ht]; [lia |].
    rewrite Ht. unfold ret at 1. unfold bind at 1.
    unfold NotificationLog_objects_create, modify.
    rewrite (drop_S _ _ _ Ht). simpl zip_with.
    rewrite successes_cons, failures_cons.
    destruct (TokenResponse.success resp) eqn:Hok.
    + rewrite IH by (simpl; lia). simpl.
      unfold set_db, db_add_logs, outcome_row. simpl. rewrite Hok. simpl.
      rewrite <- app_assoc. simpl. by rewrite ?Z.add_0_l, ?Z.add_assoc.
    + rewrite IH by (simpl; lia). simpl.
      unfold set_db, db_add_logs, outcome_row. simpl. rewrite Hok. simpl.
      rewrite <- app_assoc. simpl. by rewrite ?Z.add_0_l, ?Z.add_assoc.
Qed.

Lemma settled_set_db d s : settled s -> settled (set_db d s).
Proof. done. Qed.

(** The loop over the batch starts: every batch is handed to the bulk
    form, and every response becomes one outcome row, in order.  When the
    first initialisation raises, the loop stops there and nothing is
    logged. *)
Lemma send_batches_spec n data (audience : list DeviceToken.t) :
  forall starts sc fc s,
  exists res s' rows,
    send_batches n data audience starts sc fc s = (res, s')
    /\ db s' = db_add_logs rows (db s)
    /\ messages s' = messages s
    /\ (init_quiet s ->
        res = Return (sc + row_successes rows, fc + row_failures rows)
        /\ bulk_calls s'
           = bulk_calls s
             ++ map (fun i => map DeviceToken.token (slice audience i (i + batch_size)))
                    starts
        /\ map NotificationLog.device_token rows
           = map DeviceToken.id
               (concat (map (fun i => slice audience i (i + batch_size)) starts))
        /\ Forall (fun r => NotificationLog.notification r = PushNotification.id n) rows
        /\ init_quiet s')
    /\ (~ init_quiet s -> starts <> [] -> exists e, res = Raise e /\ rows = []).
Proof.
  induction starts as [| i later IH]; intros sc fc s.
  - exists (Return (sc, fc)), s, []. simpl. unfold ret.
    rewrite db_add_logs_nil. split_and!; try done.
    intros Hq. rewrite app_nil_r. change (row_successes []) with 0.
    change (row_failures []) with 0. by rewrite !Z.add_0_r.
  - simpl send_batches. unfold bind at 1.
    set (batch := slice audience i (i + batch_size)).
    destruct (bulk_spec (map DeviceToken.token batch)
                (PushNotification.title n) (PushNotification.body n)
                (Some data) (PushNotification.image_url n) s)
      as (res0 & s1 & -> & Hdb1 & Hms1 & Hbc1 & Hset1 & Hret & Hraise).
    destruct (init_quiet_dec s) as [Hq | [e He]].
    + destruct (Hret Hq) as (r & -> & Htok & Hsc & Hfc).
      assert (Hlen : length (BulkResult.responses r) = length batch).
      { rewrite <- (length_map TokenResponse.token), Htok. by rewrite length_map. }
      unfold bind at 1. rewrite log_responses_spec by (simpl; lia).
      rewrite drop_0. simpl fst. simpl snd.
      set (rows1 := zip_with (outcome_row n) batch (BulkResult.responses r)).
      destruct (IH (sc + successes (BulkResult.responses r))
                   (fc + failures (BulkResult.responses r))
                   (set_db (db_add_logs rows1 (db s1)) s1))
        as (res & s' & rows & -> & Hdb & Hms & Hgood & _).
      destruct (outcome_rows_counts n batch (BulkResult.responses r) Hlen)
        as (Hrs & Hrf & Hdev & Hnot).
      fold rows1 in Hrs, Hrf, Hdev, Hnot.
      exists res, s', (rows1 ++ rows). split; [done |].
      split_and!.
      * rewrite Hdb. simpl. by rewrite Hdb1, db_add_logs_app.
      * by rewrite Hms.
      * intros _.
        destruct Hgood as (-> & Hbc & Hrows & Hall & Hq');
          [by apply settled_init_quiet, settled_set_db |].
        split_and!.
        -- rewrite row_successes_app, row_failures_app, Hrs, Hrf.
           by rewrite !Z.add_assoc.
        -- rewrite Hbc. simpl. rewrite Hbc1. by rewrite <- app_assoc.
        -- simpl. rewrite !map_app. by rewrite Hdev, Hrows.
        -- by apply Forall_app.
        -- done.
      * intros Hnq. done.
    + assert (Hnq : ~ init_quiet s) by (unfold init_quiet; rewrite He; done).
      destruct (Hraise Hnq) as [e' ->].
      exists (Raise e'), s1, []. rewrite db_add_logs_nil.
      split_and!; try done. intros _ _. by exists e'.
Qed.

(** ** [range] and the batches *)

Lemma length_slice {A} (l : list A) (i step : nat) :
  length (slice l i (i + step)) = (step `min` (length l - i))%nat.
Proof.
  unfold slice. rewrite length_take, length_drop.
  replace (i + step - i)%nat with step by lia. done.
Qed.

Lemma range_from_concat {A} (l : list A) (step : nat) :
  (0 < step)%nat ->
  forall fuel start, (length l <= start + fuel)%nat ->
    concat (map (fun i => slice l i (i + step))
                (range_from fuel start (length l) step))
    = drop start l.
Proof.
  intros Hstep. induction fuel as [| fuel IH]; intros start Hfuel; simpl.
  - rewrite drop_ge by lia. done.
  - destruct (Nat.ltb_spec start (length l)) as [Hlt | Hge]; simpl.
    + rewrite IH by lia. unfold slice.
      replace (start + step - start)%nat with step by lia.
      rewrite <- (drop_drop l step start). by rewrite take_drop.
    + rewrite drop_ge by lia. done.
Qed.

Lemma range_from_length (step : nat) :
  (0 < step)%nat ->
  forall fuel start stop, (stop <= start + fuel)%nat ->
    length (range_from fuel start stop step)
    = ((stop - start + (step - 1)) `div` step)%nat.
Proof.
  intros Hstep. induction fuel as [| fuel IH]; intros start stop Hfuel; simpl.
  - replace (stop - start)%nat with 0%nat by lia. simpl.
    symmetry. apply Nat.div_small. lia.
  - destruct (Nat.ltb_spec start stop) as [Hlt | Hge]; simpl.
    + rewrite IH by lia.
      destruct (decide (stop - start <= step)%nat) as [Hsmall | Hbig].
      * replace (stop - (start + step))%nat with 0%nat by lia. simpl.
        rewrite Nat.div_small by lia.
        apply (Nat.div_unique _ _ 1%nat (stop - start - 1)%nat); lia.
      * replace (stop - start + (step - 1))%nat
          with (stop - (start + step) + (step - 1) + 1 * step)%nat by lia.
        rewrite Nat.div_add by lia. lia.
    + replace (stop - start)%nat with 0%nat by lia. simpl.
      symmetry. apply Nat.div_small. lia.
Qed.

Lemma range_from_bound (step : nat) :
  forall fuel start stop i,
    i ∈ range_from fuel start stop step -> (start <= i < stop)%nat.
Proof.
  induction fuel as [| fuel IH]; intros start stop i Hi; simpl in Hi.
  - by apply elem_of_nil in Hi.
  - destruct (Nat.ltb_spec start stop) as [Hlt | Hge].
    + apply elem_of_cons in Hi as [-> | Hi]; [lia |].
      apply IH in Hi. lia.
    + by apply elem_of_nil in Hi.
Qed.

(** The batches are consecutive, in order, non-empty, at most [batch_size]
    long, and there are [ceil(n / batch_size)] of them. *)
Lemma batches_spec {A} (l : list A) :
  concat (batches l) = l
  /\ Forall (fun b => (0 < length b <= batch_size)%nat) (batches l)
  /\ length (batches l) = ((length l + 499) `div` 500)%nat.
Proof.
  unfold batches, range. split_and!.
  - rewrite range_from_concat; [done | unfold batch_size; lia | lia].
  - apply Forall_forall. intros b Hb.
    apply list_elem_of_In, in_map_iff in Hb as (i & <- & Hi).
    apply (proj2 (list_elem_of_In _ _)), range_from_bound in Hi.
    rewrite length_slice. unfold batch_size. lia.
  - rewrite length_map, range_from_length; unfold batch_size; try lia.
    by rewrite Nat.sub_0_r.
Qed.

(** ** The two dispatchers *)

Lemma target_queryset_sending d n :
  target_queryset d (PushNotification.set_status sending n) = target_queryset d n.
Proof. done. Qed.

Lemma finalize_spec n sc fc s :
  finalize n sc fc s
  = (let final :=
       PushNotification.set_status (if bool_decide (sc > 0) then sent else failed)
         (PushNotification.set_sent_at (Some (timezone_now env (world s)))
            (PushNotification.set_failed_sends fc
               (PushNotification.set_successful_sends sc n))) in
     (Return final, snd (save final s))).
Proof.
  unfold finalize, bind, ask, ret. simpl.
  by destruct (bool_decide (sc > 0)).
Qed.

(** The part of both dispatchers from the first [save] to the last, for a
    non-empty audience. *)
Lemma dispatch_core on_empty report n s :
  target_queryset (db s) n <> [] ->
  init_quiet s ->
  only_reports report ->
  exists s',
    dispatch_skeleton on_empty report n s = (Return tt, s')
    /\ dispatch_effect s n s'.
Proof.
  intros Hne Hq Hk. unfold dispatch_skeleton. cbv zeta.
  unfold bind at 1. unfold save at 1, modify. cbv beta iota.
  unfold bind at 1. unfold get_target_tokens, bind, get_state, ret. cbv beta iota.
  simpl db. rewrite target_queryset_sending.
  change (target_queryset _ n) with (target_queryset (db s) n).
  destruct (target_queryset (db s) n) as [| t ts] eqn:Haud; [done |].
  unfold save at 1, modify. cbv beta iota.
  unfold send_in_batches.
  lazymatch goal with |- context [send_batches ?n1 ?data ?aud ?starts 0 0 ?s1] =>
    destruct (send_batches_spec n1 data aud starts 0 0 s1)
      as (res & s2 & rows & Heq & Hdb2 & Hms2 & Hgood & _);
    rewrite Heq;
    destruct Hgood as (-> & Hbc2 & Hrows & Hall & Hq2);
      [by eapply init_quiet_local; [| | apply Hq] |]
  end.
  simpl fst. simpl snd. rewrite finalize_spec. cbv beta iota zeta.
  lazymatch goal with |- context [report ?n' ?c ?s0] =>
    destruct (Hk n' c s0) as (s3 & -> & Hdb3 & Hbc3 & Hsvc3 & Hw3)
  end.
  exists s3. split; [done |].
  unfold dispatch_effect. rewrite Haud. exists rows.
  fold (batches (t :: ts)) in Hrows, Hbc2.
  destruct (batches_spec (t :: ts)) as (Hcat & _ & _).
  split_and!.
  - by rewrite Hrows, Hcat.
  - done.
  - rewrite Hdb3. unfold save, modify. simpl. rewrite Hdb2. simpl.
    rewrite Hw3. simpl. rewrite !Z.add_0_l.
    rewrite !insert_insert_eq. rewrite <- !app_assoc. simpl.
    unfold dispatched. simpl. done.
  - rewrite Hbc3. simpl. rewrite Hbc2. simpl. unfold batches.
    by rewrite map_map.
  - eapply init_quiet_local; [| | apply Hq2]; simpl; done.
Qed.

Lemma _send_single_notification_unfold n :
  _send_single_notification n
  = dispatch_skeleton
      (fun notification =>
         bind (save (PushNotification.set_status failed notification)) (fun _ =>
         raise (Exception "No valid device tokens found for targeting criteria")))
      (fun notification counts =>
         messages_add SUCCESS
           ("Notification '" +:+ PushNotification.title notification
            +:+ "' sent successfully! Success: " +:+ pretty (fst counts)
            +:+ ", Failed: " +:+ pretty (snd counts)))
      n.
Proof. reflexivity. Qed.

Lemma messages_add_only_reports (f : PushNotification.t -> Z * Z -> string) lvl :
  only_reports (fun n' c => messages_add lvl (f n' c)).
Proof. intros n' c s0. eexists. split; [reflexivity |]. done. Qed.

Lemma log_only_reports (f : PushNotification.t -> Z * Z -> string) lvl :
  only_reports (fun n' c => log lvl (f n' c)).
Proof. intros n' c s0. eexists. split; [reflexivity |]. done. Qed.

(** The manual dispatcher on a non-empty audience, when initialisation
    does not raise. *)
Lemma _send_single_notification_completes n s :
  target_queryset (db s) n <> [] ->
  init_quiet s ->
  exists s', _send_single_notification n s = (Return tt, s')
             /\ dispatch_effect s n s'.
Proof.
  intros Hne Hq. rewrite _send_single_notification_unfold.
  apply dispatch_core; [done | done |].
  apply (messages_add_only_reports
           (fun n' c => "Notification '" +:+ PushNotification.title n'
              +:+ "' sent successfully! Success: " +:+ pretty (fst c)
              +:+ ", Failed: " +:+ pretty (snd c))).
Qed.

Lemma send_notification_async_unfold notification_id :
  send_notification_async notification_id
  = try_except
      (bind (PushNotification_objects_get notification_id)
         (dispatch_skeleton
            (fun notification =>
               bind (save (PushNotification.set_status failed notification)) (fun _ =>
               log ERROR ("No valid device tokens found for notification "
                          +:+ pretty (PushNotification.id notification))))
            (fun notification counts =>
               log INFO ("Notification '" +:+ PushNotification.title notification
                 +:+ "' sent automatically! Success: " +:+ pretty (fst counts)
                 +:+ ", Failed: " +:+ pretty (snd counts)))))
      (fun e =>
         bind (log ERROR ("Failed to send notification " +:+ pretty notification_id
                          +:+ ": " +:+ str e)) (fun _ =>
         try_except
           (bind (PushNotification_objects_get notification_id) (fun notification =>
            save (PushNotification.set_status failed notification)))
           (fun _ => ret tt))).
Proof. reflexivity. Qed.

Lemma PushNotification_objects_get_found n s :
  notifications (db s) !! PushNotification.id n = Some n ->
  PushNotification_objects_get (PushNotification.id n) s = (Return n, s).
Proof.
  intros Hn. unfold PushNotification_objects_get, bind, get_state, ret.
  by rewrite Hn.
Qed.

(** The automatic dispatcher on a stored request with a non-empty
    audience, when initialisation does not raise. *)
Lemma send_notification_async_completes n s :
  notifications (db s) !! PushNotification.id n = Some n ->
  target_queryset (db s) n <> [] ->
  init_quiet s ->
  exists s', send_notification_async (PushNotification.id n) s = (Return tt, s')
             /\ dispatch_effect s n s'.
Proof.
  intros Hn Hne Hq. rewrite send_notification_async_unfold.
  unfold try_except.
  rewrite (bind_Return _ _ _ _ _ (PushNotification_objects_get_found n s Hn)).
  match goal with |- context [dispatch_skeleton ?e ?r n s] =>
    destruct (dispatch_core e r n s Hne Hq) as (s' & -> & Heff)
  end.
  { apply (log_only_reports
             (fun n' c => "Notification '" +:+ PushNotification.title n'
                +:+ "' sent automatically! Success: " +:+ pretty (fst c)
                +:+ ", Failed: " +:+ pretty (snd c))). }
  by exists s'.
Qed.

(** Both dispatchers on an empty audience. *)
Lemma dispatch_skeleton_empty on_empty report n s :
  target_queryset (db s) n = [] ->
  dispatch_skeleton on_empty report n s
  = on_empty (PushNotification.set_status sending n)
      (snd (save (PushNotification.set_status sending n) s)).
Proof.
  intros Hempty. unfold dispatch_skeleton. cbv zeta.
  unfold bind at 1. unfold save at 1, modify. cbv beta iota.
  unfold bind at 1. unfold get_target_tokens, bind at 1, get_state, ret.
  cbv beta iota. simpl db. rewrite target_queryset_sending.
  change (target_queryset _ n) with (target_queryset (db s) n).
  by rewrite Hempty.
Qed.

Lemma send_notification_async_empty n s :
  notifications (db s) !! PushNotification.id n = Some n ->
  target_queryset (db s) n = [] ->
  send_notification_async (PushNotification.id n) s
  = (Return tt,
     {| service := service s; world := world s;
        db := db_no_recipients n (db s);
        logger := logger s
                  ++ [(ERROR, "No valid device tokens found for notification "
                              +:+ pretty (PushNotification.id n))];
        messages := messages s; bulk_calls := bulk_calls s |}).
Proof.
  intros Hn Hempty. rewrite send_notification_async_unfold.
  unfold try_except.
  rewrite (bind_Return _ _ _ _ _ (PushNotification_objects_get_found n s Hn)).
  rewrite dispatch_skeleton_empty by done.
  unfold bind, save, log, modify, db_no_recipients. simpl.
  rewrite insert_insert_eq, <- app_assoc. done.
Qed.

Lemma _send_single_notification_empty n s :
  target_queryset (db s) n = [] ->
  _send_single_notification n s
  = (Raise (Exception "No valid device tokens found for targeting criteria"),
     set_db (db_no_recipients n (db s)) s).
Proof.
  intros Hempty. rewrite _send_single_notification_unfold.
  rewrite dispatch_skeleton_empty by done.
  unfold bind, save, raise, modify, db_no_recipients, set_db. simpl.
  rewrite insert_insert_eq, <- app_assoc. done.
Qed.

Lemma run_dispatcher_completes via n s :
  notifications (db s) !! PushNotification.id n = Some n ->
  target_queryset (db s) n <> [] ->
  init_quiet s ->
  exists s', run_dispatcher via n s = (Return tt, s') /\ dispatch_effect s n s'.
Proof.
  intros Hn Hne Hq. destruct via; simpl.
  - by apply send_notification_async_completes.
  - by apply _send_single_notification_completes.
Qed.

Lemma batches_1200 {A} (l : list A) :
  length l = 1200%nat -> map length (batches l) = [500; 500; 200]%nat.
Proof.
  intros Hlen. unfold batches. rewrite map_map.
  rewrite (map_ext _ (fun i => (batch_size `min` (length l - i))%nat))
    by (intros i; apply length_slice).
  rewrite Hlen. by vm_compute.
Qed.

(** ** Audience resolution *)

Lemma user__in_spec target_users t :
  user__in target_users t
  <-> exists u, DeviceToken.user t = Some u /\ u ∈ target_users.
Proof.
  unfold user__in. destruct (DeviceToken.user t) as [u |].
  - split; [eauto | by intros (u' & [= <-] & ?)].
  - split; [done | by intros (u' & ? & ?)].
Qed.

Lemma explicit_users_spec (to_all : bool) (target_users : list Z) :
  negb to_all && exists_ target_users = true
  <-> to_all = false /\ target_users <> [].
Proof. destruct to_all, target_users; simpl; naive_solver. Qed.

(** The chain of conditional filters is one filter by [eligible]. *)
Lemma target_queryset_eligible d n :
  target_queryset d n = filter (eligible n) (device_tokens d).
Proof.
  unfold target_queryset.
  destruct (negb (PushNotification.send_to_all n)
            && exists_ (PushNotification.target_users n)) eqn:Hus;
    [apply explicit_users_spec in Hus as [Hall Hne]
    | assert (Hno : ~ (PushNotification.send_to_all n = false
                       /\ PushNotification.target_users n <> []))
        by (rewrite <- explicit_users_spec, Hus; done)];
    case_bool_decide as Hty;
    rewrite ?list_filter_filter; apply list_filter_iff; intros t;
    unfold eligible; rewrite ?user__in_spec; naive_solver.
Qed.

(** ** The device registry *)

Lemma NoDup_map_inj_on {A B} (f : A -> B) (l : list A) x y :
  NoDup (map f l) -> x ∈ l -> y ∈ l -> f x = f y -> x = y.
Proof.
  induction l as [| a l IH]; simpl; intros Hnd Hx Hy Hf.
  - by apply elem_of_nil in Hx.
  - apply NoDup_cons in Hnd as [Ha Hnd].
    apply elem_of_cons in Hx as [-> | Hx]; apply elem_of_cons in Hy as [-> | Hy].
    + done.
    + exfalso. apply Ha. rewrite Hf. apply list_elem_of_In, in_map.
      by apply list_elem_of_In.
    + exfalso. apply Ha. rewrite <- Hf. apply list_elem_of_In, in_map.
      by apply list_elem_of_In.
    + by apply IH.
Qed.

Lemma rows_with_nil tok d :
  rows_with tok d = [] <-> tok ∉ map DeviceToken.token (device_tokens d).
Proof.
  unfold rows_with. split.
  - intros Hnil Hin. apply list_elem_of_In, in_map_iff in Hin as (r & Htok & Hr).
    apply list_elem_of_In in Hr.
    by apply (filter_nil_not_elem_of _ _ r Hnil).
  - intros Hnot. destruct (filter _ _) as [| r rs] eqn:Hf; [done |].
    exfalso. apply Hnot.
    assert (Hr : r ∈ filter (fun r => DeviceToken.token r = tok) (device_tokens d))
      by (rewrite Hf; left).
    apply list_elem_of_filter in Hr as [<- Hr].
    apply list_elem_of_In, in_map. by apply list_elem_of_In.
Qed.

(** Under the uniqueness constraint a token selects no row or one row. *)
Lemma token_rows_cases tok (rows : list DeviceToken.t) :
  NoDup (map DeviceToken.token rows) ->
  filter (fun r => DeviceToken.token r = tok) rows = []
  \/ exists found, filter (fun r => DeviceToken.token r = tok) rows = [found]
                  /\ found ∈ rows /\ DeviceToken.token found = tok.
Proof.
  intros Hnd.
  destruct (filter _ _) as [| r1 [| r2 rs]] eqn:Hf; [by left | |].
  - right. exists r1.
    assert (Hr : r1 ∈ filter (fun r => DeviceToken.token r = tok) rows)
      by (rewrite Hf; left).
    apply list_elem_of_filter in Hr as [? ?]. done.
  - exfalso.
    assert (Hnd' : NoDup (r1 :: r2 :: rs)).
    { rewrite <- Hf. apply NoDup_filter.
      change (NoDup (DeviceToken.token <$> rows)) in Hnd.
      by eapply NoDup_fmap_1. }
    assert (H1 : r1 ∈ filter (fun r => DeviceToken.token r = tok) rows)
      by (rewrite Hf; left).
    assert (H2 : r2 ∈ filter (fun r => DeviceToken.token r = tok) rows)
      by (rewrite Hf; right; left).
    apply list_elem_of_filter in H1 as [Ht1 Hin1].
    apply list_elem_of_filter in H2 as [Ht2 Hin2].
    assert (r1 = r2)
      by (apply (NoDup_map_inj_on DeviceToken.token rows); congruence).
    subst r2. apply NoDup_cons in Hnd' as [Hnot _]. apply Hnot. left.
Qed.

Lemma rows_with_cases tok d :
  NoDup (map DeviceToken.token (device_tokens d)) ->
  rows_with tok d = []
  \/ exists found, rows_with tok d = [found]
                  /\ found ∈ device_tokens d /\ DeviceToken.token found = tok.
Proof. apply token_rows_cases. Qed.

(** Writing a row back under its own primary key and token keeps keys
    and tokens as they are. *)
Lemma save_row_keys (row found : DeviceToken.t) (rows : list DeviceToken.t) :
  NoDup (map DeviceToken.id rows) ->
  found ∈ rows ->
  DeviceToken.id row = DeviceToken.id found ->
  DeviceToken.token row = DeviceToken.token found ->
  let rows' :=
    map (fun r => if bool_decide (DeviceToken.id r = DeviceToken.id row)
                  then row else r) rows in
  map DeviceToken.id rows' = map DeviceToken.id rows
  /\ map DeviceToken.token rows' = map DeviceToken.token rows
  /\ row ∈ rows'
  /\ (forall r, r ∈ rows' -> r = row \/ (r ∈ rows /\ r <> found)).
Proof.
  intros Hnd Hfound Hid Htok rows'. subst rows'.
  assert (Hsame : forall r, r ∈ rows ->
            DeviceToken.id r = DeviceToken.id row -> r = found).
  { intros r Hr Heq.
    apply (NoDup_map_inj_on DeviceToken.id rows); [done | done | done | congruence]. }
  split_and!.
  - rewrite map_map. apply map_ext_in. intros r Hr.
    case_bool_decide; congruence.
  - rewrite map_map. apply map_ext_in. intros r Hr.
    apply list_elem_of_In in Hr.
    case_bool_decide as Heq; [| done]. rewrite (Hsame r Hr Heq). done.
  - apply list_elem_of_In, in_map_iff. exists found.
    split; [| by apply list_elem_of_In].
    rewrite bool_decide_eq_true_2 by done. done.
  - intros r Hr. apply list_elem_of_In, in_map_iff in Hr as (r0 & Hr0 & Hin).
    apply list_elem_of_In in Hin.
    case_bool_decide as Heq; [by left |].
    right. subst r0. split; [done |]. intros ->. apply Heq. done.
Qed.

Lemma save_row_split (row found : DeviceToken.t) (rows : list DeviceToken.t) :
  NoDup (map DeviceToken.id rows) ->
  found ∈ rows ->
  DeviceToken.id row = DeviceToken.id found ->
  exists before after,
    rows = before ++ found :: after
    /\ map (fun r => if bool_decide (DeviceToken.id r = DeviceToken.id row)
                     then row else r) rows
       = before ++ row :: after.
Proof.
  intros Hnd Hfound Hid.
  apply list_elem_of_split in Hfound as (before & after & ->).
  exists before, after. split; [done |].
  rewrite map_app in Hnd. simpl in Hnd.
  apply NoDup_app in Hnd as (_ & Hdisj & Hnd2).
  apply NoDup_cons in Hnd2 as [Hafter _].
  rewrite map_app. simpl. rewrite bool_decide_eq_true_2 by done.
  f_equal; [| f_equal].
  - rewrite <- (map_id before) at 2. apply map_ext_in. intros r Hr.
    case_bool_decide as Heq; [| done]. exfalso.
    apply (Hdisj (DeviceToken.id r)).
    + apply list_elem_of_In, in_map. done.
    + rewrite Heq, Hid. left.
  - rewrite <- (map_id after) at 2. apply map_ext_in. intros r Hr.
    case_bool_decide as Heq; [| done]. exfalso.
    apply Hafter. rewrite <- Hid, <- Heq. apply list_elem_of_In, in_map. done.
Qed.

(** [update_or_create] under the table's constraints: afterwards exactly
    one row carries the token, with the given columns; [created] tells
    whether the token was new. *)
Lemma update_or_create_spec tok user dt s :
  registry_ok (db s) ->
  exists row created rows' seq',
    DeviceToken_objects_update_or_create tok user dt true s
    = (Return (row, created), set_db (db_set_registry rows' seq' (db s)) s)
    /\ created = bool_decide (rows_with tok (db s) = [])
    /\ filter (fun r => DeviceToken.token r = tok) rows' = [row]
    /\ DeviceToken.user row = user
    /\ DeviceToken.token row = tok
    /\ DeviceToken.device_type row = dt
    /\ DeviceToken.is_active row = true
    /\ (forall found, rows_with tok (db s) = [found] ->
          DeviceToken.id row = DeviceToken.id found)
    /\ registry_ok (db_set_registry rows' seq' (db s)).
Proof.
  intros (Hids & Htoks & Hseq).
  unfold DeviceToken_objects_update_or_create, bind at 1, get_state.
  fold (rows_with tok (db s)).
  destruct (rows_with_cases tok (db s) Htoks) as [Hnil | (found & Hone & Hin & Htok)].
  - rewrite Hnil.
    eexists _, true, _, _. split; [reflexivity |]. simpl.
    split_and!; [done | | done | done | done | done | done |].
    + rewrite filter_app. fold (rows_with tok (db s)). rewrite Hnil. simpl.
      rewrite filter_cons_True by done. done.
    + unfold registry_ok. simpl. rewrite !map_app. simpl. split_and!.
      * apply NoDup_app. split_and!; [done | | apply NoDup_singleton].
        intros i Hi Hnew. apply list_elem_of_singleton in Hnew. subst i.
        apply list_elem_of_In, in_map_iff in Hi as (r & Hr & Hin).
        rewrite Forall_forall in Hseq. apply list_elem_of_In in Hin.
        specialize (Hseq r Hin). lia.
      * apply NoDup_app. split_and!; [done | | apply NoDup_singleton].
        intros t Ht Hnew. apply list_elem_of_singleton in Hnew. subst t.
        by apply rows_with_nil in Hnil.
      * apply Forall_app. split.
        -- eapply Forall_impl; [exact Hseq |]. simpl. intros; lia.
        -- apply Forall_singleton. simpl. lia.
  - rewrite Hone.
    set (row := DeviceToken.Build (DeviceToken.id found) user
                  (DeviceToken.token found) dt true).
    destruct (save_row_keys row found (device_tokens (db s)) Hids Hin eq_refl eq_refl)
      as (Hids' & Htoks' & Hrow & Hothers).
    eexists row, false, _, _. split; [reflexivity |].
    split_and!; [done | | done | done | done | done | by intros ? [= <-] |].
    + pose proof (token_rows_cases tok
                    (map (fun r => if bool_decide (DeviceToken.id r = DeviceToken.id row)
                                   then row else r) (device_tokens (db s)))) as Hcases.
      rewrite Htoks' in Hcases.
      destruct (Hcases Htoks) as [Hnil | (x & Hx & _ & _)].
      * exfalso. eapply (filter_nil_not_elem_of _ _ row Hnil); [| exact Hrow].
        done.
      * rewrite Hx.
        assert (Hin' : row ∈ [x]).
        { rewrite <- Hx. apply list_elem_of_filter. by split. }
        apply list_elem_of_singleton in Hin'. by subst x.
    + unfold registry_ok, db_set_registry. cbn [device_tokens device_token_seq].
      rewrite Hids', Htoks'. split_and!; try done.
      apply Forall_forall. intros r Hr.
      destruct (Hothers r Hr) as [-> | [Hr' _]].
      * simpl. rewrite Forall_forall in Hseq. by apply (Hseq found).
      * rewrite Forall_forall in Hseq. by apply Hseq.
Qed.

(** [update_or_create] without any assumption on the table: when it
    returns, the returned row is stored and is the only stored row with
    the token. *)
Lemma update_or_create_rows tok user dt active s row created s' :
  DeviceToken_objects_update_or_create tok user dt active s
  = (Return (row, created), s') ->
  row = DeviceToken.Build (DeviceToken.id row) user tok dt active
  /\ row ∈ device_tokens (db s')
  /\ (forall r, r ∈ device_tokens (db s') -> DeviceToken.token r = tok -> r = row)
  /\ created = bool_decide (rows_with tok (db s) = []).
Proof.
  unfold DeviceToken_objects_update_or_create, bind at 1, get_state.
  fold (rows_with tok (db s)).
  destruct (rows_with tok (db s)) as [| found [| ? ?]] eqn:Hrows;
    [| | by intros [=]].
  - unfold bind, set_device_tokens, modify, ret. simpl. intros [= <- <- <-].
    simpl. split_and!; [done | | | done].
    + apply elem_of_app. right. left.
    + intros r Hr Htok. apply elem_of_app in Hr as [Hr | Hr].
      * exfalso. apply rows_with_nil in Hrows. apply Hrows.
        rewrite <- Htok. apply list_elem_of_In, in_map. by apply list_elem_of_In.
      * by apply list_elem_of_singleton in Hr.
  - assert (Hfound : found ∈ rows_with tok (db s)) by (rewrite Hrows; left).
    apply list_elem_of_filter in Hfound as [Hftok Hfin].
    unfold bind, DeviceToken_save, bind, get_state, set_device_tokens, modify, ret.
    simpl. intros [= <- <- <-]. simpl. split_and!; [by rewrite Hftok | | | done].
    + apply list_elem_of_In, in_map_iff. exists found.
      split; [| by apply list_elem_of_In].
      by rewrite bool_decide_eq_true_2.
    + intros r Hr Htok.
      apply list_elem_of_In, in_map_iff in Hr as (r0 & Hr0 & Hin0).
      apply list_elem_of_In in Hin0.
      case_bool_decide as Heq; [done |]. subst r0. exfalso.
      assert (Hr : r ∈ rows_with tok (db s)) by (by apply list_elem_of_filter).
      rewrite Hrows in Hr. apply list_elem_of_singleton in Hr. by subst r.
Qed.

(** The three ways a registration call can go. *)
Lemma register_device_token_eq request s :
  register_device_token request s
  = if negb (truthy_str (Request.token request)) then
      (Return (Response.Build [("error", JString "Token is required")]
                 HTTP_400_BAD_REQUEST), s)
    else if truthy_int (Request.user_id request)
            && negb (bool_decide (default 0 (Request.user_id request)
                                  ∈ users (db s))) then
      (Return (Response.Build [("error", JString "User not found")]
                 HTTP_404_NOT_FOUND), s)
    else
      match DeviceToken_objects_update_or_create
              (default "" (Request.token request)) (owner_given request)
              (default "android" (Request.device_type request)) true s with
      | (Return (row, created), s') =>
          (Return (registered created (DeviceToken.id row)), s')
      | (Raise e, s') =>
          (Return (Response.Build [("error", JString "Internal server error")]
                     HTTP_500_INTERNAL_SERVER_ERROR),
           snd (log ERROR ("Error registering device token: " +:+ str e) s'))
      end.
Proof.
  unfold register_device_token, try_except, owner_given.
  destruct (truthy_str (Request.token request)); simpl; [| done].
  destruct (truthy_int (Request.user_id request)) eqn:Hu; simpl.
  - unfold bind at 1. unfold try_except_DoesNotExist, bind at 1, User_objects_get.
    unfold bind at 1, get_state.
    destruct (Request.user_id request) as [uid |]; [| done]. simpl.
    case_bool_decide; simpl; [| done].
    unfold ret at 1. unfold bind at 1.
    destruct (DeviceToken_objects_update_or_create _ _ _ _ s)
      as [[[row created] | e] s']; done.
  - unfold bind at 1. unfold ret at 1. unfold bind at 1.
    destruct (DeviceToken_objects_update_or_create _ _ _ _ s)
      as [[[row created] | e] s']; done.
Qed.

(** One accepted registration call on a well-formed table. *)
Lemma register_accepted tok request s :
  registry_ok (db s) ->
  accepted (db s) request ->
  Request.token request = Some tok ->
  exists row rows' seq',
    register_device_token request s
    = (Return (registered (bool_decide (rows_with tok (db s) = []))
                 (DeviceToken.id row)),
       set_db (db_set_registry rows' seq' (db s)) s)
    /\ rows_with tok (db_set_registry rows' seq' (db s)) = [row]
    /\ reflects request row
    /\ (forall found, rows_with tok (db s) = [found] ->
          DeviceToken.id row = DeviceToken.id found)
    /\ registry_ok (db_set_registry rows' seq' (db s)).
Proof.
  intros Hok [Htruthy Huser] Htok.
  rewrite register_device_token_eq, Htruthy. simpl.
  destruct (truthy_int (Request.user_id request)) eqn:Hu; simpl.
  - rewrite bool_decide_eq_true_2 by (by apply Huser). simpl.
    rewrite Htok. simpl.
    destruct (update_or_create_spec tok (owner_given request)
                (default "android" (Request.device_type request)) s Hok)
      as (row & created & rows' & seq' & -> & -> & Hone & Hus & _ & Hdt & Hact & Hid & Hok').
    exists row, rows', seq'. split_and!; done.
  - rewrite Htok. simpl.
    destruct (update_or_create_spec tok (owner_given request)
                (default "android" (Request.device_type request)) s Hok)
      as (row & created & rows' & seq' & -> & -> & Hone & Hus & _ & Hdt & Hact & Hid & Hok').
    exists row, rows', seq'. split_and!; done.
Qed.

(** Further accepted registrations of a token that already has its row:
    each is answered as an update of that same row, and the row reflects
    the latest call. *)
Lemma register_all_known tok requests :
  forall s row0,
    registry_ok (db s) ->
    rows_with tok (db s) = [row0] ->
    Forall (fun r => Request.token r = Some tok /\ accepted (db s) r) requests ->
    exists s' row,
      register_all requests s
      = (Return (map (fun _ => registered false (DeviceToken.id row0)) requests), s')
      /\ rows_with tok (db s') = [row]
      /\ DeviceToken.id row = DeviceToken.id row0
      /\ registry_ok (db s')
      /\ match last requests with
         | Some latest => reflects latest row
         | None => row = row0
         end.
Proof.
  induction requests as [| request rest IH]; intros s row0 Hok Hrow Hall.
  - exists s, row0. simpl. unfold ret. done.
  - apply Forall_cons in Hall as [[Htok Hacc] Hrest].
    destruct (register_accepted tok request s Hok Hacc Htok)
      as (row1 & rows' & seq' & Hrun & Hone & Hrefl & Hid & Hok').
    rewrite Hrow in Hrun. simpl in Hrun.
    destruct (IH (set_db (db_set_registry rows' seq' (db s)) s) row1 Hok' Hone)
      as (s' & row & Hrest_run & Hrow' & Hid' & Hok'' & Hlast).
    { eapply Forall_impl; [exact Hrest |]. by intros r [? ?]. }
    exists s', row. simpl register_all.
    rewrite (bind_Return _ _ _ _ _ Hrun), (bind_Return _ _ _ _ _ Hrest_run).
    unfold ret. rewrite (Hid row0 Hrow) in *.
    split_and!; try done.
    destruct rest as [| r2 rest']; [simpl in *; by subst row |].
    change (last (request :: r2 :: rest')) with (last (r2 :: rest')).
    destruct (last (r2 :: rest')) eqn:Hl; [done |].
    by apply last_None in Hl.
Qed.

(** ** Unregistration *)

(** A token that no stored row carries: [get_object_or_404] raises
    [Http404], which the handler's own [except Exception] turns into the
    500 answer; nothing is written to the database. *)
Lemma unregister_unknown_token tok request s :
  Request.token request = Some tok ->
  tok <> "" ->
  rows_with tok (db s) = [] ->
  exists s',
    unregister_device_token request s
    = (Return (Response.Build [("error", JString "Internal server error")]
                 HTTP_500_INTERNAL_SERVER_ERROR), s')
    /\ db s' = db s
    /\ logger s'
       = logger s
         ++ [(ERROR, "Error unregistering device token: "
                     +:+ "No DeviceToken matches the given query.")].
Proof.
  intros Htok Hne Hnone.
  unfold unregister_device_token, try_except. rewrite Htok. simpl.
  destruct (String.eqb_spec tok "") as [-> | _]; [done |]. simpl.
  unfold bind at 1. unfold get_object_or_404, bind at 1, get_state.
  fold (rows_with tok (db s)). rewrite Hnone.
  eexists. split; [reflexivity |]. done.
Qed.

(** A token that one stored row carries: that row is written back with
    [is_active = False]; every other row, and every other column of that
    row, stays as it was. *)
Lemma unregister_known_token tok request found s :
  registry_ok (db s) ->
  Request.token request = Some tok ->
  tok <> "" ->
  rows_with tok (db s) = [found] ->
  exists before after,
    device_tokens (db s) = before ++ found :: after
    /\ unregister_device_token request s
       = (Return (Response.Build
                    [("message", JString "Device token unregistered successfully")]
                    HTTP_200_OK),
          set_db (db_set_registry
                    (before
                     ++ DeviceToken.Build (DeviceToken.id found)
                          (DeviceToken.user found) (DeviceToken.token found)
                          (DeviceToken.device_type found) false
                        :: after)
                    (device_token_seq (db s)) (db s)) s).
Proof.
  intros (Hids & _ & _) Htok Hne Hone.
  assert (Hin : found ∈ device_tokens (db s)).
  { assert (H : found ∈ rows_with tok (db s)) by (rewrite Hone; left).
    by apply list_elem_of_filter in H as [_ ?]. }
  destruct (save_row_split
              (DeviceToken.Build (DeviceToken.id found)
                 (DeviceToken.user found) (DeviceToken.token found)
                 (DeviceToken.device_type found) false)
              found (device_tokens (db s)) Hids Hin eq_refl)
    as (before & after & Hsplit & Hmap).
  exists before, after. split; [done |].
  unfold unregister_device_token, try_except. rewrite Htok. simpl.
  destruct (String.eqb_spec tok "") as [-> | _]; [done |]. simpl.
  unfold bind at 1. unfold get_object_or_404, bind at 1, get_state.
  fold (rows_with tok (db s)). rewrite Hone.
  unfold ret at 1. unfold bind at 1.
  unfold DeviceToken_save, bind at 1, get_state, set_device_tokens, modify.
  rewrite Hmap. done.
Qed.

(** ** The single-recipient form *)

(** Every way a single-recipient call can go. *)
Lemma send_notification_to_token_eq token title body data image s :
  send_notification_to_token token title body data image s
  = match initialize_firebase s with
    | (Raise e, s0) => (Raise e, s0)
    | (Return _, s0) =>
        if is_none (_app (service s0)) then
          (Return (not_delivered not_configured),
           snd (log ERROR "Firebase is not available. Cannot send notification." s0))
        else
          match messaging_Notification env title body image with
          | Raise e =>
              (Return (not_delivered (str e)),
               snd (log ERROR ("Failed to send notification to token " +:+ token
                               +:+ ": " +:+ str e) s0))
          | Return nt =>
              match messaging_send env nt (or_empty data) token (world s0) with
              | (Return message_id, w) =>
                  (Return (delivered message_id),
                   snd (log INFO ("Successfully sent message: " +:+ message_id)
                          (set_world w s0)))
              | (Raise e, w) =>
                  (Return (not_delivered (str e)),
                   snd (log ERROR ("Failed to send notification to token " +:+ token
                                   +:+ ": " +:+ str e) (set_world w s0)))
              end
          end
    end.
Proof.
  unfold send_notification_to_token, is_firebase_available.
  unfold bind at 1. unfold bind at 1.
  destruct (initialize_firebase s) as [[[] | e] s0]; [| done].
  unfold bind at 1, get_state, ret at 1.
  destruct (is_none (_app (service s0))); simpl; [done |].
  unfold try_except, bind at 1, pure_call.
  destruct (messaging_Notification env title body image) as [nt | e]; [| done].
  unfold bind at 1, call.
  destruct (messaging_send env nt (or_empty data) token (world s0)) as [[mid | e] w];
    done.
Qed.

(** ** The bulk form against a loop over the single-recipient form *)

Lemma ready_settled s : ready s -> settled s.
Proof. intros H. by left. Qed.

Lemma is_none_ready s : ready s -> is_none (_app (service s)) = false.
Proof. unfold ready. by destruct (_app (service s)). Qed.

(** Once initialisation has gone through, a single-recipient call behaves
    as it does from the state initialisation left. *)
Lemma send_notification_to_token_woken token title body data image s s0 :
  initialize_firebase s = (Return tt, s0) ->
  send_notification_to_token token title body data image s
  = send_notification_to_token token title body data image s0.
Proof.
  intros Hinit. rewrite !send_notification_to_token_eq, Hinit.
  pose proof (initialize_firebase_frame s) as (_ & _ & _ & Hset).
  rewrite Hinit in Hset. simpl in Hset.
  by rewrite (initialize_firebase_settled s0 Hset).
Qed.

Lemma counts_strip rs :
  successes rs = count_delivered (map strip rs)
  /\ failures rs = count_not_delivered (map strip rs).
Proof.
  unfold successes, failures, count_delivered, count_not_delivered.
  induction rs as [| r rs [IH1 IH2]]; [done |].
  simpl map. rewrite !filter_cons. simpl.
  destruct (TokenResponse.success r); simpl; lia.
Qed.

Lemma send_each_cons (nt : Notification env) data token rest acc sc fc s :
  send_each nt data (token :: rest) acc sc fc s
  = match messaging_send env nt (or_empty data) token (world s) with
    | (Return message_id, w) =>
        send_each nt data rest
          (acc ++ [TokenResponse.Build token true (Some message_id) None])
          (sc + 1) fc (set_world w s)
    | (Raise e, w) =>
        send_each nt data rest
          (acc ++ [TokenResponse.Build token false None (Some (str e))])
          sc (fc + 1) (set_world w s)
    end.
Proof.
  simpl. unfold bind at 1. unfold try_except, call, bind, ret.
  by destruct (messaging_send env nt (or_empty data) token (world s)) as [[mid | e] w].
Qed.

(** A single-recipient call when a usable client exists. *)
Lemma send_notification_to_token_ready token title body data image s :
  ready s ->
  send_notification_to_token token title body data image s
  = match messaging_Notification env title body image with
    | Raise e =>
        (Return (not_delivered (str e)),
         snd (log ERROR ("Failed to send notification to token " +:+ token
                         +:+ ": " +:+ str e) s))
    | Return nt =>
        match messaging_send env nt (or_empty data) token (world s) with
        | (Return message_id, w) =>
            (Return (delivered message_id),
             snd (log INFO ("Successfully sent message: " +:+ message_id)
                    (set_world w s)))
        | (Raise e, w) =>
            (Return (not_delivered (str e)),
             snd (log ERROR ("Failed to send notification to token " +:+ token
                             +:+ ": " +:+ str e) (set_world w s)))
        end
    end.
Proof.
  intros Hready. rewrite send_notification_to_token_eq.
  rewrite (initialize_firebase_settled s (ready_settled s Hready)).
  by rewrite (is_none_ready s Hready).
Qed.

(** With a usable client and a message that can be built, the inner loop
    of the bulk form and the loop over the single-recipient form send the
    same messages and collect the same outcomes. *)
Lemma send_each_one_by_one title body data image (nt : Notification env) tokens :
  messaging_Notification env title body image = Return nt ->
  forall acc sc fc sA sB,
    ready sB -> world sA = world sB ->
    exists rs w',
      send_each nt data tokens acc sc fc sA
      = (Return (acc ++ rs, sc + successes rs, fc + failures rs), set_world w' sA)
      /\ map TokenResponse.token rs = tokens
      /\ exists sB',
           send_one_by_one tokens title body data image sB
           = (Return (map strip rs), sB')
           /\ world sB' = w' /\ service sB' = service sB /\ db sB' = db sB.
Proof.
  intros Hnt. induction tokens as [| token rest IH]; intros acc sc fc sA sB Hready Hw.
  - exists [], (world sA). simpl. unfold ret.
    rewrite app_nil_r. change (successes []) with 0. change (failures []) with 0.
    rewrite !Z.add_0_r. split_and!; [by destruct sA | done |].
    exists sB. done.
  - rewrite send_each_cons.
    pose proof (send_notification_to_token_ready token title body data image sB Hready)
      as Hsingle.
    rewrite Hnt, <- Hw in Hsingle.
    simpl send_one_by_one.
    destruct (messaging_send env nt (or_empty data) token (world sA)) as [[mid | e] w1].
    + rewrite (bind_Return _ _ _ _ _ Hsingle).
      destruct (IH (acc ++ [TokenResponse.Build token true (Some mid) None])
                  (sc + 1) fc (set_world w1 sA)
                  (snd (log INFO ("Successfully sent message: " +:+ mid)
                          (set_world w1 sB))))
        as (rs & w' & -> & Htok & sB' & Hloop & HwB & HsB & HdB); [done | done |].
      exists (TokenResponse.Build token true (Some mid) None :: rs), w'.
      split_and!.
      * rewrite <- app_assoc, successes_cons, failures_cons. simpl.
        by rewrite ?Z.add_0_l, ?Z.add_assoc.
      * by rewrite <- Htok.
      * exists sB'. rewrite (bind_Return _ _ _ _ _ Hloop). unfold ret. done.
    + rewrite (bind_Return _ _ _ _ _ Hsingle).
      destruct (IH (acc ++ [TokenResponse.Build token false None (Some (str e))])
                  sc (fc + 1) (set_world w1 sA)
                  (snd (log ERROR ("Failed to send notification to token " +:+ token
                                   +:+ ": " +:+ str e) (set_world w1 sB))))
        as (rs & w' & -> & Htok & sB' & Hloop & HwB & HsB & HdB); [done | done |].
      exists (TokenResponse.Build token false None (Some (str e)) :: rs), w'.
      split_and!.
      * rewrite <- app_assoc, successes_cons, failures_cons. simpl.
        by rewrite ?Z.add_0_l, ?Z.add_assoc.
      * by rewrite <- Htok.
      * exists sB'. rewrite (bind_Return _ _ _ _ _ Hloop). unfold ret. done.
Qed.

(** With a usable client and a message that cannot be built, every
    single-recipient call fails with the same text and sends nothing. *)
Lemma send_one_by_one_unbuildable title body data image e tokens :
  messaging_Notification env title body image = Raise e ->
  forall sB, ready sB ->
    exists sB',
      send_one_by_one tokens title body data image sB
      = (Return (map (fun _ => not_delivered (str e)) tokens), sB')
      /\ world sB' = world sB /\ service sB' = service sB /\ db sB' = db sB.
Proof.
  intros Hnt. induction tokens as [| token rest IH]; intros sB Hready.
  - exists sB. done.
  - pose proof (send_notification_to_token_ready token title body data image sB Hready)
      as Hsingle.
    rewrite Hnt in Hsingle. simpl send_one_by_one.
    rewrite (bind_Return _ _ _ _ _ Hsingle).
    destruct (IH (snd (log ERROR ("Failed to send notification to token " +:+ token
                                  +:+ ": " +:+ str e) sB)))
      as (sB' & Hloop & HwB & HsB & HdB); [done |].
    exists sB'. rewrite (bind_Return _ _ _ _ _ Hloop). unfold ret. done.
Qed.

(** The bulk form, once its initialisation has gone through. *)
Lemma bulk_after_init tokens title body data image s s0 :
  initialize_firebase (snd (record_bulk_call tokens s)) = (Return tt, s0) ->
  send_notification_to_multiple_tokens tokens title body data image s
  = match tokens with
    | [] => (Return (BulkResult.Build 0 0 []), s0)
    | _ =>
        match messaging_Notification env title body image with
        | Return nt =>
            match send_each nt data tokens [] 0 0 s0 with
            | (Return (responses, success_count, failure_count), s1) =>
                (Return (BulkResult.Build success_count failure_count responses),
                 snd (log INFO ("Failed to send " +:+ pretty failure_count
                                +:+ " messages")
                        (snd (log INFO ("Successfully sent " +:+ pretty success_count
                                        +:+ " messages") s1))))
            | (Raise e, s1) =>
                (Return (BulkResult.Build 0 (Z.of_nat (length tokens))
                           (map (fun token =>
                                   TokenResponse.Build token false None (Some (str e)))
                                tokens)),
                 snd (log ERROR ("Failed to send multicast notification: " +:+ str e) s1))
            end
        | Raise e =>
            (Return (BulkResult.Build 0 (Z.of_nat (length tokens))
                       (map (fun token =>
                               TokenResponse.Build token false None (Some (str e)))
                            tokens)),
             snd (log ERROR ("Failed to send multicast notification: " +:+ str e) s0))
        end
    end.
Proof.
  intros Hinit. unfold send_notification_to_multiple_tokens.
  unfold bind at 1. unfold record_bulk_call at 1, modify at 1.
  unfold record_bulk_call, modify in Hinit. simpl in Hinit.
  unfold bind at 1. rewrite Hinit.
  destruct tokens as [| t ts]; [done |].
  unfold try_except, bind at 1, pure_call.
  destruct (messaging_Notification env title body image) as [nt | e]; [| done].
  unfold bind at 1.
  destruct (send_each nt data (t :: ts) [] 0 0 s0) as [[[[rs sc] fc] | e] s1]; done.
Qed.

(** ** The life cycle *)

Lemma range_nonempty (len : nat) : range 0 (S len) batch_size <> [].
Proof. done. Qed.

(** Both dispatchers on a non-empty audience when the first
    initialisation raises: the error leaves the batch loop before any
    outcome row is written. *)
Lemma dispatch_skeleton_raises on_empty report n s :
  target_queryset (db s) n <> [] ->
  ~ init_quiet s ->
  exists e s',
    dispatch_skeleton on_empty report n s = (Raise e, s')
    /\ db s' = db_sending n (Z.of_nat (length (target_queryset (db s) n))) (db s).
Proof.
  intros Hne Hnq. unfold dispatch_skeleton. cbv zeta.
  unfold bind at 1. unfold save at 1, modify. cbv beta iota.
  unfold bind at 1. unfold get_target_tokens, bind at 1, get_state, ret.
  cbv beta iota. simpl db. rewrite target_queryset_sending.
  change (target_queryset _ n) with (target_queryset (db s) n).
  destruct (target_queryset (db s) n) as [| t ts] eqn:Haud; [done |].
  unfold bind at 1. unfold save at 1, modify. cbv beta iota.
  unfold send_in_batches. unfold bind at 1.
  lazymatch goal with |- context [send_batches ?n1 ?data ?aud ?starts 0 0 ?s1] =>
    destruct (send_batches_spec n1 data aud starts 0 0 s1)
      as (res & s2 & rows & Heq & Hdb2 & Hms2 & _ & Hbad);
    rewrite Heq;
    destruct Hbad as (e & -> & ->);
      [intros Hq; apply Hnq; by eapply init_quiet_local; [| | apply Hq]
      | apply range_nonempty |]
  end.
  exists e, s2. split; [done |].
  rewrite Hdb2, db_add_logs_nil. unfold db_sending. simpl.
  rewrite insert_insert_eq, <- app_assoc. done.
Qed.

Lemma written_for_own i written :
  written_for i (map (fun st => (i, st)) written) = written.
Proof.
  unfold written_for. induction written as [| st rest IH]; [done |].
  simpl. rewrite filter_cons_True by done. simpl. by rewrite IH.
Qed.

Lemma written_for_other i j written :
  j <> i -> written_for j (map (fun st => (i, st)) written) = [].
Proof.
  intros Hne. unfold written_for. induction written as [| st rest IH]; [done |].
  simpl. rewrite filter_cons_False by (simpl; congruence). done.
Qed.

Lemma written_for_app i e1 e2 :
  written_for i (e1 ++ e2) = written_for i e1 ++ written_for i e2.
Proof. unfold written_for. by rewrite filter_app, map_app. Qed.

Lemma dispatch_effect_touches s n s' :
  dispatch_effect s n s' ->
  exists final, (final = sent \/ final = failed)
    /\ touches_only (PushNotification.id n) (db s) (db s') [sending; sending; final].
Proof.
  intros (rows & _ & _ & -> & _ & _).
  exists (if bool_decide (row_successes rows > 0) then sent else failed).
  split; [case_bool_decide; auto |].
  unfold touches_only. simpl. split_and!.
  - done.
  - intros j Hj. by rewrite lookup_insert_ne.
  - rewrite lookup_insert_eq. eexists. split; [reflexivity |]. done.
Qed.

Lemma db_no_recipients_touches n d :
  touches_only (PushNotification.id n) d (db_no_recipients n d) [sending; failed].
Proof.
  unfold touches_only, db_no_recipients. simpl. split_and!.
  - done.
  - intros j Hj. by rewrite lookup_insert_ne.
  - rewrite lookup_insert_eq. eexists. split; [reflexivity |]. done.
Qed.

Lemma touches_only_nothing i d : touches_only i d d [].
Proof. unfold touches_only. simpl. by rewrite app_nil_r. Qed.

(** The automatic dispatcher when the first initialisation raises: the
    handler marks the request failed. *)
Lemma send_notification_async_raises n s :
  notifications (db s) !! PushNotification.id n = Some n ->
  target_queryset (db s) n <> [] ->
  ~ init_quiet s ->
  exists s',
    send_notification_async (PushNotification.id n) s = (Return tt, s')
    /\ touches_only (PushNotification.id n) (db s) (db s') [sending; sending; failed].
Proof.
  intros Hn Hne Hnq. rewrite send_notification_async_unfold.
  unfold try_except at 1.
  rewrite (bind_Return _ _ _ _ _ (PushNotification_objects_get_found n s Hn)).
  match goal with |- context [dispatch_skeleton ?e ?r n s] =>
    destruct (dispatch_skeleton_raises e r n s Hne Hnq) as (e0 & s2 & -> & Hdb2)
  end.
  unfold bind at 1. unfold log at 1, modify at 1.
  unfold try_except, bind at 1, PushNotification_objects_get, bind at 1, get_state.
  cbn [db]. rewrite Hdb2. unfold db_sending. cbn [db notifications].
  rewrite lookup_insert_eq. unfold ret at 1. unfold save, modify.
  eexists. split; [reflexivity |].
  unfold touches_only. simpl. split_and!.
  - by rewrite <- app_assoc.
  - intros j Hj. by rewrite !lookup_insert_ne.
  - rewrite lookup_insert_eq. eexists. split; [reflexivity |]. done.
Qed.

(** One automatic dispatch of a stored request. *)
Lemma auto_dispatch_step n s :
  notifications (db s) !! PushNotification.id n = Some n ->
  exists s' written,
    send_notification_async (PushNotification.id n) s = (Return tt, s')
    /\ touches_only (PushNotification.id n) (db s) (db s') written
    /\ attempt_writes written.
Proof.
  intros Hn.
  destruct (decide (target_queryset (db s) n = [])) as [Hempty | Hne].
  - rewrite send_notification_async_empty by done.
    eexists _, [sending; failed]. split; [reflexivity |]. simpl.
    split; [apply db_no_recipients_touches |]. right. by left.
  - destruct (init_quiet_dec s) as [Hq | [e He]].
    + destruct (send_notification_async_completes n s Hn Hne Hq) as (s' & -> & Heff).
      destruct (dispatch_effect_touches s n s' Heff) as (final & Hfinal & Htouch).
      exists s', [sending; sending; final]. split_and!; [done | done |].
      right. right. eauto.
    + assert (Hnq : ~ init_quiet s) by (unfold init_quiet; rewrite He; done).
      destruct (send_notification_async_raises n s Hn Hne Hnq) as (s' & -> & Htouch).
      exists s', [sending; sending; failed]. split_and!; [done | done |].
      right. right. eauto.
Qed.

(** One pass of the admin action's loop body: the dispatch runs inside
    its own transaction, and an exception rolls the database back. *)
Lemma manual_dispatch_step n (sent_count error_count : Z) s :
  exists s' written counts,
    try_except
      (atomic
         (bind (_send_single_notification n) (fun _ =>
          ret (sent_count + 1, error_count))))
      (fun e =>
         bind (messages_add ERROR
                 ("Failed to send notification '"
                  +:+ PushNotification.title n +:+ "': " +:+ str e)) (fun _ =>
         ret (sent_count, error_count + 1))) s
    = (Return counts, s')
    /\ touches_only (PushNotification.id n) (db s) (db s') written
    /\ attempt_writes written.
Proof.
  unfold try_except, atomic.
  destruct (decide (target_queryset (db s) n = [])) as [Hempty | Hne].
  - unfold bind at 1. rewrite _send_single_notification_empty by done.
    eexists _, [], _. unfold bind, messages_add, modify, ret. simpl.
    split; [reflexivity |]. split; [apply touches_only_nothing | by left].
  - destruct (init_quiet_dec s) as [Hq | [e He]].
    + destruct (_send_single_notification_completes n s Hne Hq) as (s' & Hrun & Heff).
      rewrite (bind_Return _ _ _ _ _ Hrun). unfold ret.
      destruct (dispatch_effect_touches s n s' Heff) as (final & Hfinal & Htouch).
      exists s', [sending; sending; final], (sent_count + 1, error_count).
      split_and!; [done | done |]. right. right. eauto.
    + assert (Hnq : ~ init_quiet s) by (unfold init_quiet; rewrite He; done).
      rewrite _send_single_notification_unfold.
      match goal with |- context [dispatch_skeleton ?oe ?r n] =>
        destruct (dispatch_skeleton_raises oe r n s Hne Hnq) as (e0 & s2 & Hrun & Hdb2)
      end.
      rewrite (bind_Raise _ _ _ _ _ Hrun).
      eexists _, [], _. unfold bind, messages_add, modify, ret. simpl.
      split; [reflexivity |]. split; [apply touches_only_nothing | by left].
Qed.

Lemma attempt_writes_follows written :
  attempt_writes written -> follows draft written.
Proof.
  intros [-> | [-> | (final & [-> | ->] & ->)]]; simpl;
    repeat split; auto using lifecycle_step.
Qed.

(** The loop of the admin action over the selected drafts. *)
Lemma send_each_draft_spec drafts :
  forall sent_count error_count s,
    NoDup (map PushNotification.id drafts) ->
    exists s' entries counts,
      send_each_draft drafts sent_count error_count s = (Return counts, s')
      /\ journal (db s') = journal (db s) ++ entries
      /\ (forall i, i ∉ map PushNotification.id drafts ->
            written_for i entries = []
            /\ notifications (db s') !! i = notifications (db s) !! i)
      /\ (forall n, n ∈ drafts ->
            attempt_writes (written_for (PushNotification.id n) entries)
            /\ moved (db s) (db s') entries (PushNotification.id n)).
Proof.
  induction drafts as [| n rest IH]; intros a b s Hnd.
  - exists s, [], (a, b). simpl. unfold ret. rewrite app_nil_r.
    split_and!; try done. intros n Hn. by apply elem_of_nil in Hn.
  - simpl in Hnd. apply NoDup_cons in Hnd as [Hfresh Hnd].
    destruct (manual_dispatch_step n a b s)
      as (s1 & written & counts1 & Hstep & (Hj1 & Hother1 & Hlast1) & Hwrites).
    destruct (IH (fst counts1) (snd counts1) s1 Hnd)
      as (s' & entries2 & counts & Hrest & Hj2 & Hout2 & Hin2).
    exists s', (map (fun st => (PushNotification.id n, st)) written ++ entries2), counts.
    simpl send_each_draft. unfold bind at 1.
    unfold _send_single_notification.
    unfold _send_single_notification in Hstep. rewrite Hstep. rewrite Hrest.
    split_and!.
    + done.
    + by rewrite Hj2, Hj1, app_assoc.
    + intros i Hi. simpl in Hi. apply not_elem_of_cons in Hi as [Hne Hi].
      destruct (Hout2 i Hi) as [Hw2 Hl2].
      rewrite written_for_app, written_for_other, Hw2 by done.
      split; [done |]. rewrite Hl2. by apply Hother1.
    + intros m Hm. apply elem_of_cons in Hm as [-> | Hm].
      * destruct (Hout2 (PushNotification.id n) Hfresh) as [Hw2 Hl2].
        unfold moved.
        rewrite written_for_app, written_for_own, Hw2, app_nil_r.
        split; [done |].
        destruct (last written) as [st |].
        -- destruct Hlast1 as (n' & Hn' & Hst & _). exists n'. by rewrite Hl2.
        -- by rewrite Hl2.
      * assert (Hne : PushNotification.id m <> PushNotification.id n).
        { intros Heq. apply Hfresh. rewrite <- Heq.
          apply list_elem_of_In, in_map. by apply list_elem_of_In. }
        destruct (Hin2 m Hm) as [Hw2 Hmoved2].
        unfold moved in *.
        rewrite written_for_app, written_for_other by done. simpl.
        split; [done |].
        destruct (last (written_for (PushNotification.id m) entries2)); [done |].
        rewrite Hmoved2. by apply Hother1.
Qed.

(** The rows the admin action dispatches: the stored drafts among the
    selected keys, each once. *)
Lemma filter_draft_spec d queryset :
  NoDup queryset -> db_keyed d ->
  NoDup (map PushNotification.id (filter_draft d queryset))
  /\ forall n, n ∈ filter_draft d queryset ->
       notifications d !! PushNotification.id n = Some n
       /\ PushNotification.status n = draft.
Proof.
  intros Hnd Hkeyed. unfold filter_draft. split.
  - assert (Hsub : map PushNotification.id
                     (filter (fun n => PushNotification.status n = draft)
                        (omap (fun i => notifications d !! i) queryset))
                   `sublist_of` queryset).
    { clear Hnd. induction queryset as [| i q IH]; [done |].
      simpl. destruct (notifications d !! i) as [n |] eqn:Hn.
      - rewrite filter_cons. destruct (decide _).
        + simpl. rewrite (Hkeyed i n Hn). by apply sublist_skip.
        + by apply sublist_cons.
      - by apply sublist_cons. }
    by eapply sublist_NoDup.
  - intros n Hn. apply list_elem_of_filter in Hn as [Hst Hn].
    apply list_elem_of_omap in Hn as (i & _ & Hi).
    split; [| done]. by rewrite (Hkeyed i n Hi).
Qed.

(** ** The outcome log against the gateway *)

Lemma or_empty_Some (data : Dict) : or_empty (Some data) = data.
Proof. by destruct data. Qed.

Lemma send_each_attempts (nt : Notification env) data tokens :
  forall acc sc fc s,
    send_each nt data tokens acc sc fc s
    = (let (rs, w') := attempt_all nt (or_empty data) tokens (world s) in
       (Return (acc ++ rs, sc + successes rs, fc + failures rs), set_world w' s)).
Proof.
  induction tokens as [| token rest IH]; intros acc sc fc s.
  - simpl. unfold ret. rewrite app_nil_r.
    change (successes []) with 0. change (failures []) with 0.
    rewrite !Z.add_0_r. by destruct s.
  - rewrite send_each_cons. simpl.
    destruct (messaging_send env nt (or_empty data) token (world s))
      as [[message_id | e] w1]; rewrite IH; simpl;
      destruct (attempt_all nt (or_empty data) rest w1) as [rs w2];
      rewrite <- app_assoc, successes_cons, failures_cons; simpl;
      by rewrite ?Z.add_0_l, ?Z.add_assoc.
Qed.

Lemma attempt_all_app (nt : Notification env) data tokens1 tokens2 w :
  attempt_all nt data (tokens1 ++ tokens2) w
  = (let (rs1, w1) := attempt_all nt data tokens1 w in
     let (rs2, w2) := attempt_all nt data tokens2 w1 in
     (rs1 ++ rs2, w2)).
Proof.
  revert w. induction tokens1 as [| token rest IH]; intros w; simpl.
  - by destruct (attempt_all nt data tokens2 w).
  - destruct (messaging_send env nt data token w) as [[message_id | e] w1];
      rewrite IH; destruct (attempt_all nt data rest w1) as [rs1 w2];
      by destruct (attempt_all nt data tokens2 w2).
Qed.

Lemma attempt_all_tokens (nt : Notification env) data tokens w :
  map TokenResponse.token (fst (attempt_all nt data tokens w)) = tokens.
Proof.
  revert w. induction tokens as [| token rest IH]; intros w; simpl; [done |].
  destruct (messaging_send env nt data token w) as [[message_id | e] w1];
    specialize (IH w1); destruct (attempt_all nt data rest w1) as [rs w2];
    simpl in *; by rewrite IH.
Qed.

Lemma gateway_answers_app title body image data tokens1 tokens2 w :
  gateway_answers title body image data (tokens1 ++ tokens2) w
  = (let (rs1, w1) := gateway_answers title body image data tokens1 w in
     let (rs2, w2) := gateway_answers title body image data tokens2 w1 in
     (rs1 ++ rs2, w2)).
Proof.
  unfold gateway_answers.
  destruct (messaging_Notification env title body image) as [nt | e].
  - apply attempt_all_app.
  - by rewrite map_app.
Qed.

Lemma gateway_answers_tokens title body image data tokens w :
  map TokenResponse.token (fst (gateway_answers title body image data tokens w))
  = tokens.
Proof.
  unfold gateway_answers.
  destruct (messaging_Notification env title body image) as [nt | e].
  - apply attempt_all_tokens.
  - simpl. rewrite map_map. simpl. apply map_id.
Qed.

Lemma bulk_answers tokens title body data image s :
  init_quiet s ->
  let answers :=
    gateway_answers title body image (or_empty data) tokens
      (world (snd (initialize_firebase s))) in
  exists s',
    send_notification_to_multiple_tokens tokens title body data image s
    = (Return (BulkResult.Build (successes (fst answers)) (failures (fst answers))
                 (fst answers)), s')
    /\ world s' = snd answers
    /\ db s' = db s
    /\ settled s'.
Proof.
  intros Hq answers.
  set (sr := snd (record_bulk_call tokens s)).
  assert (Hqr : init_quiet sr) by (by eapply init_quiet_local; [| | exact Hq]).
  destruct (initialize_firebase_local sr s eq_refl eq_refl) as (_ & _ & Hw).
  destruct (initialize_firebase_frame sr) as (Hdb & _ & _ & Hset).
  unfold init_quiet in Hqr.
  destruct (initialize_firebase sr) as [[[] | e] s0] eqn:Hinit; [| done].
  simpl in Hw, Hdb, Hset.
  rewrite (bulk_after_init _ _ _ _ _ _ _ Hinit).
  unfold answers, gateway_answers. rewrite <- Hw.
  destruct tokens as [| token rest].
  { exists s0. by destruct (messaging_Notification env title body image). }
  destruct (messaging_Notification env title body image) as [nt | e].
  - rewrite send_each_attempts.
    destruct (attempt_all nt (or_empty data) (token :: rest) (world s0))
      as [rs w'].
    eexists. split; [by rewrite !Z.add_0_l |]. by split_and!.
  - eexists. split.
    + destruct (all_failed_spec (token :: rest) (str e)) as (_ & Hs & Hf).
      cbv zeta in Hs, Hf. cbn [fst]. by rewrite Hs, Hf.
    + by split_and!.
Qed.

Lemma send_batches_answers n data (audience : list DeviceToken.t) :
  forall starts sc fc s,
    init_quiet s ->
    let reached :=
      concat (map (fun i => slice audience i (i + batch_size)) starts) in
    let answers :=
      gateway_answers (PushNotification.title n) (PushNotification.body n)
        (PushNotification.image_url n) data (map DeviceToken.token reached)
        (match starts with
         | [] => world s
         | _ => world (snd (initialize_firebase s))
         end) in
    exists s',
      send_batches n data audience starts sc fc s
      = (Return (sc + successes (fst answers), fc + failures (fst answers)), s')
      /\ db s' = db_add_logs (zip_with (outcome_row n) reached (fst answers)) (db s)
      /\ world s' = snd answers
      /\ init_quiet s'.
Proof.
  induction starts as [| i later IH]; intros sc fc s Hq; cbv zeta.
  - exists s. simpl. unfold gateway_answers.
    destruct (messaging_Notification env _ _ _); simpl;
      change (successes []) with 0; change (failures []) with 0;
      rewrite !Z.add_0_r, db_add_logs_nil; by split_and!.
  - simpl send_batches. simpl concat. rewrite map_app.
    set (batch := slice audience i (i + batch_size)).
    set (rest := concat (map (fun j => slice audience j (j + batch_size)) later)).
    rewrite gateway_answers_app.
    destruct (bulk_answers (map DeviceToken.token batch)
                (PushNotification.title n) (PushNotification.body n)
                (Some data) (PushNotification.image_url n) s Hq)
      as (s1 & Hbulk & Hw1 & Hdb1 & Hset1).
    cbv zeta in Hbulk, Hw1. rewrite or_empty_Some in Hbulk, Hw1.
    pose proof (gateway_answers_tokens (PushNotification.title n)
                  (PushNotification.body n) (PushNotification.image_url n) data
                  (map DeviceToken.token batch)
                  (world (snd (initialize_firebase s)))) as Htok.
    destruct (gateway_answers _ _ _ data (map DeviceToken.token batch) _)
      as [rs1 w1] eqn:Hans1.
    cbn [fst snd] in Hbulk, Hw1, Htok.
    assert (Hlen : length rs1 = length batch).
    { rewrite <- (length_map TokenResponse.token), Htok. by rewrite length_map. }
    rewrite (bind_Return _ _ _ _ _ Hbulk). cbn [BulkResult.responses].
    unfold bind at 1. rewrite log_responses_spec by (simpl; lia).
    rewrite drop_0. cbn [fst snd].
    set (s2 := set_db (db_add_logs (zip_with (outcome_row n) batch rs1) (db s1)) s1).
    assert (Hset2 : settled s2) by (by apply settled_set_db).
    destruct (IH (sc + successes rs1) (fc + failures rs1) s2
                (settled_init_quiet _ Hset2))
      as (s' & Hrun & Hdb & Hw & Hq').
    cbv zeta in Hrun, Hdb, Hw. fold rest in Hrun, Hdb, Hw.
    assert (Hw2 : match later with
                  | [] => world s2
                  | _ => world (snd (initialize_firebase s2))
                  end = w1).
    { rewrite initialize_firebase_settled by done. simpl. rewrite Hw1.
      by destruct later. }
    rewrite Hw2 in Hrun, Hdb, Hw.
    destruct (gateway_answers _ _ _ data (map DeviceToken.token rest) w1)
      as [rs2 w2].
    cbn [fst snd] in *.
    exists s'. split_and!; [| | done | done].
    + rewrite Hrun, successes_app, failures_app. by rewrite !Z.add_assoc.
    + rewrite Hdb. unfold s2. cbn [db set_db]. rewrite Hdb1, db_add_logs_app.
      by rewrite zip_with_app.
Qed.

Lemma dispatch_skeleton_answers on_empty report n s :
  target_queryset (db s) n <> [] ->
  init_quiet s ->
  only_reports report ->
  let audience := target_queryset (db s) n in
  let answers :=
    gateway_answers (PushNotification.title n) (PushNotification.body n)
      (PushNotification.image_url n) (data_or_empty (PushNotification.data n))
      (map DeviceToken.token audience)
      (world (snd (initialize_firebase s))) in
  exists s',
    dispatch_skeleton on_empty report n s = (Return tt, s')
    /\ notification_logs (db s')
       = notification_logs (db s)
         ++ zip_with (outcome_row n) audience (fst answers)
    /\ world s' = snd answers.
Proof.
  intros Hne Hq Hk. cbv zeta. unfold dispatch_skeleton. cbv zeta.
  unfold bind at 1. unfold save at 1, modify. cbv beta iota.
  unfold bind at 1. unfold get_target_tokens, bind, get_state, ret. cbv beta iota.
  simpl db. rewrite target_queryset_sending.
  change (target_queryset _ n) with (target_queryset (db s) n).
  destruct (target_queryset (db s) n) as [| t ts] eqn:Haud; [done |].
  unfold save at 1, modify. cbv beta iota.
  unfold send_in_batches.
  destruct (batches_spec (t :: ts)) as (Hcat & _ & _). unfold batches in Hcat.
  lazymatch goal with |- context [send_batches ?n1 ?data ?aud ?starts 0 0 ?s1] =>
    assert (Hq1 : init_quiet s1) by (by eapply init_quiet_local; [| | apply Hq]);
    destruct (initialize_firebase_local s1 s eq_refl eq_refl) as (_ & _ & Hw1);
    destruct (send_batches_answers n1 data aud starts 0 0 s1 Hq1)
      as (s2 & Heq & Hdb2 & Hw2 & _);
    rewrite Heq; clear Heq
  end.
  cbv zeta in Hdb2, Hw2. rewrite Hcat in Hdb2, Hw2.
  destruct (range 0 (length (t :: ts)) batch_size) eqn:Hrange;
    [by apply range_nonempty in Hrange |].
  rewrite Hw1 in Hdb2, Hw2.
  simpl fst. simpl snd. rewrite finalize_spec. cbv beta iota zeta.
  lazymatch goal with |- context [report ?n' ?c ?s0] =>
    destruct (Hk n' c s0) as (s3 & -> & Hdb3 & Hbc3 & Hsvc3 & Hw3)
  end.
  exists s3. split; [done |]. split.
  - rewrite Hdb3. unfold save, modify. simpl. by rewrite Hdb2.
  - rewrite Hw3. simpl. by rewrite Hw2.
Qed.

Lemma send_notification_async_answers n s :
  notifications (db s) !! PushNotification.id n = Some n ->
  target_queryset (db s) n <> [] ->
  init_quiet s ->
  let audience := target_queryset (db s) n in
  let answers :=
    gateway_answers (PushNotification.title n) (PushNotification.body n)
      (PushNotification.image_url n) (data_or_empty (PushNotification.data n))
      (map DeviceToken.token audience)
      (world (snd (initialize_firebase s))) in
  exists s',
    send_notification_async (PushNotification.id n) s = (Return tt, s')
    /\ notification_logs (db s')
       = notification_logs (db s)
         ++ zip_with (outcome_row n) audience (fst answers)
    /\ world s' = snd answers.
Proof.
  intros Hn Hne Hq. rewrite send_notification_async_unfold. unfold try_except.
  rewrite (bind_Return _ _ _ _ _ (PushNotification_objects_get_found n s Hn)).
  match goal with |- context [dispatch_skeleton ?e ?r n s] =>
    destruct (dispatch_skeleton_answers e r n s Hne Hq) as (s' & -> & Hlog & Hw)
  end.
  { apply (log_only_reports
             (fun n' c => "Notification '" +:+ PushNotification.title n'
                +:+ "' sent automatically! Success: " +:+ pretty (fst c)
                +:+ ", Failed: " +:+ pretty (snd c))). }
  by exists s'.
Qed.

Lemma _send_single_notification_answers n s :
  target_queryset (db s) n <> [] ->
  init_quiet s ->
  let audience := target_queryset (db s) n in
  let answers :=
    gateway_answers (PushNotification.title n) (PushNotification.body n)
      (PushNotification.image_url n) (data_or_empty (PushNotification.data n))
      (map DeviceToken.token audience)
      (world (snd (initialize_firebase s))) in
  exists s',
    _send_single_notification n s = (Return tt, s')
    /\ notification_logs (db s')
       = notification_logs (db s)
         ++ zip_with (outcome_row n) audience (fst answers)
    /\ world s' = snd answers.
Proof.
  intros Hne Hq. rewrite _send_single_notification_unfold.
  apply dispatch_skeleton_answers; [done | done |].
  apply (messages_add_only_reports
           (fun n' c => "Notification '" +:+ PushNotification.title n'
              +:+ "' sent successfully! Success: " +:+ pretty (fst c)
              +:+ ", Failed: " +:+ pretty (snd c))).
Qed.

(** * The properties of the specification *)

(** C1.  A dispatch pass over a non-empty resolved audience that runs to
    completion (the gateway initialisation does not raise), through
    either dispatcher, leaves the stored request with
    [total_recipients] equal to the number of resolved endpoints,
    [successful_sends + failed_sends = total_recipients], the two
    counters counting the outcome rows written, and status [sent] exactly
    when [successful_sends > 0], [failed] otherwise. *)
Theorem dispatch_counters via n s :
  notifications (db s) !! PushNotification.id n = Some n ->
  target_queryset (db s) n <> [] ->
  init_quiet s ->
  exists s' n' rows,
    run_dispatcher via n s = (Return tt, s')
    /\ notifications (db s') !! PushNotification.id n = Some n'
    /\ notification_logs (db s') = notification_logs (db s) ++ rows
    /\ PushNotification.total_recipients n'
       = Z.of_nat (length (target_queryset (db s) n))
    /\ PushNotification.successful_sends n' = row_successes rows
    /\ PushNotification.failed_sends n' = row_failures rows
    /\ PushNotification.successful_sends n' + PushNotification.failed_sends n'
       = PushNotification.total_recipients n'
    /\ (PushNotification.status n' = sent
        <-> PushNotification.successful_sends n' > 0)
    /\ (PushNotification.status n' = failed
        <-> ~ PushNotification.successful_sends n' > 0).
Proof.
  intros Hn Hne Hq.
  destruct (run_dispatcher_completes via n s Hn Hne Hq)
    as (s' & Hrun & rows & Hdev & Hall & Hdb & Hbc & Hq').
  eexists s', _, rows. split; [exact Hrun |].
  rewrite Hdb. simpl. rewrite lookup_insert_eq.
  split; [reflexivity |]. simpl.
  assert (Hlen : length rows = length (target_queryset (db s) n)).
  { rewrite <- (length_map NotificationLog.device_token), Hdev.
    by rewrite length_map. }
  split_and!; try done.
  - rewrite row_counts_length. by rewrite Hlen.
  - case_bool_decide; split; try done; intros; lia.
  - case_bool_decide; split; try done; intros; lia.
Qed.

(** C2, as the code has it.  For every resolved audience of [n]
    endpoints, the batches the dispatch loop walks are consecutive slices
    of at most 500 endpoints in resolved order, there are [ceil(n / 500)]
    of them (sizes 500, 500, 200 for [n = 1200]); a pass in which the
    gateway initialisation does not raise calls the bulk form once per
    batch with that batch's tokens and writes exactly one outcome row per
    endpoint, in resolved order.  Each row is correlated by position: the
    gateway's answers come one per token in the order of the endpoints,
    and the row at a position names the endpoint at that position and
    carries the answer at that position (its success or failure, with
    the error text), hence the answer at the same place of the same
    batch. *)
Theorem dispatch_batching via n s :
  notifications (db s) !! PushNotification.id n = Some n ->
  init_quiet s ->
  let audience := target_queryset (db s) n in
  concat (batches audience) = audience
  /\ Forall (fun b => (0 < length b <= 500)%nat) (batches audience)
  /\ length (batches audience) = ((length audience + 499) `div` 500)%nat
  /\ (length audience = 1200%nat ->
      map length (batches audience) = [500; 500; 200]%nat)
  /\ exists res s' rows,
       run_dispatcher via n s = (res, s')
       /\ (audience <> [] -> res = Return tt)
       /\ bulk_calls s'
          = bulk_calls s ++ map (map DeviceToken.token) (batches audience)
       /\ notification_logs (db s') = notification_logs (db s) ++ rows
       /\ map NotificationLog.device_token rows = map DeviceToken.id audience
       /\ Forall (fun r => NotificationLog.notification r = PushNotification.id n)
            rows
       /\ (let answers :=
             fst (gateway_answers (PushNotification.title n)
                    (PushNotification.body n) (PushNotification.image_url n)
                    (data_or_empty (PushNotification.data n))
                    (map DeviceToken.token audience)
                    (world (snd (initialize_firebase s)))) in
           map TokenResponse.token answers = map DeviceToken.token audience
           /\ rows = zip_with (outcome_row n) audience answers).
Proof.
  intros Hn Hq audience.
  destruct (batches_spec audience) as (Hcat & Hsize & Hcount).
  split_and!; try done.
  { by apply batches_1200. }
  destruct (decide (audience = [])) as [Hempty | Hne].
  - rewrite Hempty. change (batches []) with (@nil (list DeviceToken.t)).
    simpl. rewrite app_nil_r. destruct via; simpl.
    + rewrite send_notification_async_empty by done.
      eexists _, _, []. split; [reflexivity |]. simpl.
      rewrite app_nil_r. split_and!; try done. apply gateway_answers_tokens.
    + rewrite _send_single_notification_empty by done.
      eexists _, _, []. split; [reflexivity |]. simpl.
      rewrite app_nil_r. split_and!; try done. apply gateway_answers_tokens.
  - destruct (run_dispatcher_completes via n s Hn Hne Hq)
      as (s' & Hrun & rows & Hdev & Hall & Hdb & Hbc & Hq').
    assert (Hans : exists s'',
              run_dispatcher via n s = (Return tt, s'')
              /\ notification_logs (db s'')
                 = notification_logs (db s)
                   ++ zip_with (outcome_row n) (target_queryset (db s) n)
                        (fst (gateway_answers (PushNotification.title n)
                                (PushNotification.body n)
                                (PushNotification.image_url n)
                                (data_or_empty (PushNotification.data n))
                                (map DeviceToken.token (target_queryset (db s) n))
                                (world (snd (initialize_firebase s)))))).
    { destruct via; simpl run_dispatcher.
      - destruct (send_notification_async_answers n s Hn Hne Hq)
          as (s'' & ? & ? & _). by exists s''.
      - destruct (_send_single_notification_answers n s Hne Hq)
          as (s'' & ? & ? & _). by exists s''. }
    destruct Hans as (s'' & Hrun' & Hlog).
    rewrite Hrun in Hrun'. injection Hrun' as <-.
    rewrite Hdb in Hlog. cbv zeta in Hlog. cbn [notification_logs] in Hlog.
    apply app_inv_head in Hlog.
    exists (Return tt), s', rows. split; [done |].
    rewrite Hdb. simpl. split_and!; try done.
    apply gateway_answers_tokens.
Qed.

(** C3, as the code has it.  On an empty resolved audience either
    dispatcher writes the request as [sending], then as [failed], changes
    no other column (so [total_recipients] keeps its value), writes no
    outcome row and calls neither the bulk form nor the gateway.  The
    manual dispatcher then raises its "no valid device tokens" exception
    to its caller; the automatic dispatcher logs the error and returns
    normally. *)
Theorem no_recipients via n s :
  notifications (db s) !! PushNotification.id n = Some n ->
  target_queryset (db s) n = [] ->
  exists res s',
    run_dispatcher via n s = (res, s')
    /\ db s' = db_no_recipients n (db s)
    /\ notifications (db s') !! PushNotification.id n
       = Some (PushNotification.set_status failed n)
    /\ PushNotification.total_recipients (PushNotification.set_status failed n)
       = PushNotification.total_recipients n
    /\ notification_logs (db s') = notification_logs (db s)
    /\ bulk_calls s' = bulk_calls s
    /\ world s' = world s
    /\ match via with
       | Automatic =>
           res = Return tt
           /\ logger s'
              = logger s
                ++ [(ERROR, "No valid device tokens found for notification "
                            +:+ pretty (PushNotification.id n))]
       | Manual =>
           res = Raise (Exception
                          "No valid device tokens found for targeting criteria")
       end.
Proof.
  intros Hn Hempty. destruct via; simpl.
  - rewrite send_notification_async_empty by done.
    eexists _, _. split; [reflexivity |]. simpl.
    rewrite lookup_insert_eq. done.
  - rewrite _send_single_notification_empty by done.
    eexists _, _. split; [reflexivity |]. simpl.
    rewrite lookup_insert_eq. done.
Qed.

(** C7.  Audience resolution, in either dispatcher: the resolved list is
    exactly the stored endpoints, in stored order, that are active, that
    have the request's platform when its filter is not "all" (so a filter
    of "ios" never yields an android or web endpoint), and that are owned
    by a user of the explicit user set whenever the request is not a
    broadcast and that set is not empty. *)
Theorem audience_resolution n s :
  let resolved := filter (eligible n) (device_tokens (db s)) in
  get_target_tokens n s = (Return resolved, s)
  /\ _get_target_tokens n s = (Return resolved, s)
  /\ (forall t, t ∈ resolved <-> t ∈ device_tokens (db s) /\ eligible n t)
  /\ resolved `sublist_of` device_tokens (db s)
  /\ (forall t, t ∈ resolved -> DeviceToken.is_active t = true)
  /\ (PushNotification.target_device_types n = "ios" ->
      forall t, t ∈ resolved ->
        DeviceToken.device_type t <> "android"
        /\ DeviceToken.device_type t <> "web")
  /\ (PushNotification.send_to_all n = false ->
      PushNotification.target_users n <> [] ->
      forall t, t ∈ resolved ->
        exists u, DeviceToken.user t = Some u
                  /\ u ∈ PushNotification.target_users n).
Proof.
  intros resolved. subst resolved. split_and!.
  - unfold get_target_tokens, bind, get_state, ret.
    by rewrite target_queryset_eligible.
  - unfold _get_target_tokens, bind, get_state, ret.
    by rewrite target_queryset_eligible.
  - intros t. rewrite list_elem_of_filter. naive_solver.
  - apply sublist_filter.
  - intros t Ht. apply list_elem_of_filter in Ht as [(Hact & _) _]. done.
  - intros Hios t Ht. apply list_elem_of_filter in Ht as [(_ & Hty & _) _].
    rewrite Hty by (rewrite Hios; done). rewrite Hios. done.
  - intros Hall Hne t Ht. apply list_elem_of_filter in Ht as [(_ & _ & Hus) _].
    by apply Hus.
Qed.

(** C9, as the code has it.  Registration is idempotent per token.  On
    a table that satisfies its uniqueness constraints, any non-empty
    series of registration calls for one token that the endpoint accepts
    (the token is not empty, the user named, if any, exists) leaves
    exactly one row with that token, carrying the platform, the owner and the active flag of the
    latest call; the first answer reports [created] exactly when the token
    was new (201, otherwise 200), every later answer reports an update of
    that same row (200). *)
Theorem registration_idempotent tok first rest s :
  registry_ok (db s) ->
  Forall (fun r => Request.token r = Some tok /\ accepted (db s) r) (first :: rest) ->
  exists s' row,
    register_all (first :: rest) s
    = (Return (registered (bool_decide (rows_with tok (db s) = []))
                 (DeviceToken.id row)
               :: map (fun _ => registered false (DeviceToken.id row)) rest),
       s')
    /\ rows_with tok (db s') = [row]
    /\ reflects (default first (last rest)) row
    /\ registry_ok (db s').
Proof.
  intros Hok Hall. apply Forall_cons in Hall as [[Htok Hacc] Hrest].
  destruct (register_accepted tok first s Hok Hacc Htok)
    as (row1 & rows' & seq' & Hrun & Hone & Hrefl & Hid & Hok').
  destruct (register_all_known tok rest
              (set_db (db_set_registry rows' seq' (db s)) s) row1 Hok' Hone)
    as (s' & row & Hrest_run & Hrow' & Hid' & Hok'' & Hlast).
  { eapply Forall_impl; [exact Hrest |]. by intros r [? ?]. }
  exists s', row. simpl register_all.
  rewrite (bind_Return _ _ _ _ _ Hrun), (bind_Return _ _ _ _ _ Hrest_run).
  unfold ret. rewrite Hid'. split_and!; try done.
  destruct (last rest) as [latest |]; simpl; [done | by subst row].
Qed.

(** C10, as the code has it.  A registration call that succeeds (answers
    200 or 201) leaves exactly one row with the call's token; that row is
    active, and its owner is the user the call names when it names one:
    the given [user_id] when that is not 0, and no owner when [user_id]
    is omitted or is 0 (the view tests [if user_id:], so 0 is taken for
    no user at all), whatever the row held before. *)
Theorem registration_activates_and_owns request s response s' :
  register_device_token request s = (Return response, s') ->
  Response.status response = HTTP_200_OK
  \/ Response.status response = HTTP_201_CREATED ->
  exists tok row,
    Request.token request = Some tok
    /\ row ∈ device_tokens (db s')
    /\ (forall r, r ∈ device_tokens (db s') -> DeviceToken.token r = tok -> r = row)
    /\ DeviceToken.token row = tok
    /\ DeviceToken.is_active row = true
    /\ DeviceToken.user row = owner_given request
    /\ (Request.user_id request = None -> DeviceToken.user row = None)
    /\ (Request.user_id request = Some 0 -> DeviceToken.user row = None)
    /\ (forall u, Request.user_id request = Some u -> u <> 0 ->
          DeviceToken.user row = Some u /\ u ∈ users (db s))
    /\ response
       = registered (bool_decide (rows_with tok (db s) = [])) (DeviceToken.id row).
Proof.
  rewrite register_device_token_eq. intros Hrun Hstatus.
  destruct (truthy_str (Request.token request)) eqn:Htruthy; simpl in Hrun.
  2: { injection Hrun as <- <-. destruct Hstatus; discriminate. }
  destruct (truthy_int (Request.user_id request)
            && negb (bool_decide (default 0 (Request.user_id request) ∈ users (db s))))
    eqn:Hguard; simpl in Hrun.
  { injection Hrun as <- <-. destruct Hstatus; discriminate. }
  destruct (Request.token request) as [tok |] eqn:Htok; [| done]. simpl in Hrun.
  destruct (DeviceToken_objects_update_or_create _ _ _ _ s)
    as [[[row created] | e] s1] eqn:Hup.
  2: { injection Hrun as <- <-. destruct Hstatus; discriminate. }
  injection Hrun as <- <-.
  destruct (update_or_create_rows _ _ _ _ _ _ _ _ Hup) as (Hrow & Hin & Honly & ->).
  exists tok, row. split_and!; try done.
  - by rewrite Hrow.
  - by rewrite Hrow.
  - by rewrite Hrow.
  - intros Hnone. rewrite Hrow. simpl. unfold owner_given. by rewrite Hnone.
  - intros Hzero. rewrite Hrow. simpl. unfold owner_given. by rewrite Hzero.
  - intros u Hu Hnz. rewrite Hrow. simpl. unfold owner_given.
    rewrite Hu in Hguard |- *. simpl in Hguard |- *.
    destruct (Z.eqb_spec u 0) as [? | _]; [done |]. simpl in Hguard |- *.
    split; [done |]. apply negb_false_iff in Hguard.
    by apply bool_decide_eq_true_1 in Hguard.
Qed.

(** C6, as the code has it.  A single-recipient call raises only what
    the first gateway initialisation raises (the check stands before the
    [try]); once initialisation has been attempted it never raises.  When
    no usable client exists the call answers the fixed not-configured
    failure and leaves the world untouched; otherwise whatever the
    construction of the message or the transport raises comes back as a
    [success = False] result carrying the exception text. *)
Theorem single_send_error_handling token title body data image s :
  let attempt := initialize_firebase s in
  let s0 := snd attempt in
  let out := send_notification_to_token token title body data image s in
  (forall e, fst attempt = Raise e -> out = (Raise e, s0))
  /\ (settled s -> fst attempt = Return tt)
  /\ (fst attempt = Return tt ->
      exists result,
        fst out = Return result
        /\ (_app (service s0) = None ->
            result = not_delivered not_configured
            /\ world (snd out) = world s0)
        /\ (_app (service s0) <> None ->
            match messaging_Notification env title body image with
            | Raise e =>
                result = not_delivered (str e) /\ world (snd out) = world s0
            | Return nt =>
                match messaging_send env nt (or_empty data) token (world s0) with
                | (Return message_id, w) =>
                    result = delivered message_id /\ world (snd out) = w
                | (Raise e, w) =>
                    result = not_delivered (str e) /\ world (snd out) = w
                end
            end)).
Proof.
  intros attempt s0 out. subst attempt s0 out.
  rewrite send_notification_to_token_eq.
  split_and!.
  - intros e He. destruct (initialize_firebase s) as [[[] | e'] s0]; simpl in *;
      congruence.
  - intros Hs. by rewrite initialize_firebase_settled.
  - intros Hret. destruct (initialize_firebase s) as [[[] | e'] s0]; simpl in *;
      [| done].
    destruct (_app (service s0)) as [app |] eqn:Happ; simpl.
    + destruct (messaging_Notification env title body image) as [nt | e].
      * destruct (messaging_send env nt (or_empty data) token (world s0))
          as [[mid | e] w]; eexists; (split; [reflexivity |]);
          (split; [done |]); intros _; done.
      * eexists. split; [reflexivity |]. split; [done |]. done.
    + eexists. split; [reflexivity |]. split; [done |]. done.
Qed.

(** C5, as the code has it.  Whenever the gateway is configured (its
    initialisation yields a usable client), the bulk form returns what a
    loop of the single-recipient form over the tokens, in order, returns:
    the same per-token success flag, message id and error text (each bulk
    entry carries its token in addition), and counts that are the numbers
    of successes and failures among them; for a non-empty token list both
    leave the gateway in the same state. *)
Theorem bulk_form_is_loop_when_configured tokens title body data image s :
  fst (is_firebase_available s) = Return true ->
  exists r s1 results s2,
    send_notification_to_multiple_tokens tokens title body data image s
    = (Return r, s1)
    /\ send_one_by_one tokens title body data image s = (Return results, s2)
    /\ map strip (BulkResult.responses r) = results
    /\ map TokenResponse.token (BulkResult.responses r) = tokens
    /\ BulkResult.success_count r = count_delivered results
    /\ BulkResult.failure_count r = count_not_delivered results
    /\ db s1 = db s /\ db s2 = db s
    /\ (tokens <> [] -> world s1 = world s2 /\ service s1 = service s2).
Proof.
  intros Havail. unfold is_firebase_available, bind, get_state, ret in Havail.
  destruct (initialize_firebase s) as [[[] | e] s0] eqn:Hinit; simpl in Havail;
    [| done].
  assert (Hready : ready s0).
  { unfold ready. destruct (_app (service s0)); [done | simpl in Havail; done]. }
  pose proof (initialize_firebase_frame s) as (Hdb0 & _ & _ & _).
  rewrite Hinit in Hdb0. simpl in Hdb0.
  (* the bulk form initialises from the state that records the call *)
  set (s_rec := snd (record_bulk_call tokens s)).
  destruct (initialize_firebase_local s s_rec eq_refl eq_refl) as (Hfst & Hsvc & Hw).
  pose proof (initialize_firebase_frame s_rec) as (Hdbb & _ & _ & _).
  destruct (initialize_firebase s_rec) as [r0b s0b] eqn:Hinitb.
  rewrite Hinit in Hfst, Hsvc, Hw. simpl in Hfst, Hsvc, Hw, Hdbb. subst r0b.
  rewrite (bulk_after_init tokens title body data image s s0b Hinitb).
  destruct tokens as [| t ts].
  { exists (BulkResult.Build 0 0 []), s0b, [], s. split_and!; done. }
  (* the loop starts with the same initialisation *)
  assert (Hloop0 : send_one_by_one (t :: ts) title body data image s
                   = send_one_by_one (t :: ts) title body data image s0).
  { simpl. unfold bind at 1. unfold bind at 3.
    by rewrite (send_notification_to_token_woken _ _ _ _ _ s s0 Hinit). }
  rewrite Hloop0.
  destruct (messaging_Notification env title body image) as [nt | e] eqn:Hnt.
  - destruct (send_each_one_by_one title body data image nt (t :: ts) Hnt
                [] 0 0 s0b s0 Hready (eq_sym Hw))
      as (rs & w' & -> & Htok & sB' & -> & HwB & HsB & HdB).
    destruct (counts_strip rs) as [Hs Hf].
    eexists _, _, _, _. split; [reflexivity |]. split; [reflexivity |].
    simpl. split_and!; try done; try congruence.
    intros _. split; [done | congruence].
  - destruct (send_one_by_one_unbuildable title body data image e (t :: ts) Hnt
                s0 Hready) as (sB' & -> & HwB & HsB & HdB).
    destruct (all_failed_spec (t :: ts) (str e)) as (Htok & Hs & Hf).
    destruct (counts_strip
                (map (fun token => TokenResponse.Build token false None (Some (str e)))
                     (t :: ts))) as [Hs' Hf'].
    assert (Hstrip :
      map strip (map (fun token => TokenResponse.Build token false None (Some (str e)))
                     (t :: ts))
      = map (fun _ => not_delivered (str e)) (t :: ts))
      by (rewrite map_map; done).
    eexists _, _, _, _. split; [reflexivity |]. split; [reflexivity |].
    cbn [BulkResult.responses BulkResult.success_count BulkResult.failure_count].
    rewrite <- Hstrip, <- Hs', <- Hf', Hs, Hf.
    split_and!; try done; try congruence.
    intros _. split; simpl; congruence.
Qed.

(** C4.  The life cycle is monotonic.  Whatever trigger fires (the
    [post_save] signal or the admin action), it returns without raising;
    every status it writes to a request either repeats the status the row
    had or takes one step along draft, sending, then sent or failed; it
    writes only to requests that were in draft, so only a draft enters
    sending and sent and failed are terminal; a request that is not in
    draft is skipped, its row left as it was. *)
Theorem lifecycle_monotonic trigger s :
  trigger_ok s trigger ->
  exists s' entries,
    fire trigger s = (Return tt, s')
    /\ journal (db s') = journal (db s) ++ entries
    /\ forall i,
         moved (db s) (db s') entries i
         /\ (notifications (db s) !! i = None -> written_for i entries = [])
         /\ forall n, notifications (db s) !! i = Some n ->
              follows (PushNotification.status n) (written_for i entries)
              /\ (written_for i entries <> [] -> PushNotification.status n = draft)
              /\ (PushNotification.status n <> draft ->
                  written_for i entries = []
                  /\ notifications (db s') !! i = Some n).
Proof.
  destruct trigger as [instance created | queryset]; simpl.
  - (* post_save *)
    intros Hstored. unfold auto_send_notification, on_commit.
    destruct (created && bool_decide (PushNotification.status instance = draft)
              && PushNotification.auto_send instance) eqn:Hguard.
    + apply andb_prop in Hguard as [Hguard _].
      apply andb_prop in Hguard as [_ Hdraft].
      apply bool_decide_eq_true_1 in Hdraft.
      destruct (auto_dispatch_step instance s Hstored)
        as (s' & written & Hrun & (Hj & Hother & Hlast) & Hwrites).
      exists s', (map (fun st => (PushNotification.id instance, st)) written).
      split_and!; [done | done |]. intros i.
      destruct (decide (i = PushNotification.id instance)) as [-> | Hne].
      * unfold moved. rewrite written_for_own. split_and!.
        -- destruct (last written); [| done].
           destruct Hlast as (n' & ? & ? & _). eauto.
        -- intros Hnone. congruence.
        -- intros n Hn. assert (n = instance) by congruence. subst n.
           rewrite Hdraft. split_and!; [by apply attempt_writes_follows | done | done].
      * unfold moved. rewrite written_for_other by done. simpl.
        split_and!; [by apply Hother | done |].
        intros n Hn. split_and!; [done | done |].
        intros _. split; [done |]. by rewrite Hother.
    + exists s, []. unfold ret. rewrite app_nil_r.
      split_and!; [done | done |]. intros i. unfold moved. simpl.
      split_and!; [done | done |]. intros n Hn. done.
  - (* the admin action *)
    intros [Hnd Hkeyed].
    destruct (filter_draft_spec (db s) queryset Hnd Hkeyed) as [Hids Hdrafts].
    destruct (send_each_draft_spec (filter_draft (db s) queryset) 0 0 s Hids)
      as (s1 & entries & counts & Hloop & Hj & Hout & Hin).
    unfold send_notifications, bind at 1, get_state.
    rewrite (bind_Return _ _ _ _ _ Hloop).
    assert (Hend : exists s',
      bind (if bool_decide (fst counts > 0)
            then messages_add SUCCESS
                   ("Successfully sent " +:+ pretty (fst counts) +:+ " notification(s)")
            else ret tt)
        (fun _ => if bool_decide (snd counts > 0)
                  then messages_add ERROR
                         ("Failed to send " +:+ pretty (snd counts)
                          +:+ " notification(s)")
                  else ret tt) s1 = (Return tt, s')
      /\ db s' = db s1).
    { unfold bind, messages_add, modify, ret.
      destruct (bool_decide (fst counts > 0)), (bool_decide (snd counts > 0));
        eexists; (split; [reflexivity | done]). }
    destruct Hend as (s' & -> & Hdb).
    exists s', entries. rewrite Hdb. split_and!; [done | done |]. intros i.
    destruct (decide (i ∈ map PushNotification.id (filter_draft (db s) queryset)))
      as [Hi | Hi].
    + apply list_elem_of_In, in_map_iff in Hi as (m & <- & Hm).
      apply list_elem_of_In in Hm.
      destruct (Hdrafts m Hm) as [Hstored Hdraft].
      destruct (Hin m Hm) as [Hwrites Hmoved].
      split_and!; [done | congruence |].
      intros n Hn. assert (n = m) by congruence. subst n.
      rewrite Hdraft. split_and!; [by apply attempt_writes_follows | done | done].
    + destruct (Hout i Hi) as [Hw Hl].
      unfold moved. rewrite Hw. simpl.
      split_and!; [done | done |].
      intros n Hn. split_and!; [done | done |].
      intros _. split; [done |]. by rewrite Hl.
Qed.

End Properties.

(** * Further properties of the code *)

Section Further.

Context {env : Env}.

Implicit Types (s : State (env:=env)) (n : PushNotification.t).

(** ** Relations kept by a computation *)

Section Stable.

Context (R : relation (State (env:=env))) `{!PreOrder R}.

Lemma stable_ret {A} (a : A) : stable R (ret a).
Proof. intros s. simpl. reflexivity. Qed.

Lemma stable_raise {A} e : stable R (raise (A:=A) e).
Proof. intros s. simpl. reflexivity. Qed.

Lemma stable_bind {A B} (m : M A) (k : A -> M B) :
  stable R m -> (forall a, stable R (k a)) -> stable R (bind m k).
Proof.
  intros Hm Hk s. unfold bind.
  specialize (Hm s). destruct (m s) as [[a | e] s1]; simpl in *; [| done].
  by etrans; [| apply Hk].
Qed.

Lemma stable_try_except {A} (body : M A) handler :
  stable R body -> (forall e, stable R (handler e)) ->
  stable R (try_except body handler).
Proof.
  intros Hm Hk s. unfold try_except.
  specialize (Hm s). destruct (body s) as [[a | e] s1]; simpl in *; [done |].
  by etrans; [| apply Hk].
Qed.

Lemma stable_try_except_DoesNotExist {A} (body handler : M A) :
  stable R body -> stable R handler ->
  stable R (try_except_DoesNotExist body handler).
Proof.
  intros Hm Hk s. unfold try_except_DoesNotExist.
  specialize (Hm s). destruct (body s) as [[a | [] ] s1]; simpl in *; try done.
  by etrans; [| apply Hk].
Qed.

Lemma stable_modify f : (forall s, R s (f s)) -> stable R (modify f).
Proof. intros H s. apply H. Qed.

End Stable.

(** ** Gateway initialisation: once per process *)

Lemma initialize_firebase_raised s e :
  fst (initialize_firebase s) = Raise e ->
  _app (service (snd (initialize_firebase s))) = None.
Proof.
  destruct s as [[[app |] [|]] w d lg ms bc];
    try (rewrite initialize_firebase_settled; [| unfold settled; simpl; auto];
         simpl; done).
  unfold initialize_firebase, bind, get_state, try_except, ask, read, call,
    set_app, set_initialized, log, modify, raise, ret; simpl.
  destruct (truthy_str _ && os_path_exists _ _ _); simpl; [| done].
  destruct (credentials_Certificate _ _ _); simpl; [| done].
  by destruct (firebase_admin_initialize_app _ _ _) as [[app | e'] w']; simpl.
Qed.

Lemma is_firebase_available_settled s :
  settled s ->
  is_firebase_available s = (Return (negb (is_none (_app (service s)))), s).
Proof.
  intros H. unfold is_firebase_available, bind.
  by rewrite initialize_firebase_settled.
Qed.

(** X1.  Gateway initialisation is attempted at most once per process.
    Take the state [s1] that any call of [initialize_firebase] leaves
    (it may have found a client, found no key, or raised) and any later
    state [s2] with the same class attributes, whatever has happened to
    the world since.  There [initialize_firebase] returns at once, without
    raising and without changing anything; [is_firebase_available]
    answers whether the first attempt produced a client; and after a
    first attempt that raised it answers [False]. *)
Theorem initialize_firebase_once s s2 :
  let s1 := snd (initialize_firebase s) in
  service s2 = service s1 ->
  initialize_firebase s2 = (Return tt, s2)
  /\ is_firebase_available s2
     = (Return (negb (is_none (_app (service s1)))), s2)
  /\ (forall e, fst (initialize_firebase s) = Raise e ->
        is_firebase_available s2 = (Return false, s2)).
Proof.
  intros s1 Hsvc.
  assert (Hset : settled s2).
  { destruct (initialize_firebase_frame s) as (_ & _ & _ & H).
    unfold settled in *. by rewrite Hsvc. }
  split_and!.
  - by apply initialize_firebase_settled.
  - rewrite is_firebase_available_settled by done. by rewrite Hsvc.
  - intros e He. rewrite is_firebase_available_settled by done.
    rewrite Hsvc. unfold s1. by rewrite (initialize_firebase_raised s e He).
Qed.

(** X2.  A missing service account key disables the gateway without an
    exception.  In a process that has not attempted initialisation yet,
    when the setting is unset or empty or names no existing file,
    [is_firebase_available] returns [False], logs the two error lines and
    leaves the world and the database alone; from then on it answers
    [False] whatever the world becomes, so a key file put in place later
    is not picked up. *)
Theorem missing_key_disables_gateway s :
  _app (service s) = None ->
  _initialized (service s) = false ->
  truthy_str (FIREBASE_SERVICE_ACCOUNT_KEY env)
  && os_path_exists env (default "" (FIREBASE_SERVICE_ACCOUNT_KEY env)) (world s)
  = false ->
  exists s1,
    is_firebase_available s = (Return false, s1)
    /\ world s1 = world s /\ db s1 = db s
    /\ logger s1
       = logger s
         ++ [(ERROR, "Firebase service account key not found at: "
                     +:+ fmt_opt (FIREBASE_SERVICE_ACCOUNT_KEY env));
             (ERROR, "Firebase features will be disabled")]
    /\ forall w, is_firebase_available (set_world w s1)
                 = (Return false, set_world w s1).
Proof.
  destruct s as [[app ini] w d lg ms bc]. simpl. intros -> -> Hkey.
  eexists. split.
  - unfold is_firebase_available, initialize_firebase, bind, get_state,
      try_except, ask, read, call, set_app, set_initialized, log, modify,
      raise, ret; simpl. rewrite Hkey. simpl. reflexivity.
  - simpl. split_and!; try done. by rewrite <- app_assoc.
Qed.

(** ** The bulk form and the outcome log against the gateway *)

Lemma send_each_ok (nt : Notification env) data tokens :
  forall acc sc fc s rs sc' fc' s',
    Forall response_ok acc ->
    send_each nt data tokens acc sc fc s = (Return (rs, sc', fc'), s') ->
    Forall response_ok rs.
Proof.
  induction tokens as [| token rest IH]; intros acc sc fc s rs sc' fc' s' Hacc.
  - simpl. unfold ret. by intros [= <- _ _ _].
  - rewrite send_each_cons.
    destruct (messaging_send _ _ _ _ _) as [[message_id | e] w]; apply IH;
      (apply Forall_app; split; [done |]); apply Forall_singleton;
      unfold response_ok; simpl; eauto.
Qed.

Lemma all_failed_ok (tokens : list string) (msg : string) :
  Forall response_ok
    (map (fun token => TokenResponse.Build token false None (Some msg)) tokens).
Proof.
  apply Forall_forall. intros r Hr. apply list_elem_of_In, in_map_iff in Hr.
  destruct Hr as (token & <- & _). unfold response_ok. simpl. eauto.
Qed.

Lemma bulk_responses_ok tokens title body data image s r s' :
  send_notification_to_multiple_tokens tokens title body data image s
  = (Return r, s') ->
  Forall response_ok (BulkResult.responses r).
Proof.
  destruct (initialize_firebase (snd (record_bulk_call tokens s)))
    as [[[] | e] s0] eqn:Hinit.
  - rewrite (bulk_after_init _ _ _ _ _ _ _ Hinit).
    destruct tokens as [| token rest]; [by intros [= <- _] |].
    destruct (messaging_Notification _ _ _ _) as [nt | e].
    + destruct (send_each _ _ _ _ _ _ _) as [[[[rs sc] fc] | e] s1] eqn:Hsend.
      * intros [= <- _]. simpl. by eapply send_each_ok; [| exact Hsend].
      * intros [= <- _]. apply (all_failed_ok (token :: rest)).
    + intros [= <- _]. apply (all_failed_ok (token :: rest)).
  - unfold send_notification_to_multiple_tokens, bind, record_bulk_call,
      modify in *. simpl in *. by rewrite Hinit.
Qed.

(** X3.  The bulk form attempts every token once, in order.  Whenever
    the initialisation does not raise, it returns one response per token,
    in the order of the tokens: what the gateway answers when the tokens
    are sent one after the other, each from the world the previous send
    left, so a token that fails does not keep the later ones from being
    sent (when the notification itself cannot be built, every token
    fails with that error and nothing is sent).  Each response is a
    success with its message id or a failure with its error text, the two
    counts count them and add up to the number of tokens, and the
    database is not touched. *)
Theorem bulk_form_attempts_every_token tokens title body data image s :
  init_quiet s ->
  let answers :=
    gateway_answers title body image (or_empty data) tokens
      (world (snd (initialize_firebase s))) in
  exists r s',
    send_notification_to_multiple_tokens tokens title body data image s
    = (Return r, s')
    /\ BulkResult.responses r = fst answers
    /\ world s' = snd answers
    /\ map TokenResponse.token (BulkResult.responses r) = tokens
    /\ Forall response_ok (BulkResult.responses r)
    /\ BulkResult.success_count r = successes (BulkResult.responses r)
    /\ BulkResult.failure_count r = failures (BulkResult.responses r)
    /\ BulkResult.success_count r + BulkResult.failure_count r
       = Z.of_nat (length tokens)
    /\ db s' = db s.
Proof.
  intros Hq answers.
  destruct (bulk_answers tokens title body data image s Hq)
    as (s' & Hrun & Hw & Hdb & _).
  fold answers in Hrun, Hw.
  pose proof (gateway_answers_tokens title body image (or_empty data) tokens
                (world (snd (initialize_firebase s)))) as Htok.
  fold answers in Htok.
  eexists _, s'. split; [exact Hrun |]. cbn [BulkResult.responses
    BulkResult.success_count BulkResult.failure_count].
  split_and!; try done.
  - apply (bulk_responses_ok _ _ _ _ _ _ _ _ Hrun).
  - rewrite successes_failures, <- Htok. by rewrite length_map.
Qed.

(** X4.  The outcome log records what the gateway answered.  A dispatch
    pass over a non-empty audience in which the initialisation does not
    raise, through either dispatcher and over any number of batches,
    appends exactly one outcome row per resolved endpoint, in resolved
    order, and the row of an endpoint carries the answer the gateway gave
    for its token: success, or failure with the error text.  The tokens
    are attempted once each, in resolved order, and nothing else is sent:
    the world is left as these sends leave it. *)
Theorem dispatch_log_records_the_gateway_answers via n s :
  notifications (db s) !! PushNotification.id n = Some n ->
  target_queryset (db s) n <> [] ->
  init_quiet s ->
  let audience := target_queryset (db s) n in
  let answers :=
    gateway_answers (PushNotification.title n) (PushNotification.body n)
      (PushNotification.image_url n) (data_or_empty (PushNotification.data n))
      (map DeviceToken.token audience)
      (world (snd (initialize_firebase s))) in
  exists s',
    run_dispatcher via n s = (Return tt, s')
    /\ notification_logs (db s')
       = notification_logs (db s)
         ++ zip_with (outcome_row n) audience (fst answers)
    /\ world s' = snd answers.
Proof.
  intros Hn Hne Hq. destruct via; simpl run_dispatcher.
  - by apply send_notification_async_answers.
  - by apply _send_single_notification_answers.
Qed.

(** X5.  The two dispatchers do the same work.  On a stored request with
    a non-empty audience, when the initialisation does not raise, the
    automatic and the manual dispatcher both return normally and leave the
    same database (request row, outcome rows, journal), the same world
    and the same gateway calls; they differ in where they report (logger
    or message queue). *)
Theorem dispatchers_agree n s :
  notifications (db s) !! PushNotification.id n = Some n ->
  target_queryset (db s) n <> [] ->
  init_quiet s ->
  exists s1 s2,
    send_notification_async (PushNotification.id n) s = (Return tt, s1)
    /\ _send_single_notification n s = (Return tt, s2)
    /\ db s1 = db s2
    /\ world s1 = world s2
    /\ bulk_calls s1 = bulk_calls s2.
Proof.
  intros Hn Hne Hq.
  destruct (run_dispatcher_completes Automatic n s Hn Hne Hq)
    as (s1 & Hrun1 & rows1 & _ & _ & Hdb1 & Hbc1 & _).
  destruct (run_dispatcher_completes Manual n s Hn Hne Hq)
    as (s2 & Hrun2 & rows2 & _ & _ & Hdb2 & Hbc2 & _).
  simpl in Hrun1, Hrun2.
  destruct (send_notification_async_answers n s Hn Hne Hq)
    as (s1' & Hrun1' & Hlog1 & Hw1).
  destruct (_send_single_notification_answers n s Hne Hq)
    as (s2' & Hrun2' & Hlog2 & Hw2).
  rewrite Hrun1 in Hrun1'. rewrite Hrun2 in Hrun2'.
  injection Hrun1' as <-. injection Hrun2' as <-.
  exists s1, s2. split_and!; try done.
  - assert (Hrows : rows1 = rows2).
    { rewrite Hdb1 in Hlog1. rewrite Hdb2 in Hlog2. cbv zeta in Hlog1, Hlog2.
      cbn [notification_logs] in Hlog1, Hlog2.
      apply app_inv_head in Hlog1, Hlog2. congruence. }
    rewrite Hdb1, Hdb2, Hrows. cbv zeta. by rewrite Hw1, Hw2.
  - by rewrite Hw1, Hw2.
  - by rewrite Hbc1, Hbc2.
Qed.

(** ** The topic form *)

(** X6.  The topic form.  It raises only what the first gateway
    initialisation raises, and nothing once initialisation has been
    attempted.  Unlike the single-recipient form it does not ask whether
    a client exists: it always hands the message to the SDK, and whatever
    the construction of the notification or the send raises comes back as
    a [success = False] result carrying the exception text; a send that
    returns gives [success = True] with the message id.  The database is
    not touched. *)
Theorem topic_send_error_handling
    (send_topic : Notification env -> Dict -> string -> World env
                  -> Result string * World env)
    topic title body data image s :
  let attempt := initialize_firebase s in
  let s0 := snd attempt in
  let out := send_notification_to_topic send_topic topic title body data image s in
  (forall e, fst attempt = Raise e -> out = (Raise e, s0))
  /\ (settled s -> fst attempt = Return tt)
  /\ (fst attempt = Return tt ->
      db (snd out) = db s
      /\ match messaging_Notification env title body image with
         | Raise e =>
             fst out = Return (not_delivered (str e))
             /\ world (snd out) = world s0
         | Return nt =>
             match send_topic nt (or_empty data) topic (world s0) with
             | (Return message_id, w) =>
                 fst out = Return (delivered message_id) /\ world (snd out) = w
             | (Raise e, w) =>
                 fst out = Return (not_delivered (str e)) /\ world (snd out) = w
             end
         end).
Proof.
  cbv zeta. destruct (initialize_firebase_frame s) as (Hdb & _).
  unfold send_notification_to_topic.
  destruct (initialize_firebase s) as [[[] | e'] s0] eqn:Hinit; simpl in Hdb |- *.
  - rewrite (bind_Return _ _ _ _ _ Hinit).
    split_and!; [done | done |]. intros _.
    unfold try_except, bind, pure_call, call, log, modify, ret.
    destruct (messaging_Notification env title body image) as [nt | e]; simpl;
      [| done].
    by destruct (send_topic nt (or_empty data) topic (world s0))
      as [[message_id | e] w].
  - rewrite (bind_Raise _ _ _ _ _ Hinit).
    split_and!; [by intros ? [= <-] | | done].
    intros Hset. by rewrite initialize_firebase_settled in Hinit.
Qed.

(** ** What a dispatch leaves alone *)

Global Instance dispatch_keeps_preorder : PreOrder dispatch_keeps.
Proof.
  split.
  - intros s. unfold dispatch_keeps. split_and!; try done.
    exists []. by rewrite app_nil_r.
  - intros s1 s2 s3 (Hu1 & Ht1 & Hq1 & rows1 & Hl1 & Hok1)
      (Hu2 & Ht2 & Hq2 & rows2 & Hl2 & Hok2).
    unfold dispatch_keeps. split_and!; try congruence.
    exists (rows1 ++ rows2). split; [| by apply Forall_app].
    by rewrite Hl2, Hl1, app_assoc.
Qed.

Lemma dispatch_keeps_db s s' : db s' = db s -> dispatch_keeps s s'.
Proof.
  intros H. unfold dispatch_keeps. rewrite H. split_and!; try done.
  exists []. by rewrite app_nil_r.
Qed.

Lemma stable_db_kept {A} (m : M A) :
  (forall s, db (snd (m s)) = db s) -> stable dispatch_keeps m.
Proof. intros H s. by apply dispatch_keeps_db. Qed.

Lemma stable_atomic {A} (m : M A) :
  stable dispatch_keeps m -> stable dispatch_keeps (atomic m).
Proof.
  intros Hm s. unfold atomic. specialize (Hm s).
  destruct (m s) as [[a | e] s1]; simpl in *; [done |].
  by apply dispatch_keeps_db.
Qed.

Lemma stable_save n : stable dispatch_keeps (save n).
Proof.
  intros s. unfold dispatch_keeps. simpl. split_and!; try done.
  exists []. by rewrite app_nil_r.
Qed.

Lemma stable_create row :
  row_ok row -> stable dispatch_keeps (NotificationLog_objects_create row).
Proof.
  intros Hrow s. unfold dispatch_keeps. simpl. split_and!; try done.
  exists [row]. split; [done | by apply Forall_singleton].
Qed.

Lemma stable_initialize_firebase : stable dispatch_keeps initialize_firebase.
Proof.
  apply stable_db_kept. intros s.
  by destruct (initialize_firebase_frame s) as (H & _).
Qed.

Lemma stable_bulk tokens title body data image :
  stable dispatch_keeps
    (send_notification_to_multiple_tokens tokens title body data image).
Proof.
  apply stable_db_kept. intros s.
  destruct (bulk_spec tokens title body data image s)
    as (res & s' & Hrun & Hdb & _).
  by rewrite Hrun.
Qed.

Lemma outcome_row_ok n t resp : response_ok resp -> row_ok (outcome_row n t resp).
Proof.
  unfold response_ok, row_ok, outcome_row. simpl.
  destruct (TokenResponse.success resp); simpl; naive_solver.
Qed.

Ltac stable_step :=
  lazymatch goal with
  | |- forall _, _ => intros
  | |- stable _ (ret _) => apply (stable_ret dispatch_keeps)
  | |- stable _ (raise _) => apply (stable_raise dispatch_keeps)
  | |- stable _ (bind _ _) => apply (stable_bind dispatch_keeps)
  | |- stable _ (try_except _ _) => apply (stable_try_except dispatch_keeps)
  | |- stable _ (atomic _) => apply stable_atomic
  | |- stable _ (save _) => apply stable_save
  | |- stable _ initialize_firebase => apply stable_initialize_firebase
  | |- stable _ (send_notification_to_multiple_tokens _ _ _ _ _) =>
      apply stable_bulk
  | |- stable _ get_state => by apply stable_db_kept
  | |- stable _ (log _ _) => by apply stable_db_kept
  | |- stable _ (messages_add _ _) => by apply stable_db_kept
  | |- stable _ (ask _) => by apply stable_db_kept
  | |- stable _ (let _ := _ in _) => cbv zeta
  | |- stable _ (match ?x with _ => _ end) => destruct x
  end.

Ltac stable_go := repeat stable_step.

Lemma stable_log_responses n batch_tokens :
  forall responses idx sc fc,
    Forall response_ok responses ->
    stable dispatch_keeps (log_responses n batch_tokens idx responses sc fc).
Proof.
  induction responses as [| resp rest IH]; intros idx sc fc Hok; simpl.
  - stable_go.
  - apply Forall_cons in Hok as [Hresp Hrest].
    apply (stable_bind dispatch_keeps).
    + unfold index. destruct (batch_tokens !! idx); stable_go.
    + intros token. apply (stable_bind dispatch_keeps).
      * apply stable_create. by apply (outcome_row_ok n token resp).
      * intros _. destruct (TokenResponse.success resp); by apply IH.
Qed.

Lemma stable_send_batches n data audience :
  forall starts sc fc,
    stable dispatch_keeps (send_batches n data audience starts sc fc).
Proof.
  induction starts as [| i later IH]; intros sc fc; simpl.
  - stable_go.
  - intros s. unfold bind at 1.
    destruct (send_notification_to_multiple_tokens _ _ _ _ _ s)
      as [[r | e] s1] eqn:Hbulk.
    + pose proof (bulk_responses_ok _ _ _ _ _ _ _ _ Hbulk) as Hok.
      apply (f_equal snd) in Hbulk. simpl in Hbulk. subst s1.
      etrans; [apply stable_bulk |].
      apply (stable_bind dispatch_keeps); [| intros counts; apply IH].
      by apply stable_log_responses.
    + apply (f_equal snd) in Hbulk. simpl in Hbulk. subst s1.
      apply stable_bulk.
Qed.

Lemma stable_finalize n sc fc : stable dispatch_keeps (finalize n sc fc).
Proof. unfold finalize. stable_go. Qed.

Lemma stable_send_notification_async notification_id :
  stable dispatch_keeps (send_notification_async notification_id).
Proof.
  unfold send_notification_async, PushNotification_objects_get,
    get_target_tokens, send_in_batches.
  stable_go; first [apply stable_send_batches | apply stable_finalize].
Qed.

Lemma stable__send_single_notification n :
  stable dispatch_keeps (_send_single_notification n).
Proof.
  unfold _send_single_notification, _get_target_tokens, send_in_batches.
  stable_go; first [apply stable_send_batches | apply stable_finalize].
Qed.

Lemma stable_send_each_draft drafts :
  forall sc ec, stable dispatch_keeps (send_each_draft drafts sc ec).
Proof.
  induction drafts as [| n rest IH]; intros sc ec; simpl; [stable_go |].
  apply (stable_bind dispatch_keeps); [| intros counts; apply IH].
  stable_go. apply stable__send_single_notification.
Qed.

Lemma stable_fire trigger : stable dispatch_keeps (fire trigger).
Proof.
  destruct trigger as [instance created | queryset]; simpl.
  - unfold auto_send_notification, on_commit.
    destruct (_ && _); [apply stable_send_notification_async | stable_go].
  - unfold send_notifications.
    stable_go; try apply stable_send_each_draft;
      destruct (bool_decide _); stable_go.
Qed.

(** X7.  What a dispatch never does.  Whatever trigger fires, in
    whatever state, and whether or not the gateway fails: users and
    device endpoints are left exactly as they were (no endpoint is added,
    removed, deactivated or changed), no existing outcome row is removed
    or rewritten, and every outcome row that is added records a success
    without error text or a failure with its error text. *)
Theorem trigger_keeps_registry_and_log trigger s :
  let s' := snd (fire trigger s) in
  users (db s') = users (db s)
  /\ device_tokens (db s') = device_tokens (db s)
  /\ device_token_seq (db s') = device_token_seq (db s)
  /\ exists rows,
       notification_logs (db s') = notification_logs (db s) ++ rows
       /\ Forall row_ok rows.
Proof. apply stable_fire. Qed.

(** ** The automatic dispatcher contains every error *)

Lemma PushNotification_objects_get_missing notification_id s :
  notifications (db s) !! notification_id = None ->
  PushNotification_objects_get notification_id s
  = (Raise (DoesNotExist "PushNotification matching query does not exist."), s).
Proof.
  intros H. unfold PushNotification_objects_get, bind, get_state. by rewrite H.
Qed.

(** X8.  The automatic dispatcher contains every error: for every key and
    every state [send_notification_async] returns normally.  When no
    request has the key, it changes nothing in the database, the world or
    the gateway state, makes no bulk call, and logs the one line that
    names the key and the lookup error. *)
Theorem send_notification_async_contains_errors notification_id s :
  (exists s', send_notification_async notification_id s = (Return tt, s'))
  /\ (notifications (db s) !! notification_id = None ->
      exists s',
        send_notification_async notification_id s = (Return tt, s')
        /\ db s' = db s /\ world s' = world s /\ service s' = service s
        /\ bulk_calls s' = bulk_calls s
        /\ logger s'
           = logger s
             ++ [(ERROR, "Failed to send notification " +:+ pretty notification_id
                         +:+ ": "
                         +:+ "PushNotification matching query does not exist.")]).
Proof.
  split.
  - rewrite send_notification_async_unfold. unfold try_except at 1.
    destruct (bind _ _ s) as [[[] | e] s1]; [by eexists |].
    unfold bind at 1, log, modify. simpl. unfold try_except.
    match goal with |- context [bind ?m ?k ?st] => destruct (bind m k st) as [[[] | e'] s2] end;
      by eexists.
  - intros Hnone. eexists. split.
    + rewrite send_notification_async_unfold. unfold try_except at 1.
      unfold bind at 1. rewrite PushNotification_objects_get_missing by done.
      unfold bind at 1, log, modify. cbn beta iota. unfold try_except, bind at 1.
      rewrite PushNotification_objects_get_missing by done.
      reflexivity.
    + done.
Qed.

(** ** An initialisation error during the automatic dispatch *)

(** X9.  When the first gateway initialisation of the process raises
    during an automatic dispatch of a stored request with a non-empty
    audience, the dispatcher still returns normally; the request is left
    [failed] with [total_recipients] set to the size of the audience and
    its two counters untouched, no outcome row is written, and the three
    row versions written are sending, sending, failed. *)
Theorem automatic_dispatch_initialisation_failure n s :
  notifications (db s) !! PushNotification.id n = Some n ->
  target_queryset (db s) n <> [] ->
  ~ init_quiet s ->
  exists s',
    send_notification_async (PushNotification.id n) s = (Return tt, s')
    /\ notifications (db s') !! PushNotification.id n
       = Some (PushNotification.set_status failed
                 (PushNotification.set_total_recipients
                    (Z.of_nat (length (target_queryset (db s) n)))
                    (PushNotification.set_status sending n)))
    /\ notification_logs (db s') = notification_logs (db s)
    /\ journal (db s')
       = journal (db s)
         ++ [(PushNotification.id n, sending); (PushNotification.id n, sending);
             (PushNotification.id n, failed)].
Proof.
  intros Hn Hne Hnq. rewrite send_notification_async_unfold.
  unfold try_except at 1.
  rewrite (bind_Return _ _ _ _ _ (PushNotification_objects_get_found n s Hn)).
  match goal with |- context [dispatch_skeleton ?e ?r n s] =>
    destruct (dispatch_skeleton_raises e r n s Hne Hnq) as (e0 & s2 & -> & Hdb2)
  end.
  unfold bind at 1. unfold log at 1, modify at 1.
  unfold try_except, bind at 1, PushNotification_objects_get, bind at 1, get_state.
  cbn [db]. rewrite Hdb2. unfold db_sending. cbn [db notifications].
  rewrite lookup_insert_eq. unfold ret at 1. unfold save, modify.
  eexists. split; [reflexivity |].
  simpl. split_and!.
  - by rewrite lookup_insert_eq.
  - done.
  - by rewrite <- app_assoc.
Qed.

(** ** The admin action, as the operator sees it *)

Lemma bind_inv {A B} (m : M A) (k : A -> M B) s res s' :
  bind m k s = (res, s') ->
  (exists e, m s = (Raise e, s') /\ res = Raise e)
  \/ (exists a s1, m s = (Return a, s1) /\ k a s1 = (res, s')).
Proof.
  unfold bind. destruct (m s) as [[a | e] s1]; [by eauto |].
  intros [= <- <-]. left. by eauto.
Qed.

Lemma send_in_batches_messages n data audience s :
  messages (snd (send_in_batches n data audience s)) = messages s.
Proof.
  unfold send_in_batches.
  destruct (send_batches_spec n data audience
              (range 0 (length audience) batch_size) 0 0 s)
    as (res & s' & rows & Hrun & _ & Hmsg & _).
  by rewrite Hrun.
Qed.

Lemma _send_single_notification_messages n s res s' :
  _send_single_notification n s = (res, s') ->
  match res with
  | Return _ => exists line, messages s' = messages s ++ [(SUCCESS, line)]
  | Raise _ => messages s' = messages s
  end.
Proof.
  unfold _send_single_notification. cbv zeta. intros H.
  apply bind_inv in H as [(e & [=] & _) | (? & s1 & [= _ <-] & H)].
  apply bind_inv in H as [(e & [=] & _) | (audience & s2 & [= <- <-] & H)].
  destruct (target_queryset _ _) as [| t audience] eqn:Haud.
  - apply bind_inv in H as [(e & [=] & _) | (? & s3 & [= _ <-] & H)].
    by injection H as <- <-.
  - apply bind_inv in H as [(e & [=] & _) | (? & s3 & [= _ <-] & H)].
    apply bind_inv in H as [(e & H & ->) | (counts & s4 & Hsend & H)].
    { apply (f_equal snd) in H. simpl in H. subst s'.
      by rewrite send_in_batches_messages. }
    apply (f_equal snd) in Hsend. simpl in Hsend.
    apply (f_equal messages) in Hsend. rewrite send_in_batches_messages in Hsend.
    simpl in Hsend.
    apply bind_inv in H as [(e & H & ->) | (final & s5 & Hfin & H)];
      rewrite finalize_spec in *; simplify_eq.
    cbv zeta in Hfin. injection Hfin as _ <-.
    injection H as <- <-. simpl. rewrite Hsend. by eexists.
Qed.

Lemma manual_attempt n (sent_count error_count : Z) s :
  let attempt :=
    try_except
      (atomic
         (bind (_send_single_notification n) (fun _ =>
          ret (sent_count + 1, error_count))))
      (fun e =>
         bind (messages_add ERROR
                 ("Failed to send notification '"
                  +:+ PushNotification.title n +:+ "': " +:+ str e)) (fun _ =>
         ret (sent_count, error_count + 1))) in
  (exists s' line,
     attempt s = (Return (sent_count + 1, error_count), s')
     /\ messages s' = messages s ++ [(SUCCESS, line)])
  \/ (exists s' line,
        attempt s = (Return (sent_count, error_count + 1), s')
        /\ db s' = db s
        /\ messages s' = messages s ++ [(ERROR, line)]).
Proof.
  intros attempt. unfold attempt, try_except, atomic.
  pose proof (_send_single_notification_messages n s) as Hmsg.
  destruct (_send_single_notification n s) as [[[] | e] s1] eqn:Hrun.
  - left. destruct (Hmsg _ _ eq_refl) as (line & Hline).
    rewrite (bind_Return _ _ _ _ _ Hrun). by eauto.
  - right. specialize (Hmsg _ _ eq_refl). simpl in Hmsg.
    rewrite (bind_Raise _ _ _ _ _ Hrun).
    eexists _, _. split; [reflexivity |]. simpl. by rewrite Hmsg.
Qed.

Lemma count_level_app lvl l1 l2 :
  count_level lvl (l1 ++ l2) = count_level lvl l1 + count_level lvl l2.
Proof. unfold count_level. rewrite filter_app, length_app. lia. Qed.

Lemma count_level_nonneg lvl l : 0 <= count_level lvl l.
Proof. unfold count_level. lia. Qed.

Lemma send_each_draft_reports drafts :
  forall sc ec s,
  exists sc' ec' s' shown,
    send_each_draft drafts sc ec s = (Return (sc', ec'), s')
    /\ messages s' = messages s ++ shown
    /\ count_level SUCCESS shown = sc' - sc
    /\ count_level ERROR shown = ec' - ec
    /\ length shown = length drafts
    /\ sc' + ec' = sc + ec + Z.of_nat (length drafts)
    /\ (sc' = sc -> db s' = db s).
Proof.
  induction drafts as [| n rest IH]; intros sc ec s.
  - exists sc, ec, s, []. simpl. rewrite app_nil_r.
    split_and!; try done; unfold count_level; simpl; lia.
  - simpl. unfold bind at 1.
    destruct (manual_attempt n sc ec s)
      as [(s1 & line & -> & Hmsg) | (s1 & line & -> & Hdb & Hmsg)];
      cbn [fst snd].
    + destruct (IH (sc + 1) ec s1)
        as (sc' & ec' & s' & shown & Hrun & Hshown & Hs & He & Hlen & Hsum & Hroll).
      exists sc', ec', s', ((SUCCESS, line) :: shown).
      pose proof (count_level_nonneg SUCCESS shown).
      change ((SUCCESS, line) :: shown) with ([(SUCCESS, line)] ++ shown).
      rewrite !count_level_app, Hs, He. unfold count_level. simpl.
      split_and!; try done; try lia.
      by rewrite Hshown, Hmsg, <- app_assoc.
    + destruct (IH sc (ec + 1) s1)
        as (sc' & ec' & s' & shown & Hrun & Hshown & Hs & He & Hlen & Hsum & Hroll).
      exists sc', ec', s', ((ERROR, line) :: shown).
      change ((ERROR, line) :: shown) with ([(ERROR, line)] ++ shown).
      rewrite !count_level_app, Hs, He. unfold count_level. simpl.
      split_and!; try done; try lia.
      * by rewrite Hshown, Hmsg, <- app_assoc.
      * intros ->. by rewrite Hroll.
Qed.

(** X10.  The admin action as the operator sees it.  For every selection
    and every state the action returns normally.  Every selected draft is
    counted once, as sent or as failed; the operator is shown one line per
    draft (a success line for each one sent, an error line for each one
    that failed) and then the summary lines for the counts that are not
    zero.  A draft that fails is rolled back, so when none was sent the
    database is exactly as before; on a selection without drafts nothing
    is shown. *)
Theorem admin_action_reports_every_draft queryset s :
  exists s' sent_count error_count shown,
    send_notifications queryset s = (Return tt, s')
    /\ sent_count + error_count
       = Z.of_nat (length (filter_draft (db s) queryset))
    /\ count_level SUCCESS shown = sent_count
    /\ count_level ERROR shown = error_count
    /\ length shown = length (filter_draft (db s) queryset)
    /\ messages s'
       = messages s ++ shown
         ++ (if bool_decide (sent_count > 0)
             then [(SUCCESS, "Successfully sent " +:+ pretty sent_count
                             +:+ " notification(s)")]
             else [])
         ++ (if bool_decide (error_count > 0)
             then [(ERROR, "Failed to send " +:+ pretty error_count
                           +:+ " notification(s)")]
             else [])
    /\ (sent_count = 0 -> db s' = db s).
Proof.
  destruct (send_each_draft_reports (filter_draft (db s) queryset) 0 0 s)
    as (sc & ec & s1 & shown & Hrun & Hshown & Hs & He & Hlen & Hsum & Hroll).
  unfold send_notifications, bind at 1, get_state.
  rewrite (bind_Return _ _ _ _ _ Hrun). cbn [fst snd].
  destruct (bool_decide (sc > 0)) eqn:E1, (bool_decide (ec > 0)) eqn:E2;
    eexists _, sc, ec, shown; (split; [reflexivity |]);
    simpl; rewrite ?E1, ?E2, ?Hshown, ?app_nil_r, <- ?app_assoc;
    split_and!; try done; try lia.
Qed.

(** ** No request is left in [sending] *)

Lemma attempt_writes_last written :
  attempt_writes written ->
  last written = None \/ last written = Some sent \/ last written = Some failed.
Proof.
  intros [-> | [-> | (final & [-> | ->] & ->)]]; simpl; auto.
Qed.

Lemma moved_settles d d' entries i :
  moved d d' entries i ->
  attempt_writes (written_for i entries) ->
  notifications d' !! i = notifications d !! i
  \/ exists n', notifications d' !! i = Some n'
                /\ (PushNotification.status n' = sent
                    \/ PushNotification.status n' = failed).
Proof.
  unfold moved. intros Hmoved Hwrites.
  destruct (attempt_writes_last _ Hwrites) as [Hl | [Hl | Hl]];
    rewrite Hl in Hmoved; [by left | |];
    destruct Hmoved as (n' & ? & ?); right; exists n'; auto.
Qed.

(** X11.  No request is left in [sending].  Whatever trigger fires, it
    returns normally and every stored request either keeps its row or
    ends [sent] or [failed]: the automatic dispatcher marks a request
    whose pass breaks off as failed, and the admin action rolls a broken
    pass back to the draft.  So if no stored request is in [sending]
    before a trigger, none is after it. *)
Theorem sending_is_transient trigger s :
  trigger_ok s trigger ->
  exists s',
    fire trigger s = (Return tt, s')
    /\ (forall i,
          notifications (db s') !! i = notifications (db s) !! i
          \/ exists n', notifications (db s') !! i = Some n'
                        /\ (PushNotification.status n' = sent
                            \/ PushNotification.status n' = failed))
    /\ ((forall i n, notifications (db s) !! i = Some n ->
                     PushNotification.status n <> sending) ->
        forall i n', notifications (db s') !! i = Some n' ->
                     PushNotification.status n' <> sending).
Proof.
  intros Hok.
  assert (Hmain : exists s',
    fire trigger s = (Return tt, s')
    /\ forall i,
         notifications (db s') !! i = notifications (db s) !! i
         \/ exists n', notifications (db s') !! i = Some n'
                       /\ (PushNotification.status n' = sent
                           \/ PushNotification.status n' = failed)).
  { destruct trigger as [instance created | queryset]; simpl in *.
    - unfold auto_send_notification, on_commit.
      destruct (created && bool_decide (PushNotification.status instance = draft)
                && PushNotification.auto_send instance).
      + destruct (auto_dispatch_step instance s Hok)
          as (s' & written & Hrun & (Hj & Hother & Hlast) & Hwrites).
        exists s'. split; [done |]. intros i.
        destruct (decide (i = PushNotification.id instance)) as [-> | Hne];
          [| left; by apply Hother].
        destruct (attempt_writes_last _ Hwrites) as [Hl | [Hl | Hl]];
          rewrite Hl in Hlast; [by left | |];
          destruct Hlast as (n' & ? & ? & _); right; exists n'; auto.
      + exists s. split; [done |]. intros i. by left.
    - destruct Hok as [Hnd Hkeyed].
      destruct (filter_draft_spec (db s) queryset Hnd Hkeyed) as [Hids Hdrafts].
      destruct (send_each_draft_spec (filter_draft (db s) queryset) 0 0 s Hids)
        as (s1 & entries & counts & Hloop & Hj & Hout & Hin).
      unfold send_notifications, bind at 1, get_state.
      rewrite (bind_Return _ _ _ _ _ Hloop).
      assert (Hend : exists s',
        bind (if bool_decide (fst counts > 0)
              then messages_add SUCCESS
                     ("Successfully sent " +:+ pretty (fst counts)
                      +:+ " notification(s)")
              else ret tt)
          (fun _ => if bool_decide (snd counts > 0)
                    then messages_add ERROR
                           ("Failed to send " +:+ pretty (snd counts)
                            +:+ " notification(s)")
                    else ret tt) s1 = (Return tt, s')
        /\ db s' = db s1).
      { unfold bind, messages_add, modify, ret.
        destruct (bool_decide (fst counts > 0)), (bool_decide (snd counts > 0));
          eexists; (split; [reflexivity | done]). }
      destruct Hend as (s' & -> & Hdb).
      exists s'. rewrite Hdb. split; [done |]. intros i.
      destruct (decide (i ∈ map PushNotification.id (filter_draft (db s) queryset)))
        as [Hi | Hi]; [| left; by apply Hout].
      apply list_elem_of_In, in_map_iff in Hi as (m & <- & Hm).
      apply list_elem_of_In in Hm.
      destruct (Hin m Hm) as [Hwrites Hmoved].
      by eapply moved_settles. }
  destruct Hmain as (s' & Hrun & Hsettled).
  exists s'. split_and!; [done | done |].
  intros Hinv i n' Hn'.
  destruct (Hsettled i) as [Hsame | (n'' & Hn'' & Hst)].
  - apply (Hinv i). by rewrite <- Hsame.
  - assert (n'' = n') by congruence. subst n''. destruct Hst as [-> | ->]; done.
Qed.

(** ** The device registry: what a call changes *)

Lemma rows_with_split tok found (before after : list DeviceToken.t) :
  filter (fun r => DeviceToken.token r = tok) (before ++ found :: after) = [found] ->
  DeviceToken.token found = tok
  /\ filter (fun r => DeviceToken.token r = tok) before = []
  /\ filter (fun r => DeviceToken.token r = tok) after = [].
Proof.
  intros H.
  assert (Htok : DeviceToken.token found = tok).
  { assert (Hin : found ∈ filter (fun r => DeviceToken.token r = tok)
                            (before ++ found :: after)) by (rewrite H; left).
    by apply list_elem_of_filter in Hin as [? _]. }
  rewrite filter_app, filter_cons_True in H by done.
  apply (f_equal length) in H as Hlen. rewrite length_app in Hlen. simpl in Hlen.
  split; [done |].
  split; apply length_zero_iff_nil; lia.
Qed.

Lemma registry_ok_deactivate found before after d :
  device_tokens d = before ++ found :: after ->
  registry_ok d ->
  registry_ok (db_set_registry (before ++ deactivated found :: after)
                 (device_token_seq d) d).
Proof.
  intros Hsplit (Hids & Htoks & Hseq). rewrite Hsplit in Hids, Htoks, Hseq.
  unfold registry_ok, db_set_registry. cbn [device_tokens device_token_seq].
  rewrite !map_app in *. simpl in *. split_and!; try done.
  apply Forall_app in Hseq as [Hb Ha]. apply Forall_cons in Ha as [Hf Ha].
  apply Forall_app. split; [done |]. by apply Forall_cons.
Qed.

(** X12.  Unregistering a token that one stored row carries is answered
    with 200 and writes that row back with [is_active = False]: the row
    keeps its key, owner, token and platform, every other row and the
    order of the rows stay as they were, nothing outside the table
    changes, and the table still satisfies its uniqueness constraints.
    (The columns are those of the model; [save()] also refreshes the
    [updated_at] time stamp, which the model does not carry.) *)
Theorem unregister_deactivates_its_row tok request found s :
  registry_ok (db s) ->
  Request.token request = Some tok ->
  tok <> "" ->
  rows_with tok (db s) = [found] ->
  exists before after s',
    device_tokens (db s) = before ++ found :: after
    /\ unregister_device_token request s
       = (Return (Response.Build
                    [("message", JString "Device token unregistered successfully")]
                    HTTP_200_OK), s')
    /\ s' = set_db (db_set_registry (before ++ deactivated found :: after)
                      (device_token_seq (db s)) (db s)) s
    /\ rows_with tok (db s') = [deactivated found]
    /\ registry_ok (db s').
Proof.
  intros Hok Htok Hne Hone.
  destruct (unregister_known_token tok request found s Hok Htok Hne Hone)
    as (before & after & Hsplit & Hrun).
  exists before, after. eexists. split; [done |]. split; [exact Hrun |].
  split; [reflexivity |].
  unfold rows_with in Hone. rewrite Hsplit in Hone.
  destruct (rows_with_split _ _ _ _ Hone) as (Hftok & Hb & Ha).
  split_and!.
  - unfold rows_with. cbn [db set_db db_set_registry device_tokens].
    rewrite filter_app, filter_cons_True by done. by rewrite Hb, Ha.
  - by apply registry_ok_deactivate.
Qed.

(** X13.  The registry endpoints never raise, and a call they refuse
    writes nothing.  A call without token (absent or empty) is answered
    with 400 "Token is required" by both endpoints, and a registration
    that names a user who does not exist with 404 "User not found"; in
    each case the state, logger included, is left exactly as it was. *)
Theorem registry_refusals_write_nothing request s :
  (exists response s', register_device_token request s = (Return response, s'))
  /\ (exists response s', unregister_device_token request s = (Return response, s'))
  /\ (truthy_str (Request.token request) = false ->
      register_device_token request s
      = (Return (Response.Build [("error", JString "Token is required")]
                   HTTP_400_BAD_REQUEST), s)
      /\ unregister_device_token request s
         = (Return (Response.Build [("error", JString "Token is required")]
                      HTTP_400_BAD_REQUEST), s))
  /\ (truthy_str (Request.token request) = true ->
      truthy_int (Request.user_id request) = true ->
      default 0 (Request.user_id request) ∉ users (db s) ->
      register_device_token request s
      = (Return (Response.Build [("error", JString "User not found")]
                   HTTP_404_NOT_FOUND), s)).
Proof.
  split_and!.
  - rewrite register_device_token_eq.
    destruct (negb _); [by eauto |]. destruct (_ && _); [by eauto |].
    destruct (DeviceToken_objects_update_or_create _ _ _ _ _)
      as [[[row created] | e] s']; by eauto.
  - unfold unregister_device_token, try_except.
    match goal with |- context [match ?m s with _ => _ end] =>
      destruct (m s) as [[response | e] s'] end; by eauto.
  - intros Hno. split.
    + by rewrite register_device_token_eq, Hno.
    + unfold unregister_device_token, try_except. by rewrite Hno.
  - intros Htok Hu Hmissing. rewrite register_device_token_eq, Htok, Hu. simpl.
    by rewrite bool_decide_eq_false_2.
Qed.

Global Instance registry_only_preorder : PreOrder registry_only.
Proof.
  split.
  - intros s. by unfold registry_only.
  - intros s1 s2 s3 H1 H2. unfold registry_only in *.
    destruct H1 as (? & ? & ? & ? & ? & ? & ? & ?),
             H2 as (? & ? & ? & ? & ? & ? & ? & ?).
    split_and!; congruence.
Qed.

Ltac registry_step :=
  lazymatch goal with
  | |- forall _, _ => intros
  | |- stable _ (ret _) => apply (stable_ret registry_only)
  | |- stable _ (raise _) => apply (stable_raise registry_only)
  | |- stable _ (bind _ _) => apply (stable_bind registry_only)
  | |- stable _ (try_except _ _) => apply (stable_try_except registry_only)
  | |- stable _ (try_except_DoesNotExist _ _) =>
      apply (stable_try_except_DoesNotExist registry_only)
  | |- stable _ get_state => by intros ?
  | |- stable _ (log _ _) => by intros ?
  | |- stable _ (set_device_tokens _ _) => by intros ?
  | |- stable _ (let _ := _ in _) => cbv zeta
  | |- stable _ (match ?x with _ => _ end) => destruct x
  end.

Lemma stable_register request : stable registry_only (register_device_token request).
Proof.
  unfold register_device_token, User_objects_get,
    DeviceToken_objects_update_or_create, DeviceToken_save.
  repeat registry_step.
Qed.

Lemma stable_unregister request :
  stable registry_only (unregister_device_token request).
Proof.
  unfold unregister_device_token, get_object_or_404, DeviceToken_save.
  repeat registry_step.
Qed.

(** X14.  The registry endpoints touch the registry only.  Whatever the
    request and the state, registration and unregistration leave the
    gateway state and the world alone (no initialisation, no send), make
    no bulk call, show the operator nothing, and change no user, request,
    outcome row or journal entry. *)
Theorem registry_calls_touch_the_registry_only request s :
  registry_only s (snd (register_device_token request s))
  /\ registry_only s (snd (unregister_device_token request s)).
Proof. split; [apply stable_register | apply stable_unregister]. Qed.

Lemma update_or_create_others tok user dt active s tok' :
  NoDup (map DeviceToken.id (device_tokens (db s))) ->
  tok' <> tok ->
  rows_with tok' (db (snd (DeviceToken_objects_update_or_create tok user dt active s)))
  = rows_with tok' (db s).
Proof.
  intros Hids Hne.
  unfold DeviceToken_objects_update_or_create, bind at 1, get_state.
  fold (rows_with tok (db s)).
  destruct (rows_with tok (db s)) as [| found [| ? ?]] eqn:Hrows; [| | done].
  - unfold rows_with. simpl. rewrite filter_app, filter_cons_False by (simpl; congruence).
    by rewrite filter_nil, app_nil_r.
  - assert (Hfound : found ∈ rows_with tok (db s)) by (rewrite Hrows; left).
    apply list_elem_of_filter in Hfound as [Hftok Hfin].
    set (row := DeviceToken.Build (DeviceToken.id found) user
                  (DeviceToken.token found) dt active).
    destruct (save_row_split row found (device_tokens (db s)) Hids Hfin eq_refl)
      as (before & after & Hsplit & Hmap).
    unfold rows_with, bind, DeviceToken_save, bind, get_state,
      set_device_tokens, modify, ret.
    cbn [snd db set_db device_tokens]. fold row.
    rewrite Hmap, Hsplit, !filter_app.
    rewrite !filter_cons_False; [done | |]; simpl; congruence.
Qed.

(** X15.  A registration call, accepted or not, changes no endpoint of
    another token: on a table with unique keys, the rows carrying any
    token other than the call's are the same before and after. *)
Theorem registration_leaves_other_tokens request tok' s :
  registry_ok (db s) ->
  Request.token request <> Some tok' ->
  rows_with tok' (db (snd (register_device_token request s)))
  = rows_with tok' (db s).
Proof.
  intros (Hids & _ & _) Hne. rewrite register_device_token_eq.
  destruct (Request.token request) as [tok |] eqn:Htok; [| done].
  destruct (negb _); [done |]. destruct (_ && _); [done |].
  pose proof (update_or_create_others tok (owner_given request)
                (default "android" (Request.device_type request)) true s tok' Hids)
    as Hothers.
  simpl.
  destruct (DeviceToken_objects_update_or_create _ _ _ _ _)
    as [[[row created] | e] s']; simpl in *; apply Hothers; congruence.
Qed.

(** ** The registry and audience resolution together *)

(** X16.  Once a token is unregistered, no request is addressed to it:
    after a successful unregistration, whatever the platform filter and
    the user set of a request, its resolved audience holds no endpoint
    with that token. *)
Theorem unregistered_token_is_never_targeted tok request found s :
  registry_ok (db s) ->
  Request.token request = Some tok ->
  tok <> "" ->
  rows_with tok (db s) = [found] ->
  forall n t,
    t ∈ target_queryset (db (snd (unregister_device_token request s))) n ->
    DeviceToken.token t <> tok.
Proof.
  intros Hok Htok Hne Hone n t.
  destruct (unregister_known_token tok request found s Hok Htok Hne Hone)
    as (before & after & Hsplit & ->).
  unfold rows_with in Hone. rewrite Hsplit in Hone.
  destruct (rows_with_split _ _ _ _ Hone) as (Hftok & Hb & Ha).
  rewrite target_queryset_eligible. cbn [snd db set_db db_set_registry device_tokens].
  intros Ht. apply list_elem_of_filter in Ht as [(Hact & _) Hin].
  apply elem_of_app in Hin as [Hin | Hin].
  - intros Heq. by eapply (filter_nil_not_elem_of _ _ t Hb).
  - apply elem_of_cons in Hin as [-> | Hin]; [done |].
    intros Heq. by eapply (filter_nil_not_elem_of _ _ t Ha).
Qed.

(** X17.  An accepted registration makes the endpoint addressable at
    once: for every request whose platform filter is "all" or the
    endpoint's platform, and which is a broadcast, names no user, or
    names the endpoint's owner, the resolved audience after the call
    holds the row of the token. *)
Theorem registered_token_is_targeted tok request n s :
  registry_ok (db s) ->
  accepted (db s) request ->
  Request.token request = Some tok ->
  PushNotification.target_device_types n = "all"
  \/ PushNotification.target_device_types n
     = default "android" (Request.device_type request) ->
  PushNotification.send_to_all n = true
  \/ PushNotification.target_users n = []
  \/ (exists u, owner_given request = Some u
                /\ u ∈ PushNotification.target_users n) ->
  exists row,
    rows_with tok (db (snd (register_device_token request s))) = [row]
    /\ row ∈ target_queryset (db (snd (register_device_token request s))) n.
Proof.
  intros Hok Hacc Htok Hplat Husers.
  destruct (register_accepted tok request s Hok Hacc Htok)
    as (row & rows' & seq' & -> & Hone & (Hdt & Hown & Hact) & _ & _).
  exists row. split; [done |].
  rewrite target_queryset_eligible. apply list_elem_of_filter.
  assert (Hin : row ∈ rows_with tok (db_set_registry rows' seq' (db s)))
    by (rewrite Hone; left).
  apply list_elem_of_filter in Hin as [_ Hin].
  split; [| done]. unfold eligible. split_and!; [done | |].
  - intros Hnot. destruct Hplat as [Hall | Hsame]; [done | congruence].
  - intros Hnoall Hsome. destruct Husers as [Hall | [Hnil | (u & Hu & Hin')]];
      [congruence | done |].
    exists u. split; [congruence | done].
Qed.

(** X18.  Unregistering a token and registering it again gives the
    endpoint back: the registration is answered as an update (200, not
    created) of the same row, which keeps its primary key, is active
    again and carries the platform and owner of the new call. *)
Theorem unregister_then_register_restores tok leaving coming found s :
  registry_ok (db s) ->
  rows_with tok (db s) = [found] ->
  tok <> "" ->
  Request.token leaving = Some tok ->
  Request.token coming = Some tok ->
  accepted (db s) coming ->
  exists s1 s2 row,
    unregister_device_token leaving s
    = (Return (Response.Build
                 [("message", JString "Device token unregistered successfully")]
                 HTTP_200_OK), s1)
    /\ register_device_token coming s1
       = (Return (registered false (DeviceToken.id found)), s2)
    /\ rows_with tok (db s2) = [row]
    /\ DeviceToken.id row = DeviceToken.id found
    /\ reflects coming row
    /\ registry_ok (db s2).
Proof.
  intros Hok Hone Hne Hleave Hcome Hacc.
  destruct (unregister_known_token tok leaving found s Hok Hleave Hne Hone)
    as (before & after & Hsplit & Hrun).
  pose proof Hone as Hone'. unfold rows_with in Hone'. rewrite Hsplit in Hone'.
  destruct (rows_with_split _ _ _ _ Hone') as (Hftok & Hb & Ha).
  set (s1 := set_db (db_set_registry (before ++ deactivated found :: after)
                       (device_token_seq (db s)) (db s)) s) in *.
  assert (Hok1 : registry_ok (db s1)) by (by apply registry_ok_deactivate).
  assert (Hone1 : rows_with tok (db s1) = [deactivated found]).
  { unfold rows_with, s1. cbn [db set_db db_set_registry device_tokens].
    rewrite filter_app, filter_cons_True by done. by rewrite Hb, Ha. }
  destruct (register_accepted tok coming s1 Hok1 Hacc Hcome)
    as (row & rows' & seq' & Hreg & Hrow & Hrefl & Hid & Hok2).
  rewrite Hone1 in Hreg. simpl in Hreg.
  specialize (Hid _ Hone1). simpl in Hid. rewrite Hid in Hreg.
  eexists s1, _, row. split_and!; try done.
Qed.

(** X19.  The registry endpoints keep the [DeviceToken] table well
    formed: whatever the request, after a registration or an
    unregistration primary keys and tokens are still unique and the
    sequence is still ahead of every key. *)
Theorem registry_calls_keep_the_table_well_formed request s :
  registry_ok (db s) ->
  registry_ok (db (snd (register_device_token request s)))
  /\ registry_ok (db (snd (unregister_device_token request s))).
Proof.
  intros Hok. split.
  - rewrite register_device_token_eq.
    destruct (negb _); [done |]. destruct (_ && _); [done |].
    destruct (update_or_create_spec (default "" (Request.token request))
                (owner_given request)
                (default "android" (Request.device_type request)) s Hok)
      as (row & created & rows' & seq' & -> & _ & _ & _ & _ & _ & _ & _ & Hok').
    done.
  - destruct (Request.token request) as [tok |] eqn:Htok.
    + destruct (decide (tok = "")) as [-> | Hne].
      { unfold unregister_device_token, try_except. by rewrite Htok. }
      pose proof Hok as (_ & Htoks & _).
      destruct (rows_with_cases tok (db s) Htoks)
        as [Hnil | (found & Hone & _ & _)].
      * destruct (unregister_unknown_token tok request s Htok Hne Hnil)
          as (s' & -> & Hdb & _). simpl. by rewrite Hdb.
      * destruct (unregister_known_token tok request found s Hok Htok Hne Hone)
          as (before & after & Hsplit & ->).
        by apply registry_ok_deactivate.
    + unfold unregister_device_token, try_except. by rewrite Htok.
Qed.

(** ** The test endpoint *)

Lemma send_test_notification_eq request s :
  send_test_notification request s
  = let s1 := test_request_logged request s in
    if negb (truthy_str (TestRequest.token request)) then
      (Return test_token_required, s1)
    else
      match is_firebase_available s1 with
      | (Raise e, s2) =>
          (Return (test_internal_error (str e)),
           snd (log ERROR ("Error sending test notification: " +:+ str e) s2))
      | (Return false, s2) => (Return test_unavailable, s2)
      | (Return true, s2) =>
          match send_notification_to_token
                  (default "" (TestRequest.token request))
                  (default "Test Notification" (TestRequest.title request))
                  (default "This is a test notification" (TestRequest.body request))
                  (Some (default [] (TestRequest.data request)))
                  (TestRequest.image_url request) s2 with
          | (Return response, s3) =>
              if SendResult.success response then
                (Return (test_sent (SendResult.message_id response)),
                 snd (log INFO ("Test notification sent successfully: "
                                +:+ fmt_opt (SendResult.message_id response)) s3))
              else
                (Return (test_failed (SendResult.error response)),
                 snd (log ERROR ("Failed to send test notification: "
                                 +:+ fmt_opt (SendResult.error response)) s3))
          | (Raise e, s3) =>
              (Return (test_internal_error (str e)),
               snd (log ERROR ("Error sending test notification: " +:+ str e) s3))
          end
      end.
Proof.
  unfold send_test_notification, try_except. cbv zeta.
  do 4 (unfold bind at 1, log at 1, modify at 1; cbn beta iota).
  cbn [service world db logger messages bulk_calls].
  rewrite <- !app_assoc. cbn [app].
  fold (test_request_logged request s).
  destruct (negb (truthy_str (TestRequest.token request))); [done |].
  unfold bind at 1.
  destruct (is_firebase_available _) as [[[|] | e] s2]; [| done | done].
  cbn [negb]. unfold bind at 1.
  destruct (send_notification_to_token _ _ _ _ _ s2) as [[response | e] s3];
    [| done].
  by destruct (SendResult.success response).
Qed.

(** X20.  The test endpoint.  It never raises and never writes to the
    database, the message queue or the bulk call history.  Without token
    it answers 400 and does not touch the gateway.  With a token: an
    error of the first gateway initialisation is answered with 500
    "Internal server error" carrying the error text; a gateway without
    client with 503, nothing being sent; otherwise the message is handed
    to the SDK once, and the answer is 200 with the message id when the
    send returns, and 500 "Failed to send notification" with the error
    text when the notification cannot be built or the send raises. *)
Theorem send_test_notification_answers request s :
  let token := TestRequest.token request in
  let title := default "Test Notification" (TestRequest.title request) in
  let body := default "This is a test notification" (TestRequest.body request) in
  let data := default [] (TestRequest.data request) in
  let attempt := initialize_firebase s in
  let s0 := snd attempt in
  exists response s',
    send_test_notification request s = (Return response, s')
    /\ db s' = db s /\ messages s' = messages s /\ bulk_calls s' = bulk_calls s
    /\ (truthy_str token = false ->
        response = test_token_required
        /\ service s' = service s /\ world s' = world s)
    /\ (truthy_str token = true ->
        (forall e, fst attempt = Raise e ->
           response = test_internal_error (str e) /\ world s' = world s0)
        /\ (fst attempt = Return tt ->
            (_app (service s0) = None ->
             response = test_unavailable /\ world s' = world s0)
            /\ (_app (service s0) <> None ->
                match messaging_Notification env title body
                        (TestRequest.image_url request) with
                | Raise e =>
                    response = test_failed (Some (str e)) /\ world s' = world s0
                | Return nt =>
                    match messaging_send env nt data (default "" token) (world s0) with
                    | (Return message_id, w) =>
                        response = test_sent (Some message_id) /\ world s' = w
                    | (Raise e, w) =>
                        response = test_failed (Some (str e)) /\ world s' = w
                    end
                end))).
Proof.
  cbv zeta. rewrite send_test_notification_eq. cbv zeta.
  set (s1 := test_request_logged request s).
  destruct (initialize_firebase_local s1 s eq_refl eq_refl) as (Hres & Hsvc & Hw).
  destruct (initialize_firebase_frame s1) as (Hdb & Hms & Hbc & Hset).
  destruct (truthy_str (TestRequest.token request)) eqn:Htok; cbn [negb].
  2: { eexists _, _. split; [reflexivity |]. by split_and!. }
  unfold is_firebase_available, bind at 1.
  destruct (initialize_firebase s1) as [[[] | e] s2] eqn:Hinit; simpl in *.
  - unfold get_state. cbn beta iota. unfold ret.
    destruct (_app (service s2)) as [app |] eqn:Happ; cbn [is_none negb].
    + assert (Hready : ready s2) by (unfold ready; by rewrite Happ).
      rewrite send_notification_to_token_ready by done.
      rewrite or_empty_Some, <- Hw.
      destruct (messaging_Notification env _ _ _) as [nt | e].
      * destruct (messaging_send env nt _ _ _) as [[message_id | e] w] eqn:Hsend;
          eexists _, _; (split; [reflexivity |]); simpl;
          split_and!; try done; try congruence;
          intros _; (split; [by rewrite <- Hres |]); intros _;
          (split; [by rewrite <- Hsvc |]); intros _; done.
      * eexists _, _. split; [reflexivity |]. simpl.
        split_and!; try done; try congruence.
        intros _. split; [by rewrite <- Hres |]. intros _.
        split; [by rewrite <- Hsvc |]. done.
    + eexists _, _. split; [reflexivity |].
      split_and!; try done; try congruence.
      intros _. split; [by rewrite <- Hres |]. intros _.
      split; [| by rewrite <- Hsvc]. done.
  - eexists _, _. split; [reflexivity |]. simpl.
    split_and!; try done; try congruence.
    intros _. split; [| by rewrite <- Hres].
    intros e' He'. rewrite <- Hres in He'. by injection He' as <-.
Qed.

Lemma send_test_notification_unavailable request s :
  truthy_str (TestRequest.token request) = true ->
  settled s ->
  _app (service s) = None ->
  send_test_notification request s
  = (Return test_unavailable, test_request_logged request s).
Proof.
  intros Htok Hset Happ. rewrite send_test_notification_eq. cbv zeta.
  rewrite Htok. cbn [negb].
  rewrite is_firebase_available_settled by done.
  cbn [test_request_logged service]. by rewrite Happ.
Qed.

(** X21.  An initialisation error is answered once.  When the first
    gateway initialisation raises, the first call of the test endpoint
    that carries a token is answered with 500 "Internal server error"
    and the error text; every call after it is answered with 503, the
    gateway being marked as attempted, and sends nothing. *)
Theorem test_endpoint_after_initialisation_error first second s e :
  truthy_str (TestRequest.token first) = true ->
  truthy_str (TestRequest.token second) = true ->
  fst (initialize_firebase s) = Raise e ->
  exists s1 s2,
    send_test_notification first s = (Return (test_internal_error (str e)), s1)
    /\ send_test_notification second s1 = (Return test_unavailable, s2)
    /\ world s2 = world s1.
Proof.
  intros H1 H2 He.
  rewrite send_test_notification_eq. cbv zeta. rewrite H1. cbn [negb].
  set (s0 := test_request_logged first s).
  destruct (initialize_firebase_local s0 s eq_refl eq_refl) as (Hres & _ & _).
  rewrite He in Hres.
  pose proof (initialize_firebase_raised s0 e Hres) as Happ.
  destruct (initialize_firebase_frame s0) as (_ & _ & _ & Hset).
  unfold is_firebase_available, bind at 1.
  destruct (initialize_firebase s0) as [[[] | e'] s'] eqn:Hinit; [done |].
  simpl in Hres, Happ, Hset. injection Hres as ->.
  eexists _, _. split; [reflexivity |].
  rewrite send_test_notification_unavailable; [| done | done | done].
  split; reflexivity.
Qed.

(** ** How a row is displayed *)

Lemma length_str_prefix (k : nat) (text : string) :
  String.length (str_prefix k text) = (k `min` String.length text)%nat.
Proof.
  unfold str_prefix. revert text. induction k as [| k IH]; intros [| c text];
    simpl; try done. by rewrite IH.
Qed.

Lemma str_prefix_is_prefix (k : nat) (text : string) :
  String.prefix (str_prefix k text) text = true.
Proof.
  unfold str_prefix. revert text. induction k as [| k IH]; intros [| c text];
    simpl; try done. rewrite IH. by destruct (Ascii.ascii_dec c c).
Qed.

Lemma str_prefix_short (k : nat) (text : string) :
  (String.length text <= k)%nat -> str_prefix k text = text.
Proof.
  unfold str_prefix. revert text. induction k as [| k IH]; intros [| c text];
    simpl; try done; [lia |]. intros H. rewrite IH; [done | lia].
Qed.

Lemma length_string_app (t1 t2 : string) :
  String.length (t1 +:+ t2) = (String.length t1 + String.length t2)%nat.
Proof. induction t1 as [| c t1 IH]; simpl; [done | by rewrite IH]. Qed.

Lemma ascii_only_app (t1 t2 : string) :
  ascii_only t1 -> ascii_only t2 -> ascii_only (t1 +:+ t2).
Proof.
  induction t1 as [| c t1 IH]; simpl; [done |]. intros [Hc H1] H2. auto.
Qed.

Lemma ascii_only_str_prefix (k : nat) (text : string) :
  ascii_only text -> ascii_only (str_prefix k text).
Proof.
  unfold str_prefix. revert text. induction k as [| k IH]; intros [| c text];
    simpl; try done. intros [Hc Hrest]. auto.
Qed.

(** X22.  How an endpoint with an ASCII token is displayed.  The token
    preview of the admin list is empty for an empty token; for any other
    token it is the first min(20, length) characters of the token
    followed by "...", so it is never longer than 23 characters and a
    token of at most 20 characters is shown in full; the preview is ASCII
    again.  [DeviceToken.__str__] is the platform, " - " and that
    preview for a non-empty token; for the empty token, where the preview
    is empty, it still ends in the dots: the platform and " - ...". *)
Theorem token_preview_shows_a_prefix (obj : DeviceToken.t) :
  ascii_only (DeviceToken.token obj) ->
  let token := DeviceToken.token obj in
  ascii_only (token_preview obj)
  /\ (String.length (token_preview obj) <= 23)%nat
  /\ (token = "" ->
      token_preview obj = ""
      /\ DeviceToken_str obj = DeviceToken.device_type obj +:+ " - ...")
  /\ (token <> "" ->
      exists shown,
        token_preview obj = shown +:+ "..."
        /\ String.prefix shown token = true
        /\ String.length shown = (20 `min` String.length token)%nat
        /\ DeviceToken_str obj
           = DeviceToken.device_type obj +:+ " - " +:+ token_preview obj)
  /\ ((0 < String.length token <= 20)%nat -> token_preview obj = token +:+ "...").
Proof.
  intros Hascii. cbv zeta. unfold token_preview, DeviceToken_str.
  destruct (String.eqb_spec (DeviceToken.token obj) "") as [Hempty | Hne];
    cbn [negb].
  - rewrite Hempty. simpl. split_and!; try done; lia.
  - split_and!; try done.
    + apply ascii_only_app; [by apply ascii_only_str_prefix |].
      simpl. by split_and!.
    + rewrite length_string_app, length_str_prefix.
      change (String.length "...") with 3%nat. lia.
    + intros _. eexists. split; [reflexivity |].
      by rewrite str_prefix_is_prefix, length_str_prefix.
    + intros [_ Hlen]. by rewrite str_prefix_short.
Qed.

End Further.

(** * The properties at concrete inputs *)

#[local] Existing Instance Demo.env.

Lemma dispatch_counters_witness :
  notifications (db Demo.three_endpoints) !! 1 = Some (Demo.notification 1 draft)
  /\ target_queryset (db Demo.three_endpoints) (Demo.notification 1 draft) <> []
  /\ init_quiet Demo.three_endpoints
  /\ exists s' n',
       run_dispatcher Automatic (Demo.notification 1 draft) Demo.three_endpoints
       = (Return tt, s')
       /\ notifications (db s') !! 1 = Some n'
       /\ PushNotification.successful_sends n' + PushNotification.failed_sends n'
          = PushNotification.total_recipients n'.
Proof.
  assert (H1 : notifications (db Demo.three_endpoints)
               !! PushNotification.id (Demo.notification 1 draft)
               = Some (Demo.notification 1 draft)) by (vm_compute; reflexivity).
  assert (H2 : target_queryset (db Demo.three_endpoints) (Demo.notification 1 draft) <> [])
    by (vm_compute; discriminate).
  assert (H3 : init_quiet Demo.three_endpoints) by (vm_compute; reflexivity).
  split_and!; try assumption.
  destruct (dispatch_counters Automatic (Demo.notification 1 draft)
              Demo.three_endpoints H1 H2 H3)
    as (s' & n' & rows & Hrun & Hlook & _ & _ & _ & _ & Hsum & _).
  exists s', n'. split_and!; [exact Hrun | exact Hlook | exact Hsum].
Defined.

Lemma dispatch_batching_witness :
  notifications (db Demo.three_endpoints) !! 1 = Some (Demo.notification 1 draft)
  /\ init_quiet Demo.three_endpoints
  /\ exists res s' rows,
       run_dispatcher Manual (Demo.notification 1 draft) Demo.three_endpoints
       = (res, s')
       /\ bulk_calls s' = [["a"; "b"; "c"]]
       /\ notification_logs (db s') = rows
       /\ map NotificationLog.device_token rows = [1; 2; 3]
       /\ map NotificationLog.status rows = [success; log_failed; success].
Proof.
  assert (H1 : notifications (db Demo.three_endpoints)
               !! PushNotification.id (Demo.notification 1 draft)
               = Some (Demo.notification 1 draft)) by (vm_compute; reflexivity).
  assert (H2 : init_quiet Demo.three_endpoints) by (vm_compute; reflexivity).
  split_and!; try assumption.
  pose proof (dispatch_batching Manual (Demo.notification 1 draft)
                Demo.three_endpoints H1 H2) as H.
  cbv zeta in H.
  destruct H
    as (_ & _ & _ & _ & res & s' & rows & Hrun & _ & Hbc & Hlogs & Hdev & _ & _ & Hzip).
  exists res, s', rows.
  vm_compute in Hbc. vm_compute in Hdev. vm_compute in Hlogs. vm_compute in Hzip.
  split_and!; [exact Hrun | exact Hbc | exact Hlogs | exact Hdev |].
  rewrite Hzip. reflexivity.
Defined.

Lemma no_recipients_witness :
  notifications (db Demo.no_endpoints) !! 1 = Some (Demo.notification 1 draft)
  /\ target_queryset (db Demo.no_endpoints) (Demo.notification 1 draft) = []
  /\ exists res s',
       run_dispatcher Manual (Demo.notification 1 draft) Demo.no_endpoints
       = (res, s')
       /\ notifications (db s') !! 1 = Some (Demo.notification 1 failed)
       /\ res = Raise (Exception
                         "No valid device tokens found for targeting criteria").
Proof.
  assert (H1 : notifications (db Demo.no_endpoints)
               !! PushNotification.id (Demo.notification 1 draft)
               = Some (Demo.notification 1 draft)) by (vm_compute; reflexivity).
  assert (H2 : target_queryset (db Demo.no_endpoints) (Demo.notification 1 draft) = [])
    by (vm_compute; reflexivity).
  split_and!; try assumption.
  destruct (no_recipients Manual (Demo.notification 1 draft)
              Demo.no_endpoints H1 H2)
    as (res & s' & Hrun & _ & Hlook & _ & _ & _ & _ & Hres).
  exists res, s'. split_and!; [exact Hrun | exact Hlook | exact Hres].
Defined.

(** C3 as stated fails on the automatic path: with no eligible endpoint
    the dispatcher marks the request failed and returns normally; its
    caller is handed no error. *)
Lemma no_recipients_automatic_signals_nothing :
  target_queryset (db Demo.no_endpoints) (Demo.notification 1 draft) = []
  /\ fst (send_notification_async 1 Demo.no_endpoints) = Return tt
  /\ (~ exists e, fst (send_notification_async 1 Demo.no_endpoints) = Raise e)
  /\ logger (snd (send_notification_async 1 Demo.no_endpoints))
     = [(ERROR, "No valid device tokens found for notification 1")].
Proof.
  split_and!.
  - reflexivity.
  - by vm_compute.
  - intros [e He]. vm_compute in He. discriminate.
  - by vm_compute.
Qed.

Lemma registration_idempotent_witness :
  registry_ok (db Demo.one_inactive)
  /\ Forall (fun r => Request.token r = Some "a" /\ accepted (db Demo.one_inactive) r)
       [Request.Build (Some "a") (Some "web") (Some 2);
        Request.Build (Some "a") None None]
  /\ exists s' row,
       snd (register_all
              [Request.Build (Some "a") (Some "web") (Some 2);
               Request.Build (Some "a") None None] Demo.one_inactive) = s'
       /\ rows_with "a" (db s') = [row]
       /\ reflects (Request.Build (Some "a") None None) row.
Proof.
  assert (H1 : registry_ok (db Demo.one_inactive)).
  { unfold registry_ok. simpl. split_and!.
    - apply NoDup_singleton.
    - apply NoDup_singleton.
    - by apply Forall_singleton. }
  assert (H2 : Forall (fun r => Request.token r = Some "a"
                               /\ accepted (db Demo.one_inactive) r)
                 [Request.Build (Some "a") (Some "web") (Some 2);
                  Request.Build (Some "a") None None]).
  { apply Forall_cons. split; [| apply Forall_cons; split; [| by apply Forall_nil]].
    - split; [reflexivity |]. split; [reflexivity |].
      intros _. simpl. set_solver.
    - split; [reflexivity |]. split; [reflexivity |].
      intros H. discriminate H. }
  split_and!; try assumption.
  destruct (registration_idempotent "a" _ _ Demo.one_inactive H1 H2)
    as (s' & row & Hrun & Hrows & Hrefl & _).
  exists s', row. split_and!; [| exact Hrows | exact Hrefl].
  by rewrite Hrun.
Defined.

Lemma registration_activates_and_owns_witness :
  exists response s' row,
    register_device_token (Request.Build (Some "a") None None) Demo.one_inactive
    = (Return response, s')
    /\ Response.status response = HTTP_200_OK
    /\ rows_with "a" (db s') = [row]
    /\ DeviceToken.is_active row = true
    /\ DeviceToken.user row = None.
Proof.
  set (request := Request.Build (Some "a") None None).
  set (out := register_device_token request Demo.one_inactive).
  assert (Hout : out = (Return (registered false 1), snd out))
    by (vm_compute; reflexivity).
  destruct (registration_activates_and_owns request Demo.one_inactive
              (registered false 1) (snd out) Hout (or_introl eq_refl))
    as (tok & row & Htok & Hin & Honly & Hrtok & Hact & _ & Hnone & _ & _ & _).
  exists (registered false 1), (snd out), row.
  split_and!; [exact Hout | reflexivity | | exact Hact | by apply Hnone].
  injection Htok as <-.
  assert (Hrows : rows_with "a" (db (snd out))
                  = [DeviceToken.Build 1 None "a" "android" true])
    by (vm_compute; reflexivity).
  assert (Hdev : device_tokens (db (snd out))
                 = [DeviceToken.Build 1 None "a" "android" true])
    by (vm_compute; reflexivity).
  rewrite Hdev in Hin. apply list_elem_of_singleton in Hin. subst row.
  exact Hrows.
Defined.

(** C8 on the code: unregistering a token that no endpoint carries is
    answered with 500 "Internal server error", not with a not-found
    error; no row is touched. *)
Theorem unregister_unknown_token_is_500 :
  rows_with "ghost" (db Demo.one_inactive) = []
  /\ fst (unregister_device_token (Request.Build (Some "ghost") None None)
            Demo.one_inactive)
     = Return (Response.Build [("error", JString "Internal server error")] 500)
  /\ db (snd (unregister_device_token (Request.Build (Some "ghost") None None)
                Demo.one_inactive))
     = db Demo.one_inactive.
Proof. split_and!; by vm_compute. Qed.

(** C6 as stated fails: with a credential file that cannot be loaded, the
    first single-recipient call of the process lets the initialisation
    error through to its caller. *)
Lemma single_send_propagates_initialisation_error :
  fst (send_notification_to_token "abc" "Test" "Hello" None None
         (Demo.boot Demo.Unusable [] Demo.empty_db))
  = Raise (Exception "Failed to initialize a certificate credential.").
Proof. by vm_compute. Qed.

Lemma bulk_form_is_loop_when_configured_witness :
  fst (is_firebase_available (Demo.boot Demo.Valid ["b"] Demo.empty_db)) = Return true
  /\ exists r results,
       fst (send_notification_to_multiple_tokens ["a"; "b"] "Hello" "World" None None
              (Demo.boot Demo.Valid ["b"] Demo.empty_db)) = Return r
       /\ fst (send_one_by_one ["a"; "b"] "Hello" "World" None None
                (Demo.boot Demo.Valid ["b"] Demo.empty_db)) = Return results
       /\ map strip (BulkResult.responses r) = results
       /\ BulkResult.success_count r = count_delivered results.
Proof.
  assert (H : fst (is_firebase_available (Demo.boot Demo.Valid ["b"] Demo.empty_db))
              = Return true) by (vm_compute; reflexivity).
  split; [exact H |].
  destruct (bulk_form_is_loop_when_configured ["a"; "b"] "Hello" "World" None None
              (Demo.boot Demo.Valid ["b"] Demo.empty_db) H)
    as (r & s1 & results & s2 & Hbulk & Hloop & Hstrip & _ & Hcount & _).
  exists r, results. rewrite Hbulk, Hloop.
  split_and!; [reflexivity | reflexivity | exact Hstrip | exact Hcount].
Defined.

(** C5 as stated fails when the gateway is not configured: the
    single-recipient form answers its fixed not-configured message
    without calling the SDK, the bulk form calls the SDK for every token
    and reports what the SDK raised. *)
Lemma bulk_form_differs_when_not_configured :
  fst (is_firebase_available (Demo.boot Demo.Absent [] Demo.empty_db)) = Return false
  /\ fst (send_one_by_one ["abc"] "Hello" "World" None None
           (Demo.boot Demo.Absent [] Demo.empty_db))
     = Return [not_delivered not_configured]
  /\ exists r,
       fst (send_notification_to_multiple_tokens ["abc"] "Hello" "World" None None
              (Demo.boot Demo.Absent [] Demo.empty_db)) = Return r
       /\ map strip (BulkResult.responses r)
          = [not_delivered "The default Firebase app does not exist."]
       /\ map strip (BulkResult.responses r) <> [not_delivered not_configured].
Proof.
  split_and!; [by vm_compute | by vm_compute |].
  eexists. split; [by vm_compute |]. split; [by vm_compute |].
  vm_compute. discriminate.
Qed.

Lemma db_with_keyed rows ns : db_keyed (Demo.db_with rows ns).
Proof.
  intros i n Hn. unfold Demo.db_with in Hn. simpl in Hn.
  apply elem_of_list_to_map_2 in Hn.
  apply list_elem_of_In, in_map_iff in Hn as (n' & [= <- <-] & _). done.
Qed.

Lemma lifecycle_monotonic_witness :
  trigger_ok Demo.two_requests (AdminAction [1; 2])
  /\ exists s' entries,
       fire (AdminAction [1; 2]) Demo.two_requests = (Return tt, s')
       /\ journal (db s') = entries
       /\ follows draft (written_for 1 entries)
       /\ written_for 2 entries = []
       /\ notifications (db s') !! 2 = Some (Demo.notification 2 sent).
Proof.
  assert (Hok : trigger_ok Demo.two_requests (AdminAction [1; 2])).
  { split; [| apply db_with_keyed].
    apply NoDup_cons. split; [set_solver |]. apply NoDup_singleton. }
  split; [exact Hok |].
  destruct (lifecycle_monotonic (AdminAction [1; 2]) Demo.two_requests Hok)
    as (s' & entries & Hrun & Hj & Hall).
  exists s', entries.
  assert (H1 : notifications (db Demo.two_requests) !! 1
               = Some (Demo.notification 1 draft)) by (vm_compute; reflexivity).
  assert (H2 : notifications (db Demo.two_requests) !! 2
               = Some (Demo.notification 2 sent)) by (vm_compute; reflexivity).
  destruct (Hall 1) as (_ & _ & Hone). destruct (Hone _ H1) as (Hfollows & _ & _).
  destruct (Hall 2) as (_ & _ & Htwo).
  destruct (Htwo _ H2) as (_ & _ & Hskip).
  destruct Hskip as [Hnone Hsame]; [discriminate |].
  split_and!; [exact Hrun | exact Hj | exact Hfollows | exact Hnone | exact Hsame].
Defined.

(** C2 as stated fails when the first gateway initialisation of the
    process raises: the one bulk call of the pass raises with it, and the
    pass ends without an outcome row for the endpoint it had resolved. *)
Lemma dispatch_without_outcome_rows :
  let s := Demo.boot Demo.Unusable []
             (Demo.db_with [Demo.endpoint 1 "a"] [Demo.notification 1 draft]) in
  target_queryset (db s) (Demo.notification 1 draft) = [Demo.endpoint 1 "a"]
  /\ bulk_calls (snd (send_notification_async 1 s)) = [["a"]]
  /\ notification_logs (db (snd (send_notification_async 1 s))) = []
  /\ notification_logs
       (db (snd (_send_single_notification (Demo.notification 1 draft) s))) = [].
Proof. split_and!; by vm_compute. Qed.

(** C9 as stated fails for metadata the endpoint turns down: a
    registration that names a user who does not exist is answered with
    404 and leaves no row for the token. *)
Lemma registration_refused_leaves_no_row :
  let out := register_device_token (Request.Build (Some "fresh") None (Some 999))
               Demo.one_inactive in
  fst out = Return (Response.Build [("error", JString "User not found")] 404)
  /\ rows_with "fresh" (db (snd out)) = [].
Proof. split; by vm_compute. Qed.

(** C10 as stated fails for a [user_id] of 0: the call succeeds, and the
    owner of the row is not the user given but no user at all; here the
    endpoint loses the owner it had. *)
Lemma registration_with_user_id_zero_has_no_owner :
  let request := Request.Build (Some "a") None (Some 0) in
  let out := register_device_token request Demo.one_inactive in
  rows_with "a" (db Demo.one_inactive)
  = [DeviceToken.Build 1 (Some 1) "a" "ios" false]
  /\ fst out = Return (registered false 1)
  /\ Response.status (registered false 1) = HTTP_200_OK
  /\ rows_with "a" (db (snd out)) = [DeviceToken.Build 1 None "a" "android" true]
  /\ DeviceToken.user (DeviceToken.Build 1 None "a" "android" true)
     <> Request.user_id request.
Proof. split_and!; by vm_compute. Qed.

(** The same empty audience through the admin action: the exception
    raised by the manual dispatcher leaves the [transaction.atomic()]
    block, so the two writes are rolled back and the stored request is
    still a draft; the operator is shown the error. *)
Lemma admin_action_rolls_back_no_recipients :
  let out := fire (AdminAction [1]) Demo.no_endpoints in
  fst out = Return tt
  /\ db (snd out) = db Demo.no_endpoints
  /\ messages (snd out)
     = [(ERROR, "Failed to send notification 'Hello': "
                +:+ "No valid device tokens found for targeting criteria");
        (ERROR, "Failed to send 1 notification(s)")].
Proof. split_and!; by vm_compute. Qed.

(** ** The further properties at concrete inputs *)

Ltac by_computation := apply (bool_decide_unpack _); vm_compute; exact I.

Lemma initialize_firebase_once_witness :
  service (set_world (Demo.fresh_world Demo.Valid [])
             (snd (initialize_firebase (Demo.boot Demo.Unusable [] Demo.empty_db))))
  = service (snd (initialize_firebase (Demo.boot Demo.Unusable [] Demo.empty_db)))
  /\ fst (initialize_firebase (Demo.boot Demo.Unusable [] Demo.empty_db))
     = Raise (Exception "Failed to initialize a certificate credential.")
  /\ fst (is_firebase_available
            (set_world (Demo.fresh_world Demo.Valid [])
               (snd (initialize_firebase
                       (Demo.boot Demo.Unusable [] Demo.empty_db)))))
     = Return false.
Proof.
  set (s := Demo.boot Demo.Unusable [] Demo.empty_db).
  set (s2 := set_world (env:=Demo.env) (Demo.fresh_world Demo.Valid []) (snd (initialize_firebase s))).
  assert (H : service s2 = service (snd (initialize_firebase s))) by reflexivity.
  assert (He : fst (initialize_firebase s)
               = Raise (Exception "Failed to initialize a certificate credential."))
    by (vm_compute; reflexivity).
  split_and!; [exact H | exact He |].
  pose proof (initialize_firebase_once s s2) as Honce. cbv zeta in Honce.
  destruct (Honce H) as (_ & _ & Hraise).
  by rewrite (Hraise _ He).
Defined.

Lemma missing_key_disables_gateway_witness :
  _app (service (Demo.boot Demo.Absent [] Demo.empty_db)) = None
  /\ _initialized (service (Demo.boot Demo.Absent [] Demo.empty_db)) = false
  /\ truthy_str (FIREBASE_SERVICE_ACCOUNT_KEY Demo.env)
     && os_path_exists Demo.env (default "" (FIREBASE_SERVICE_ACCOUNT_KEY Demo.env))
          (world (Demo.boot Demo.Absent [] Demo.empty_db))
     = false
  /\ fst (is_firebase_available (Demo.boot Demo.Absent [] Demo.empty_db))
     = Return false.
Proof.
  set (s := Demo.boot Demo.Absent [] Demo.empty_db).
  assert (H1 : _app (service s) = None) by reflexivity.
  assert (H2 : _initialized (service s) = false) by reflexivity.
  assert (H3 : truthy_str (FIREBASE_SERVICE_ACCOUNT_KEY Demo.env)
               && os_path_exists Demo.env
                    (default "" (FIREBASE_SERVICE_ACCOUNT_KEY Demo.env)) (world s)
               = false) by (vm_compute; reflexivity).
  split_and!; [exact H1 | exact H2 | exact H3 |].
  destruct (missing_key_disables_gateway s H1 H2 H3) as (s1 & Hrun & _).
  by rewrite Hrun.
Defined.

Lemma bulk_form_attempts_every_token_witness :
  init_quiet (Demo.boot Demo.Valid ["b"] Demo.empty_db)
  /\ exists r,
       fst (send_notification_to_multiple_tokens ["a"; "b"] "Hello" "World" None None
              (Demo.boot Demo.Valid ["b"] Demo.empty_db)) = Return r
       /\ map TokenResponse.token (BulkResult.responses r) = ["a"; "b"]
       /\ BulkResult.success_count r + BulkResult.failure_count r = 2.
Proof.
  set (s := Demo.boot Demo.Valid ["b"] Demo.empty_db).
  assert (H : init_quiet s) by (vm_compute; reflexivity).
  split; [exact H |].
  pose proof (bulk_form_attempts_every_token ["a"; "b"] "Hello" "World" None None s H)
    as Hbulk.
  cbv zeta in Hbulk.
  destruct Hbulk as (r & s' & Hrun & _ & _ & Htok & _ & _ & _ & Hsum & _).
  exists r. rewrite Hrun. split_and!; [reflexivity | exact Htok | exact Hsum].
Defined.

Lemma three_endpoints_ok : registry_ok (db Demo.three_endpoints).
Proof. unfold registry_ok. split_and!; by_computation. Qed.

Lemma one_inactive_ok : registry_ok (db Demo.one_inactive).
Proof. unfold registry_ok. split_and!; by_computation. Qed.

Lemma unregister_deactivates_its_row_witness :
  registry_ok (db Demo.three_endpoints)
  /\ rows_with "b" (db Demo.three_endpoints) = [Demo.endpoint 2 "b"]
  /\ exists s',
       snd (unregister_device_token (Request.Build (Some "b") None None)
              Demo.three_endpoints) = s'
       /\ rows_with "b" (db s') = [deactivated (Demo.endpoint 2 "b")]
       /\ registry_ok (db s').
Proof.
  assert (H2 : rows_with "b" (db Demo.three_endpoints) = [Demo.endpoint 2 "b"])
    by (vm_compute; reflexivity).
  assert (H3 : "b" <> "") by discriminate.
  split_and!; [exact three_endpoints_ok | exact H2 |].
  destruct (unregister_deactivates_its_row "b" (Request.Build (Some "b") None None)
              (Demo.endpoint 2 "b") Demo.three_endpoints three_endpoints_ok
              eq_refl H3 H2)
    as (before & after & s' & _ & Hrun & _ & Hrows & Hok).
  exists s'. rewrite Hrun. split_and!; [reflexivity | exact Hrows | exact Hok].
Defined.

Lemma registration_leaves_other_tokens_witness :
  registry_ok (db Demo.three_endpoints)
  /\ rows_with "b"
       (db (snd (register_device_token
                   (Request.Build (Some "a") (Some "ios") (Some 1))
                   Demo.three_endpoints)))
     = [Demo.endpoint 2 "b"].
Proof.
  split; [exact three_endpoints_ok |].
  rewrite (registration_leaves_other_tokens
             (Request.Build (Some "a") (Some "ios") (Some 1)) "b"
             Demo.three_endpoints three_endpoints_ok);
    [by vm_compute | discriminate].
Defined.

Lemma unregistered_token_is_never_targeted_witness :
  registry_ok (db Demo.three_endpoints)
  /\ rows_with "b" (db Demo.three_endpoints) = [Demo.endpoint 2 "b"]
  /\ forall n t,
       t ∈ target_queryset
             (db (snd (unregister_device_token (Request.Build (Some "b") None None)
                         Demo.three_endpoints))) n ->
       DeviceToken.token t <> "b".
Proof.
  assert (H2 : rows_with "b" (db Demo.three_endpoints) = [Demo.endpoint 2 "b"])
    by (vm_compute; reflexivity).
  assert (H3 : "b" <> "") by discriminate.
  split_and!; [exact three_endpoints_ok | exact H2 |].
  exact (unregistered_token_is_never_targeted "b"
           (Request.Build (Some "b") None None) (Demo.endpoint 2 "b")
           Demo.three_endpoints three_endpoints_ok eq_refl H3 H2).
Defined.

Lemma registered_token_is_targeted_witness :
  registry_ok (db Demo.one_inactive)
  /\ accepted (db Demo.one_inactive) (Request.Build (Some "a") None None)
  /\ exists row,
       rows_with "a"
         (db (snd (register_device_token (Request.Build (Some "a") None None)
                     Demo.one_inactive))) = [row]
       /\ row ∈ target_queryset
                  (db (snd (register_device_token
                              (Request.Build (Some "a") None None)
                              Demo.one_inactive)))
                  (Demo.notification 1 draft).
Proof.
  assert (H2 : accepted (db Demo.one_inactive) (Request.Build (Some "a") None None)).
  { split; [reflexivity |]. intros H. discriminate H. }
  split_and!; [exact one_inactive_ok | exact H2 |].
  exact (registered_token_is_targeted "a" (Request.Build (Some "a") None None)
           (Demo.notification 1 draft) Demo.one_inactive one_inactive_ok H2
           eq_refl (or_introl eq_refl) (or_introl eq_refl)).
Defined.

Lemma unregister_then_register_restores_witness :
  registry_ok (db Demo.three_endpoints)
  /\ rows_with "a" (db Demo.three_endpoints) = [Demo.endpoint 1 "a"]
  /\ accepted (db Demo.three_endpoints)
       (Request.Build (Some "a") (Some "ios") (Some 1))
  /\ exists s1 s2 row,
       snd (unregister_device_token (Request.Build (Some "a") None None)
              Demo.three_endpoints) = s1
       /\ register_device_token (Request.Build (Some "a") (Some "ios") (Some 1)) s1
          = (Return (registered false 1), s2)
       /\ rows_with "a" (db s2) = [row]
       /\ DeviceToken.id row = 1
       /\ DeviceToken.is_active row = true.
Proof.
  assert (H2 : rows_with "a" (db Demo.three_endpoints) = [Demo.endpoint 1 "a"])
    by (vm_compute; reflexivity).
  assert (H3 : "a" <> "") by discriminate.
  assert (H4 : accepted (db Demo.three_endpoints)
                 (Request.Build (Some "a") (Some "ios") (Some 1))).
  { split; [reflexivity |]. intros _. by_computation. }
  split_and!; [exact three_endpoints_ok | exact H2 | exact H4 |].
  destruct (unregister_then_register_restores "a"
              (Request.Build (Some "a") None None)
              (Request.Build (Some "a") (Some "ios") (Some 1))
              (Demo.endpoint 1 "a") Demo.three_endpoints three_endpoints_ok
              H2 H3 eq_refl eq_refl H4)
    as (s1 & s2 & row & Hleave & Hcome & Hrows & Hid & (_ & _ & Hact) & _).
  exists s1, s2, row. rewrite Hleave.
  split_and!; [reflexivity | exact Hcome | exact Hrows | exact Hid | exact Hact].
Defined.

Lemma registry_calls_keep_the_table_well_formed_witness :
  registry_ok (db Demo.one_inactive)
  /\ registry_ok
       (db (snd (register_device_token (Request.Build (Some "new") None None)
                   Demo.one_inactive)))
  /\ length
       (device_tokens
          (db (snd (register_device_token (Request.Build (Some "new") None None)
                      Demo.one_inactive)))) = 2%nat.
Proof.
  split; [exact one_inactive_ok |].
  split; [| by vm_compute].
  exact (proj1 (registry_calls_keep_the_table_well_formed
                  (Request.Build (Some "new") None None) Demo.one_inactive
                  one_inactive_ok)).
Defined.

Lemma automatic_dispatch_initialisation_failure_witness :
  notifications
    (db (Demo.boot Demo.Unusable []
           (Demo.db_with [Demo.endpoint 1 "a"] [Demo.notification 1 draft])))
    !! 1 = Some (Demo.notification 1 draft)
  /\ ~ init_quiet
         (Demo.boot Demo.Unusable []
            (Demo.db_with [Demo.endpoint 1 "a"] [Demo.notification 1 draft]))
  /\ exists s' n',
       send_notification_async 1
         (Demo.boot Demo.Unusable []
            (Demo.db_with [Demo.endpoint 1 "a"] [Demo.notification 1 draft]))
       = (Return tt, s')
       /\ notifications (db s') !! 1 = Some n'
       /\ PushNotification.status n' = failed
       /\ PushNotification.total_recipients n' = 1
       /\ notification_logs (db s') = [].
Proof.
  set (s := Demo.boot Demo.Unusable []
              (Demo.db_with [Demo.endpoint 1 "a"] [Demo.notification 1 draft])).
  assert (H1 : notifications (db s) !! PushNotification.id (Demo.notification 1 draft)
               = Some (Demo.notification 1 draft)) by (vm_compute; reflexivity).
  assert (H2 : target_queryset (db s) (Demo.notification 1 draft) <> [])
    by (vm_compute; discriminate).
  assert (H3 : ~ init_quiet s) by (vm_compute; discriminate).
  split_and!; [exact H1 | exact H3 |].
  destruct (automatic_dispatch_initialisation_failure (Demo.notification 1 draft)
              s H1 H2 H3)
    as (s' & Hrun & Hrow & Hlogs & _).
  exists s'. eexists. split_and!; [exact Hrun | exact Hrow | reflexivity | |].
  - by vm_compute.
  - rewrite Hlogs. reflexivity.
Defined.

Lemma dispatch_log_records_the_gateway_answers_witness :
  notifications (db Demo.three_endpoints) !! 1 = Some (Demo.notification 1 draft)
  /\ init_quiet Demo.three_endpoints
  /\ exists s',
       run_dispatcher Automatic (Demo.notification 1 draft) Demo.three_endpoints
       = (Return tt, s')
       /\ map NotificationLog.status (notification_logs (db s'))
          = [success; log_failed; success]
       /\ Demo.outbox (world s') = ["a"; "c"].
Proof.
  assert (H1 : notifications (db Demo.three_endpoints)
               !! PushNotification.id (Demo.notification 1 draft)
               = Some (Demo.notification 1 draft)) by (vm_compute; reflexivity).
  assert (H2 : target_queryset (db Demo.three_endpoints) (Demo.notification 1 draft) <> [])
    by (vm_compute; discriminate).
  assert (H3 : init_quiet Demo.three_endpoints) by (vm_compute; reflexivity).
  split_and!; [exact H1 | exact H3 |].
  pose proof (dispatch_log_records_the_gateway_answers Automatic
                (Demo.notification 1 draft) Demo.three_endpoints H1 H2 H3) as H.
  cbv zeta in H. destruct H as (s' & Hrun & Hlog & Hw).
  exists s'. split_and!; [exact Hrun | |].
  - rewrite Hlog. by vm_compute.
  - rewrite Hw. by vm_compute.
Defined.

Lemma dispatchers_agree_witness :
  notifications (db Demo.three_endpoints) !! 1 = Some (Demo.notification 1 draft)
  /\ init_quiet Demo.three_endpoints
  /\ db (snd (send_notification_async 1 Demo.three_endpoints))
     = db (snd (_send_single_notification (Demo.notification 1 draft)
                  Demo.three_endpoints)).
Proof.
  assert (H1 : notifications (db Demo.three_endpoints)
               !! PushNotification.id (Demo.notification 1 draft)
               = Some (Demo.notification 1 draft)) by (vm_compute; reflexivity).
  assert (H2 : target_queryset (db Demo.three_endpoints) (Demo.notification 1 draft) <> [])
    by (vm_compute; discriminate).
  assert (H3 : init_quiet Demo.three_endpoints) by (vm_compute; reflexivity).
  split_and!; [exact H1 | exact H3 |].
  destruct (dispatchers_agree (Demo.notification 1 draft) Demo.three_endpoints
              H1 H2 H3)
    as (s1 & s2 & Hrun1 & Hrun2 & Hdb & _).
  change (PushNotification.id (Demo.notification 1 draft)) with 1 in Hrun1.
  by rewrite Hrun1, Hrun2.
Defined.

Lemma test_endpoint_after_initialisation_error_witness :
  fst (initialize_firebase (Demo.boot Demo.Unusable [] Demo.empty_db))
  = Raise (Exception "Failed to initialize a certificate credential.")
  /\ exists s1,
       send_test_notification (TestRequest.Build (Some "abc") None None None None)
         (Demo.boot Demo.Unusable [] Demo.empty_db)
       = (Return (test_internal_error
                    "Failed to initialize a certificate credential."), s1)
       /\ fst (send_test_notification
                 (TestRequest.Build (Some "abc") None None None None) s1)
          = Return test_unavailable.
Proof.
  set (s := Demo.boot Demo.Unusable [] Demo.empty_db).
  assert (He : fst (initialize_firebase s)
               = Raise (Exception "Failed to initialize a certificate credential."))
    by (vm_compute; reflexivity).
  split; [exact He |].
  destruct (test_endpoint_after_initialisation_error
              (TestRequest.Build (Some "abc") None None None None)
              (TestRequest.Build (Some "abc") None None None None)
              s _ eq_refl eq_refl He)
    as (s1 & s2 & Hfirst & Hsecond & _).
  exists s1. split; [exact Hfirst |]. by rewrite Hsecond.
Defined.

Lemma sending_is_transient_witness :
  trigger_ok Demo.two_requests (AdminAction [1; 2])
  /\ (forall i n, notifications (db Demo.two_requests) !! i = Some n ->
                  PushNotification.status n <> sending)
  /\ forall i n',
       notifications (db (snd (fire (AdminAction [1; 2]) Demo.two_requests))) !! i
       = Some n' ->
       PushNotification.status n' <> sending.
Proof.
  assert (H1 : trigger_ok Demo.two_requests (AdminAction [1; 2])).
  { split; [apply (bool_decide_unpack _); vm_compute; exact I
           | apply db_with_keyed]. }
  assert (H2 : map_Forall (fun _ n => PushNotification.status n <> sending)
                 (notifications (db Demo.two_requests)))
    by (apply (bool_decide_unpack _); vm_compute; exact I).
  split_and!; [exact H1 | exact H2 |].
  destruct (sending_is_transient (AdminAction [1; 2]) Demo.two_requests H1)
    as (s' & Hrun & _ & Hinv).
  rewrite Hrun. exact (Hinv H2).
Defined.

Lemma token_preview_shows_a_prefix_witness :
  ascii_only (DeviceToken.token (Demo.endpoint 1 "dQw4w9WgXcQ:APA91bHun4MxP5egoKMwt2KZF"))
  /\ token_preview (Demo.endpoint 1 "dQw4w9WgXcQ:APA91bHun4MxP5egoKMwt2KZF")
     = "dQw4w9WgXcQ:APA91bHu..."
  /\ (String.length
        (token_preview (Demo.endpoint 1 "dQw4w9WgXcQ:APA91bHun4MxP5egoKMwt2KZF"))
      <= 23)%nat.
Proof.
  assert (H : ascii_only
                (DeviceToken.token
                   (Demo.endpoint 1 "dQw4w9WgXcQ:APA91bHun4MxP5egoKMwt2KZF")))
    by (simpl; split_and!; by vm_compute).
  split_and!; [exact H | reflexivity |].
  pose proof (token_preview_shows_a_prefix
                (Demo.endpoint 1 "dQw4w9WgXcQ:APA91bHun4MxP5egoKMwt2KZF") H) as Hshow.
  cbv zeta in Hshow. exact (proj1 (proj2 Hshow)).
Defined.
